(** * NEC deck generator for SuperDARN arrays: a shallow embedding

    Embedding of [tools/NEC/nec_sd_generator.py] (Python 3, see its
    shebang line).  Conventions:

    - Python floats are idealised as real numbers ([R]); integers that
      count or index (wire numbers, segment counts, antenna indices) are
      [Z].  Division by a float variable raises [ZeroDivisionError] on a
      zero divisor, as in Python; division by a nonzero literal is plain
      real division.  Real numbers neither round nor overflow and there
      is no infinity and no NaN among them: the model follows a run as
      long as its float values stay finite, and the [OverflowError] or
      [ValueError] that Python raises on the others is not part of it.
    - The file system is a parameter of the script body: [writable] tells
      which paths [open(path, 'w')] succeeds on.
    - The module globals ([wire_number], [min_frequency]), the standard
      output and the output file form the state that is threaded through
      every effectful function; a raised exception leaves the state as it
      was at the point of the raise.
    - A card is a constructor with the positional fields of the format
      string that produces it; line terminators and the rendering of the
      numbers are not modelled. *)

From Stdlib Require Import ZArith List Sorted Reals Lra Lia Bool String.
From Stdlib Require Import Zfloor.
Import ListNotations.

Set Implicit Arguments.

(** ** The Python fragment the program relies on *)

Inductive exn : Type :=
| ValueError
| TypeError
| NotImplementedError
| IndexError
| ZeroDivisionError
| OSError.

Inductive result (A : Type) : Type :=
| Ok (a : A)
| Raise (e : exn).

Arguments Ok {A} a.
Arguments Raise {A} e.

(** Values whose Python type matters to the program: [args.beam] is the
    [int] default or a parsed [float]; [args.frequency] is the [float]
    default or the raw command-line string. *)
Inductive pyval : Type :=
| PyInt (z : Z)
| PyFloat (r : R)
| PyStr (s : string).

(** [scipy.constants.speed_of_light] *)
Definition speed_of_light : R := 299792458.

Definition aluminum_conductivity : R := 3.5e7.
Definition copper_conductivity : R := 5.96e7.
Definition annealed_copper_conductivity : R := 5.8e7.

(** [int(x)] on a float: truncation towards zero. *)
Definition py_int (x : R) : Z :=
  if Rle_dec 0 x then Zfloor x else Zceil x.

(** [a / b] on floats. *)
Definition fdiv (a b : R) : result R :=
  if Req_dec_T b 0 then Raise ZeroDivisionError else Ok (a / b)%R.

(** [a / b] on two [int]s: true division, the quotient is a [float]. *)
Definition int_truediv (a b : Z) : result pyval :=
  if (b =? 0)%Z then Raise ZeroDivisionError
  else Ok (PyFloat (IZR a / IZR b)).

(** [range(start, stop)] on integers. *)
Definition py_range (start stop : Z) : list Z :=
  map (fun i => (start + Z.of_nat i)%Z) (seq 0 (Z.to_nat (stop - start))).

(** [range(0, stop)] where [stop] is any value: only an [int] is accepted. *)
Definition range_to (stop : pyval) : result (list Z) :=
  match stop with
  | PyInt n => Ok (py_range 0 n)
  | PyFloat _ | PyStr _ => Raise TypeError
  end.

(** [l[i]] *)
Definition py_index {A : Type} (l : list A) (i : Z) : result A :=
  let j := if (0 <=? i)%Z then i else (Z.of_nat (List.length l) + i)%Z in
  if (j <? 0)%Z then Raise IndexError
  else match nth_error l (Z.to_nat j) with
       | Some a => Ok a
       | None => Raise IndexError
       end.

(** [x is 0] / [x is not 0]: identity with the cached small integer. *)
Definition is_int_zero (v : pyval) : bool :=
  match v with
  | PyInt 0 => true
  | _ => false
  end.

(** [v * 1e6] as used on [args.frequency]. *)
Definition mul_float (v : pyval) (k : R) : result R :=
  match v with
  | PyInt z => Ok (IZR z * k)%R
  | PyFloat r => Ok (r * k)%R
  | PyStr _ => Raise TypeError
  end.

(** [math.acos]: a [ValueError] (math domain error) outside [-1, 1]. *)
Definition math_acos (x : R) : result R :=
  if Rle_dec (-1) x then
    if Rle_dec x 1 then Ok (acos x) else Raise ValueError
  else Raise ValueError.

(** ** Cards *)

Inductive card : Type :=
| GW (wire_number segments : Z) (x1 y1 z1 x2 y2 z2 radius : R)
| GE (ground_plane_value : Z)
| LD4 (tag start_segment end_segment : Z) (impedance_real impedance_imag : R)
| LD5 (tag_number start_segment_number end_segment_number : Z) (conductivity : R)
| EX (kind tag segment : Z) (excitation_real excitation_imag : R)
| TL (tag1 segment1 tag2 segment2 : Z) (impedance length : R)
| GN (ground_type epse : Z) (conductivity : R)
| EK
| CP
| FR (num_freq_steps : Z) (start_frequency : pyval) (freq_step_size : R)
| RP (theta_steps phi_steps : Z)
     (theta_start phi_start theta_increment phi_increment : R)
| EN
| CM (title : string) (fields : list R).

(** ** State: module globals, standard output, output file *)

Inductive print_event : Type :=
| PrintCard (c : card)
| PrintMainAntenna (antenna : Z) (magnitude phase : R)
| PrintIntAntenna (antenna : Z) (magnitude phase : R)
| PrintWavelength (frequency_khz wavelength_m : R)
| PrintAcosArg (m : Z) (acos_arg : R)
| PrintList (title : string) (values : list R)
| PrintOutput (output_file : string).

Record globals : Type := mkGlobals {
  wire_number : Z;
  min_frequency : R;
  stdout : list print_event;
  outfile : list card
}.

(** The module as loaded: [wire_number = 0], [min_frequency = 8e6]. *)
Definition initial_globals : globals :=
  {| wire_number := 0; min_frequency := 8e6; stdout := []; outfile := [] |}.

Definition M (A : Type) : Type := globals -> result A * globals.

Definition ret {A : Type} (a : A) : M A := fun g => (Ok a, g).

Definition raise {A : Type} (e : exn) : M A := fun g => (Raise e, g).

Definition bind {A B : Type} (m : M A) (k : A -> M B) : M B :=
  fun g =>
    match m g with
    | (Ok a, g') => k a g'
    | (Raise e, g') => (Raise e, g')
    end.

Declare Scope py_scope.
Delimit Scope py_scope with py.
Notation "x <- m ;; k" := (bind m (fun x => k))
  (at level 61, m at next level, right associativity) : py_scope.
Notation "m ;;; k" := (bind m (fun _ => k))
  (at level 61, right associativity) : py_scope.
Open Scope py_scope.

(** A pure, fallible computation used inside an effectful one. *)
Definition lift {A : Type} (r : result A) : M A := fun g => (r, g).

Definition print (e : print_event) : M unit :=
  fun g => (Ok tt, {| wire_number := wire_number g;
                      min_frequency := min_frequency g;
                      stdout := stdout g ++ [e];
                      outfile := outfile g |}).

(** [f.write(...)] of a string made of the given cards. *)
Definition write (cs : list card) : M unit :=
  fun g => (Ok tt, {| wire_number := wire_number g;
                      min_frequency := min_frequency g;
                      stdout := stdout g;
                      outfile := outfile g ++ cs |}).

(** [open(path, 'w')].  Which paths can be opened for writing is up to
    the file system, [writable]: on one that cannot, an [OSError] is
    raised; on one that can, the file is left empty. *)
Definition open_for_writing (writable : string -> bool) (path : string)
  : M unit :=
  fun g =>
    if writable path then
      (Ok tt, {| wire_number := wire_number g;
                 min_frequency := min_frequency g;
                 stdout := stdout g;
                 outfile := [] |})
    else (Raise OSError, g).

(** [global wire_number; wire_number += 1], returning the new value. *)
Definition next_wire_number : M Z :=
  fun g => (Ok (wire_number g + 1)%Z,
            {| wire_number := (wire_number g + 1)%Z;
               min_frequency := min_frequency g;
               stdout := stdout g;
               outfile := outfile g |}).

Definition read_wire_number : M Z := fun g => (Ok (wire_number g), g).

Definition read_min_frequency : M R := fun g => (Ok (min_frequency g), g).

(** [for x in l: body(x)], collecting what each iteration produces. *)
Fixpoint mapM {A B : Type} (f : A -> M B) (l : list A) : M (list B) :=
  match l with
  | [] => ret []
  | x :: l' => y <- f x ;; ys <- mapM f l' ;; ret (y :: ys)
  end.

Fixpoint forM_ {A : Type} (f : A -> M unit) (l : list A) : M unit :=
  match l with
  | [] => ret tt
  | x :: l' => f x ;;; forM_ f l'
  end.

(** ** class Wire *)

Module Wire.

(** [self.wire_structure] *)
Record t : Type := mk {
  wire_number : Z;
  segments : Z;
  x1 : R; y1 : R; z1 : R;
  x2 : R; y2 : R; z2 : R;
  radius : R
}.

Definition wire_length (x1 y1 z1 x2 y2 z2 : R) : R :=
  sqrt ((z2 - z1) * (z2 - z1) + (y2 - y1) * (y2 - y1) + (x2 - x1) * (x2 - x1)).

Definition default_radius : R := 0.000127.

(** [Wire.__init__]; [segments = 0] asks for the automatic count. *)
Definition __init__ (x1 y1 z1 x2 y2 z2 radius : R) (segments : Z) : M t :=
  n <- next_wire_number ;;
  let wire_length := wire_length x1 y1 z1 x2 y2 z2 in
  segments <-
    (if (segments =? 0)%Z then
       min_frequency <- read_min_frequency ;;
       segment_length <- lift (fdiv (0.05 * speed_of_light) min_frequency) ;;
       q <- lift (fdiv wire_length segment_length) ;;
       let segments := py_int q in
       ret (if (segments mod 2 =? 0)%Z then (segments + 1)%Z else segments)
     else ret segments) ;;
  ret {| wire_number := n; segments := segments;
         x1 := x1; y1 := y1; z1 := z1;
         x2 := x2; y2 := y2; z2 := z2; radius := radius |}.

Definition get_mid_segment (self : t) : result Z :=
  if (segments self mod 2 =? 0)%Z then Raise ValueError
  else Ok (1 + py_int (IZR (segments self) / 2))%Z.

Definition get_wire_number (self : t) : Z := wire_number self.

Definition translate (self : t) (x y z : R) : t :=
  {| wire_number := wire_number self; segments := segments self;
     x1 := x1 self + x; y1 := y1 self + y; z1 := z1 self + z;
     x2 := x2 self + x; y2 := y2 self + y; z2 := z2 self + z;
     radius := radius self |}.

Definition rotate_x_axis (self : t) (alpha : R) : result t :=
  Raise NotImplementedError.

Definition __repr__ (self : t) : card :=
  GW (wire_number self) (segments self)
     (x1 self) (y1 self) (z1 self) (x2 self) (y2 self) (z2 self)
     (radius self).

End Wire.

(** ** class Load, class Source, class TransmissionLine *)

Module Load.

Definition default_impedance_real : R := 100.
Definition default_impedance_imag : R := 0.

(** The object keeps the card built at construction time. *)
Definition __init__ (tag start_segment end_segment : Z)
    (impedance_real impedance_imag : R) : card :=
  LD4 tag start_segment end_segment impedance_real impedance_imag.

End Load.

Module Source.

Definition __init__ (tag segment : Z) (excitation_real excitation_imag : R)
    (current_source : bool) : card :=
  if current_source then
    let excitation_real :=
      if Req_dec_T excitation_real 0 then (excitation_real + 1e-10)%R
      else excitation_real in
    let excitation_imag :=
      if Req_dec_T excitation_imag 0 then (excitation_imag + 1e-10)%R
      else excitation_imag in
    EX 6 tag segment excitation_real excitation_imag
  else
    EX 0 tag segment excitation_real excitation_imag.

End Source.

Module TransmissionLine.

Definition default_impedance : R := 50.
Definition default_length : R := 0.

Definition __init__ (tag1 segment1 tag2 segment2 : Z) (crossed : bool)
    (impedance length : R) : card :=
  let impedance := if crossed then (impedance * -1)%R else impedance in
  TL tag1 segment1 tag2 segment2 impedance length.

End TransmissionLine.

(** ** Wire gauge *)

Definition get_mm_radius_from_awg (awg : Z) : result R :=
  if ((awg <? 0) || (awg >? 36))%Z then Raise ValueError
  else Ok (0.127 * Rpower 92 (IZR (36 - awg) / IZR 39))%R.

(** ** class Reflector *)

Module Reflector.

Record t : Type := mk { reflector_wires : list Wire.t }.

Definition __init__ (length_m spacing_m start_height_m : R) (num_wires awg : Z)
    (angle global_x global_y global_z : R) : M t :=
  r <- lift (get_mm_radius_from_awg awg) ;;
  let radius := (r / 1000)%R in
  if (num_wires =? 0)%Z then raise NotImplementedError
  else
    reflector_wires <-
      mapM (fun reflector_wire : Z =>
              let x1 := (- length_m / 2)%R in
              let x2 := (length_m / 2)%R in
              let y := (- IZR reflector_wire * cos (angle * PI / 180) * spacing_m)%R in
              let z := (IZR reflector_wire * sin (angle * PI / 180) * spacing_m)%R in
              Wire.__init__ (x1 + global_x) (y + global_y)
                            (start_height_m - z + global_z) (x2 + global_x)
                            (y + global_y) (start_height_m - z + global_z)
                            radius 0)
           (py_range 0 num_wires) ;;
    ret {| reflector_wires := reflector_wires |}.

Definition __repr__ (self : t) : list card :=
  map Wire.__repr__ (reflector_wires self).

End Reflector.

(** ** class LogPeriodic *)

Module LogPeriodic.

Record t : Type := mk {
  drivens : list Wire.t;
  excitation : card;
  transmissionlines : list card;
  tau : R; sigma : R; alpha : R; stub_length_m : R;
  comment_string : card
}.

(** [for index, driven in enumerate(self.drivens)] *)
Definition enumerate {A : Type} (l : list A) : list (Z * A) :=
  combine (py_range 0 (Z.of_nat (List.length l))) l.

Definition __init__ (height global_x global_y global_z
                     current_real current_imag : R) : M t :=
  let radius := 0.01%R in
  w <- Wire.__init__ (-6.04 / 2) 0 height (6.04 / 2) 0 height radius 13 ;;
  let drivens := [w] in
  first <- lift (py_index drivens 0) ;;
  mid_segment <- lift (Wire.get_mid_segment first) ;;
  let excitation :=
    Source.__init__ (Wire.get_wire_number first) mid_segment
                    current_real current_imag true in
  w <- Wire.__init__ (-6.70 / 2) 0.725 height (6.70 / 2) 0.725 height radius 15 ;;
  let drivens := drivens ++ [w] in
  w <- Wire.__init__ (-7.57 / 2) 1.585 height (7.57 / 2) 1.585 height radius 17 ;;
  let drivens := drivens ++ [w] in
  w <- Wire.__init__ (-8.46 / 2) 2.59 height (8.46 / 2) 2.59 height radius 19 ;;
  let drivens := drivens ++ [w] in
  w <- Wire.__init__ (-9.49 / 2) 3.765 height (9.49 / 2) 3.765 height radius 21 ;;
  let drivens := drivens ++ [w] in
  w <- Wire.__init__ (-10.55 / 2) 5.165 height (10.55 / 2) 5.165 height radius 23 ;;
  let drivens := drivens ++ [w] in
  w <- Wire.__init__ (-11.87 / 2) 6.68 height (11.87 / 2) 6.68 height radius 25 ;;
  let drivens := drivens ++ [w] in
  w <- Wire.__init__ (-13.37 / 2) 8.385 height (13.37 / 2) 8.385 height radius 27 ;;
  let drivens := drivens ++ [w] in
  w <- Wire.__init__ (-15.38 / 2) 10.325 height (15.38 / 2) 10.325 height radius 29 ;;
  let drivens := drivens ++ [w] in
  w <- Wire.__init__ (-15.40 / 2) 11.63 height (15.40 / 2) 11.63 height radius 31 ;;
  let drivens := drivens ++ [w] in
  lines <-
    mapM (fun '(index, driven) =>
            if (index =? 0)%Z then ret []
            else
              let wire_num := Wire.get_wire_number driven in
              mid_segment <- lift (Wire.get_mid_segment driven) ;;
              prev <- lift (py_index drivens (index - 1)) ;;
              let prev_wire_num := Wire.get_wire_number prev in
              prev <- lift (py_index drivens (index - 1)) ;;
              prev_mid_segment <- lift (Wire.get_mid_segment prev) ;;
              ret [TransmissionLine.__init__
                     prev_wire_num prev_mid_segment wire_num mid_segment true
                     TransmissionLine.default_impedance
                     TransmissionLine.default_length])
         (enumerate drivens) ;;
  let transmissionlines := List.concat lines in
  let tau := 0%R in
  let sigma := 0%R in
  let alpha := 0%R in
  let stub_length_m := 0%R in
  ret {| drivens := drivens; excitation := excitation;
         transmissionlines := transmissionlines;
         tau := tau; sigma := sigma; alpha := alpha;
         stub_length_m := stub_length_m;
         comment_string :=
           CM "Log-Periodic"
              [height; tau; (180 / PI * alpha)%R; sigma; stub_length_m] |}.

Definition repr_drivens (self : t) : list card :=
  map Wire.__repr__ (drivens self).

Definition repr_geometry (self : t) : list card := repr_drivens self.

Definition repr_loads (self : t) : list card := [].

Definition repr_transmissionlines (self : t) : list card :=
  transmissionlines self.

Definition repr_excitations (self : t) : list card := [excitation self].

Definition repr_comment_string (self : t) : list card := [comment_string self].

End LogPeriodic.

(** ** class TTFD *)

Module TTFD.

Record t : Type := mk {
  wire_radius_m : R;
  comment_string : card;
  topleftwire : Wire.t;
  topwire : Wire.t;
  toprightwire : Wire.t;
  middlewire : Wire.t;
  bottomleftwire : Wire.t;
  bottomwire : Wire.t;
  bottomrightwire : Wire.t;
  topload : card;
  bottomload : card;
  excitation : card
}.

Definition __init__ (wire_gauge : Z)
    (height termination mid_width top_width wire_spacing
     global_x global_y global_z current_real current_imag : R) : M t :=
  r <- lift (get_mm_radius_from_awg wire_gauge) ;;
  let wire_radius_m := (r / 1000)%R in
  let comment_string :=
    CM "SuperDARN TTFD"
       [height; IZR wire_gauge; termination; mid_width; top_width; wire_spacing] in
  topleftwire <- Wire.__init__ (- mid_width / 2) 0 height
                               (- top_width / 2) 0 (wire_spacing + height)
                               wire_radius_m 0 ;;
  let topleftwire := Wire.translate topleftwire global_x global_y global_z in
  topwire <- Wire.__init__ (- top_width / 2) 0 (wire_spacing + height)
                           (top_width / 2) 0 (wire_spacing + height)
                           wire_radius_m 0 ;;
  let topwire := Wire.translate topwire global_x global_y global_z in
  toprightwire <- Wire.__init__ (mid_width / 2) 0 height
                                (top_width / 2) 0 (wire_spacing + height)
                                wire_radius_m 0 ;;
  let toprightwire := Wire.translate toprightwire global_x global_y global_z in
  middlewire <- Wire.__init__ (- mid_width / 2) 0 height
                              (mid_width / 2) 0 height wire_radius_m 0 ;;
  let middlewire := Wire.translate middlewire global_x global_y global_z in
  bottomleftwire <- Wire.__init__ (- mid_width / 2) 0 height
                                  (- top_width / 2) 0 (- wire_spacing + height)
                                  wire_radius_m 0 ;;
  let bottomleftwire := Wire.translate bottomleftwire global_x global_y global_z in
  bottomwire <- Wire.__init__ (- top_width / 2) 0 (- wire_spacing + height)
                              (top_width / 2) 0 (- wire_spacing + height)
                              wire_radius_m 0 ;;
  let bottomwire := Wire.translate bottomwire global_x global_y global_z in
  bottomrightwire <- Wire.__init__ (mid_width / 2) 0 height
                                   (top_width / 2) 0 (- wire_spacing + height)
                                   wire_radius_m 0 ;;
  let bottomrightwire := Wire.translate bottomrightwire global_x global_y global_z in
  mid_segment <- lift (Wire.get_mid_segment topwire) ;;
  let wire_num := Wire.get_wire_number topwire in
  let topload :=
    Load.__init__ wire_num mid_segment mid_segment
                  Load.default_impedance_real Load.default_impedance_imag in
  print (PrintCard topload) ;;;
  mid_segment <- lift (Wire.get_mid_segment bottomwire) ;;
  let wire_num := Wire.get_wire_number bottomwire in
  let bottomload :=
    Load.__init__ wire_num mid_segment mid_segment
                  Load.default_impedance_real Load.default_impedance_imag in
  print (PrintCard bottomload) ;;;
  let wire_num := Wire.get_wire_number middlewire in
  mid_segment <- lift (Wire.get_mid_segment middlewire) ;;
  ret {| wire_radius_m := wire_radius_m; comment_string := comment_string;
         topleftwire := topleftwire; topwire := topwire;
         toprightwire := toprightwire; middlewire := middlewire;
         bottomleftwire := bottomleftwire; bottomwire := bottomwire;
         bottomrightwire := bottomrightwire;
         topload := topload; bottomload := bottomload;
         excitation :=
           Source.__init__ wire_num mid_segment current_real current_imag true |}.

Definition wires (self : t) : list Wire.t :=
  [topleftwire self; topwire self; toprightwire self; middlewire self;
   bottomleftwire self; bottomwire self; bottomrightwire self].

Definition repr_geometry (self : t) : list card :=
  map Wire.__repr__ (wires self).

Definition repr_loads (self : t) : list card := [topload self; bottomload self].

Definition repr_excitations (self : t) : list card := [excitation self].

Definition repr_transmissionlines (self : t) : list card := [].

Definition repr_comment_string (self : t) : list card := [comment_string self].

End TTFD.

(** The antenna objects the arrays are made of. *)
Inductive antenna : Type :=
| AntLogPeriodic (a : LogPeriodic.t)
| AntTTFD (a : TTFD.t).

Definition repr_geometry (a : antenna) : list card :=
  match a with
  | AntLogPeriodic a => LogPeriodic.repr_geometry a
  | AntTTFD a => TTFD.repr_geometry a
  end.

Definition repr_loads (a : antenna) : list card :=
  match a with
  | AntLogPeriodic a => LogPeriodic.repr_loads a
  | AntTTFD a => TTFD.repr_loads a
  end.

Definition repr_excitations (a : antenna) : list card :=
  match a with
  | AntLogPeriodic a => LogPeriodic.repr_excitations a
  | AntTTFD a => TTFD.repr_excitations a
  end.

Definition repr_transmissionlines (a : antenna) : list card :=
  match a with
  | AntLogPeriodic a => LogPeriodic.repr_transmissionlines a
  | AntTTFD a => TTFD.repr_transmissionlines a
  end.

Definition repr_comment_string (a : antenna) : list card :=
  match a with
  | AntLogPeriodic a => LogPeriodic.repr_comment_string a
  | AntTTFD a => TTFD.repr_comment_string a
  end.

(** ** Conductivity card, arrays *)

Definition create_wire_conductivity (tag_number start_segment_number
    end_segment_number : Z) (conductivity : R) : card :=
  LD5 tag_number start_segment_number end_segment_number conductivity.

Definition create_main_array (num_antennas : Z) (antenna_spacing_m : R)
    (antenna_magnitudes antenna_phases : list R) (log_periodics : bool)
  : M (list antenna) :=
  if negb (Z.of_nat (List.length antenna_magnitudes) =? num_antennas)%Z
  then raise ValueError
  else if negb (Z.of_nat (List.length antenna_phases) =? num_antennas)%Z
  then raise ValueError
  else
    let array_length_m := (IZR (num_antennas - 1) * antenna_spacing_m)%R in
    mapM (fun antenna : Z =>
            phase <- lift (py_index antenna_phases antenna) ;;
            magnitude <- lift (py_index antenna_magnitudes antenna) ;;
            let real_cur := (magnitude * cos (phase * PI / 180))%R in
            let imag_cur := (magnitude * sin (phase * PI / 180))%R in
            print (PrintMainAntenna antenna magnitude phase) ;;;
            let x_position :=
              (IZR antenna * antenna_spacing_m - array_length_m / 2)%R in
            if log_periodics then
              a <- LogPeriodic.__init__ 15 x_position 0 0 real_cur imag_cur ;;
              ret (AntLogPeriodic a)
            else
              a <- TTFD.__init__ 13 10 100 12 8 1.5 x_position 0 0
                                 real_cur imag_cur ;;
              ret (AntTTFD a))
         (py_range 0 num_antennas).

Definition create_int_array (num_antennas : Z) (antenna_spacing_m
    int_x_spacing_m int_y_spacing_m int_z_spacing_m : R)
    (antenna_magnitudes antenna_phases : list R) (log_periodics : bool)
  : M (list antenna) :=
  if negb (Z.of_nat (List.length antenna_magnitudes) =? num_antennas)%Z
  then raise ValueError
  else if negb (Z.of_nat (List.length antenna_phases) =? num_antennas)%Z
  then raise ValueError
  else
    let array_length_m := (IZR (num_antennas - 1) * antenna_spacing_m)%R in
    mapM (fun antenna : Z =>
            phase <- lift (py_index antenna_phases antenna) ;;
            magnitude <- lift (py_index antenna_magnitudes antenna) ;;
            let real_cur := (magnitude * cos (phase * PI / 180))%R in
            let imag_cur := (magnitude * sin (phase * PI / 180))%R in
            print (PrintIntAntenna antenna magnitude phase) ;;;
            let x_position :=
              (IZR antenna * antenna_spacing_m - array_length_m / 2)%R in
            let global_x_position := (x_position + int_x_spacing_m)%R in
            if log_periodics then
              a <- LogPeriodic.__init__ 15 global_x_position int_y_spacing_m
                                        int_z_spacing_m real_cur imag_cur ;;
              ret (AntLogPeriodic a)
            else
              a <- TTFD.__init__ 13 10 100 12 8 1.5 global_x_position
                                 int_y_spacing_m int_z_spacing_m
                                 real_cur imag_cur ;;
              ret (AntTTFD a))
         (py_range 0 num_antennas).

(** [None] is what the Python function returns when it falls off its end. *)
Definition end_geometry (ground_plane_value : Z) : option card :=
  if negb (ground_plane_value =? 0)%Z then Some (GE ground_plane_value)
  else None.

(** ** Beam forming *)

Definition calculate_angle_from_beam (beam_number beam_separation : R)
    (number_of_beams : Z) : R :=
  ((beam_number - IZR number_of_beams / 2 + 0.5) * beam_separation)%R.

Definition default_beam_separation : R := 3.24.
Definition default_number_of_beams : Z := 16.

Definition calculate_phase_from_beam (beam_number frequency_hz
    antenna_spacing_m : R) : M R :=
  wavelength_m <- lift (fdiv speed_of_light frequency_hz) ;;
  print (PrintWavelength (frequency_hz / 1000) wavelength_m) ;;;
  let beam_azimuth :=
    calculate_angle_from_beam beam_number default_beam_separation
                              default_number_of_beams in
  lift (fdiv (360 * antenna_spacing_m * sin (beam_azimuth * PI / 180))
             wavelength_m).

Definition calculate_parabolic_phase (frequency_hz antenna_spacing_m : R)
    (num_antennas : Z) : M (list R) :=
  raise NotImplementedError.

Definition calculate_circular_phase (frequency_hz antenna_spacing_m : R)
    (num_antennas : Z) : M (list R) :=
  raise NotImplementedError.

(** The phases one sub-array contributes: [temp_phase], [2 * temp_phase], ...
    ([prev_phase] is the last element appended). *)
Fixpoint sub_array_phases (temp_phase prev_phase : R) (ns : list Z) : list R :=
  match ns with
  | [] => []
  | _ :: ns' =>
      let p := (temp_phase + prev_phase)%R in
      p :: sub_array_phases temp_phase p ns'
  end.

(** [num_sub_arrays / 2] and [num_antennas / num_sub_arrays] are true
    divisions of two [int]s; their quotients are handed to [range].  The
    second loop reads the [wavelength_m] the first loop left behind, which is
    the same quotient in every iteration. *)
Definition calculate_broadened_phase (frequency_hz antenna_spacing_m : R)
    (num_antennas num_sub_arrays : Z) : M (list R) :=
  half <- lift (int_truediv num_sub_arrays 2) ;;
  ms <- lift (range_to half) ;;
  sub_array_azimuths <-
    mapM (fun m : Z =>
            wavelength_m <- lift (fdiv speed_of_light frequency_hz) ;;
            acos_arg <-
              lift (fdiv (IZR (2 * m + 1) * wavelength_m * IZR num_sub_arrays)
                         (IZR (2 * num_antennas) * antenna_spacing_m)) ;;
            print (PrintAcosArg m acos_arg) ;;;
            a <- lift (math_acos acos_arg) ;;
            ret (a - PI / 2)%R)
         ms ;;
  print (PrintList "Sub array azimuth values" sub_array_azimuths) ;;;
  print (PrintList "Sub array azimuth values degrees"
                   (map (fun x => (x * 180 / PI)%R) sub_array_azimuths)) ;;;
  elements_per_sub_array <- lift (int_truediv num_antennas num_sub_arrays) ;;
  half <- lift (int_truediv num_sub_arrays 2) ;;
  ms <- lift (range_to half) ;;
  groups <-
    mapM (fun m : Z =>
            azimuth <- lift (py_index sub_array_azimuths m) ;;
            wavelength_m <- lift (fdiv speed_of_light frequency_hz) ;;
            temp_phase <-
              lift (fdiv (360 * antenna_spacing_m * sin azimuth) wavelength_m) ;;
            ns <- lift (range_to elements_per_sub_array) ;;
            ret (sub_array_phases temp_phase 0 ns))
         ms ;;
  let element_phases := List.concat groups in
  let element_phases := element_phases ++ rev element_phases in
  print (PrintList "Element phases:" element_phases) ;;;
  ret element_phases.

(** ** Control cards *)

Definition frequency_card (num_freq_steps : Z) (start_frequency : pyval)
    (freq_step_size : R) : card :=
  FR num_freq_steps start_frequency freq_step_size.

Definition radiation_pattern_card (theta_start theta_increment : R)
    (theta_steps : Z) (phi_start phi_increment : R) (phi_steps : Z) : card :=
  RP theta_steps phi_steps theta_start phi_start theta_increment phi_increment.

Definition ground_card (ground_type epse : Z) (conductivity : R) : card :=
  GN ground_type epse conductivity.

Definition extended_kernel_card : card := EK.

Definition end_of_run_card : card := EN.

Definition max_coupling_card : card := CP.

(** ** The script body *)

Module Args.

(** The [argparse] namespace.  [beam] has [type=float] and the [int]
    default [0]; [frequency] has no [type] and the [float] default [10.5]. *)
Record t : Type := mk {
  antennas : Z;
  int_antennas : Z;
  power : R;
  phase : R;
  parabolic_phase : bool;
  circular_phase : bool;
  broadened_beam : bool;
  beam : pyval;
  frequency : pyval;
  without_fence : bool;
  antenna_spacing : R;
  int_x_spacing : R;
  int_y_spacing : R;
  int_z_spacing : R;
  output_file : string;
  log_periodic : bool
}.

(** The namespace of a run without command-line options. *)
Definition defaults : t :=
  {| antennas := 16; int_antennas := 4; power := 500; phase := 0;
     parabolic_phase := false; circular_phase := false;
     broadened_beam := false;
     beam := PyInt 0; frequency := PyFloat 10.5;
     without_fence := false; antenna_spacing := 15.24;
     int_x_spacing := 0; int_y_spacing := -100; int_z_spacing := 0;
     output_file := "superdarn_array_output.nec"; log_periodic := false |}.

End Args.

(** The number a value stands for in float arithmetic. *)
Definition float_of (v : pyval) : result R :=
  match v with
  | PyInt z => Ok (IZR z)
  | PyFloat r => Ok r
  | PyStr _ => Raise TypeError
  end.

(** [if args.beam is not 0: rel_phase = calculate_phase_from_beam(...)
     else: rel_phase = 0] *)
Definition rel_phase_of (args : Args.t) : M R :=
  if negb (is_int_zero (Args.beam args)) then
    frequency_hz <- lift (mul_float (Args.frequency args) 1e6) ;;
    beam_number <- lift (float_of (Args.beam args)) ;;
    calculate_phase_from_beam beam_number frequency_hz (Args.antenna_spacing args)
  else ret 0%R.

Record tables : Type := mkTables {
  antenna_magnitudes : list R;
  antenna_phases : list R;
  int_antenna_magnitudes : list R;
  int_antenna_phases : list R
}.

(** The choice of the phase distribution and the magnitude lists. *)
Definition excitation_tables (args : Args.t) (rel_phase : R) : M tables :=
  if Args.circular_phase args then
    f <- lift (mul_float (Args.frequency args) 1e6) ;;
    antenna_phases <-
      calculate_circular_phase f (Args.antenna_spacing args) (Args.antennas args) ;;
    f <- lift (mul_float (Args.frequency args) 1e6) ;;
    int_antenna_phases <-
      calculate_circular_phase f (Args.antenna_spacing args)
                               (Args.int_antennas args) ;;
    ret (mkTables [] antenna_phases [] int_antenna_phases)
  else if Args.parabolic_phase args then
    f <- lift (mul_float (Args.frequency args) 1e6) ;;
    antenna_phases <-
      calculate_parabolic_phase f (Args.antenna_spacing args) (Args.antennas args) ;;
    f <- lift (mul_float (Args.frequency args) 1e6) ;;
    int_antenna_phases <-
      calculate_parabolic_phase f (Args.antenna_spacing args)
                                (Args.int_antennas args) ;;
    ret (mkTables [] antenna_phases [] int_antenna_phases)
  else if Args.broadened_beam args then
    f <- lift (mul_float (Args.frequency args) 1e6) ;;
    antenna_phases <-
      calculate_broadened_phase f (Args.antenna_spacing args)
                                (Args.antennas args) 4 ;;
    f <- lift (mul_float (Args.frequency args) 1e6) ;;
    int_antenna_phases <-
      calculate_broadened_phase f (Args.antenna_spacing args)
                                (Args.int_antennas args) 2 ;;
    ret (mkTables (map (fun _ => 1%R) (py_range 0 (Args.antennas args)))
                  antenna_phases
                  (map (fun _ => 0%R) (py_range 0 (Args.int_antennas args)))
                  int_antenna_phases)
  else
    ret (mkTables
           (map (fun _ => 1%R) (py_range 0 (Args.antennas args)))
           (map (fun m_ant => (rel_phase * IZR m_ant)%R)
                (py_range 0 (Args.antennas args)))
           (map (fun _ => 0%R) (py_range 0 (Args.int_antennas args)))
           (map (fun i_ant => (rel_phase * IZR i_ant)%R)
                (py_range 0 (Args.int_antennas args)))).

(** [f.write(x)] where [x] may be [None]. *)
Definition write_opt (c : option card) : M unit :=
  match c with
  | Some c => write [c]
  | None => raise TypeError
  end.

(** Geometry: main array, interferometer array, reflector fences. *)
Definition write_geometry (args : Args.t) (t : tables)
  : M (list antenna * list antenna) :=
  main_antenna_objects <-
    create_main_array (Args.antennas args) (Args.antenna_spacing args)
                      (antenna_magnitudes t) (antenna_phases t)
                      (Args.log_periodic args) ;;
  forM_ (fun m_ant => write (repr_geometry m_ant)) main_antenna_objects ;;;
  int_antenna_objects <-
    (if (Args.int_antennas args >? 0)%Z then
       int_antenna_objects <-
         create_int_array (Args.int_antennas args) (Args.antenna_spacing args)
                          (Args.int_x_spacing args) (Args.int_y_spacing args)
                          (Args.int_z_spacing args)
                          (int_antenna_magnitudes t) (int_antenna_phases t)
                          (Args.log_periodic args) ;;
       forM_ (fun i_ant => write (repr_geometry i_ant)) int_antenna_objects ;;;
       ret int_antenna_objects
     else ret []) ;;
  (if negb (Args.without_fence args) then
     let reflector_length :=
       (IZR (Args.antennas args + 1) * Args.antenna_spacing args)%R in
     let reflector_spacing := 0.707%R in
     fence <- Reflector.__init__ reflector_length reflector_spacing
                                 15 21 13 45 0 0 0 ;;
     write (Reflector.__repr__ fence) ;;;
     if (Args.int_antennas args >? 0)%Z then
       let int_reflector_length :=
         (IZR (Args.int_antennas args + 1) * Args.antenna_spacing args)%R in
       let int_reflector_spacing := 0.707%R in
       fence <- Reflector.__init__ int_reflector_length int_reflector_spacing
                                   15 21 13 45 (Args.int_x_spacing args)
                                   (Args.int_y_spacing args)
                                   (Args.int_z_spacing args) ;;
       write (Reflector.__repr__ fence)
     else ret tt
   else ret tt) ;;;
  write_opt (end_geometry 1) ;;;
  ret (main_antenna_objects, int_antenna_objects).

(** [for wire in range(0, wire_number): f.write(create_wire_conductivity(...))] *)
Definition write_conductivities (args : Args.t) : M unit :=
  n <- read_wire_number ;;
  forM_ (fun wire : Z =>
           if Args.log_periodic args then
             write [create_wire_conductivity wire 0 0 aluminum_conductivity]
           else
             write [create_wire_conductivity wire 0 0 copper_conductivity])
        (py_range 0 n).

(** Loads, control cards, excitations and the closing cards. *)
Definition write_electrical (args : Args.t)
    (main_antenna_objects int_antenna_objects : list antenna) : M unit :=
  forM_ (fun m_ant => write (repr_loads m_ant)) main_antenna_objects ;;;
  (if (Args.int_antennas args >? 0)%Z then
     forM_ (fun i_ant => write (repr_loads i_ant)) int_antenna_objects
   else ret tt) ;;;
  write [ground_card 2 13 0.005] ;;;
  write [extended_kernel_card] ;;;
  write [max_coupling_card] ;;;
  forM_ (fun m_ant =>
           write (repr_excitations m_ant) ;;;
           write (repr_transmissionlines m_ant) ;;;
           write (repr_comment_string m_ant))
        main_antenna_objects ;;;
  (if (Args.int_antennas args >? 0)%Z then
     forM_ (fun i_ant =>
              write (repr_excitations i_ant) ;;;
              write (repr_transmissionlines i_ant))
           int_antenna_objects
   else ret tt) ;;;
  write [frequency_card 1 (Args.frequency args) 0.5] ;;;
  write [radiation_pattern_card 0 1 90 0 1 361] ;;;
  write [end_of_run_card].

(** The body under [if __name__ == '__main__'], after argument parsing,
    on a file system [writable].  The output file is opened once the
    excitation tables are there, and everything that follows is written
    to it. *)
Definition main (writable : string -> bool) (args : Args.t) : M unit :=
  print (PrintOutput (Args.output_file args)) ;;;
  rel_phase <- rel_phase_of args ;;
  t <- excitation_tables args rel_phase ;;
  open_for_writing writable (Args.output_file args) ;;;
  objects <- write_geometry args t ;;
  write_conductivities args ;;;
  write_electrical args (fst objects) (snd objects).

(** What [main] does once the relative phase is known. *)
Definition after_rel_phase (writable : string -> bool) (args : Args.t)
    (rel_phase : R) : M unit :=
  t <- excitation_tables args rel_phase ;;
  open_for_writing writable (Args.output_file args) ;;;
  objects <- write_geometry args t ;;
  write_conductivities args ;;;
  write_electrical args (fst objects) (snd objects).

(** The cards of a given kind in a deck. *)
Definition conductivity_tags (deck : list card) : list Z :=
  flat_map (fun c => match c with LD5 tag _ _ _ => [tag] | _ => [] end) deck.

Definition geometry_tags (deck : list card) : list Z :=
  flat_map (fun c => match c with GW n _ _ _ _ _ _ _ _ => [n] | _ => [] end) deck.

(** ** Vocabulary of the statements *)

Module WireCall.

(** The arguments of one [Wire(...)] constructor call. *)
Record t : Type := mk {
  x1 : R; y1 : R; z1 : R;
  x2 : R; y2 : R; z2 : R;
  radius : R;
  segments : Z
}.

Definition run (c : t) : M Wire.t :=
  Wire.__init__ (x1 c) (y1 c) (z1 c) (x2 c) (y2 c) (z2 c) (radius c) (segments c).

End WireCall.

(** A run given [-b <value>] on the command line ([type=float]). *)
Definition with_beam (args : Args.t) (value : R) : Args.t :=
  {| Args.antennas := Args.antennas args;
     Args.int_antennas := Args.int_antennas args;
     Args.power := Args.power args;
     Args.phase := Args.phase args;
     Args.parabolic_phase := Args.parabolic_phase args;
     Args.circular_phase := Args.circular_phase args;
     Args.broadened_beam := Args.broadened_beam args;
     Args.beam := PyFloat value;
     Args.frequency := Args.frequency args;
     Args.without_fence := Args.without_fence args;
     Args.antenna_spacing := Args.antenna_spacing args;
     Args.int_x_spacing := Args.int_x_spacing args;
     Args.int_y_spacing := Args.int_y_spacing args;
     Args.int_z_spacing := Args.int_z_spacing args;
     Args.output_file := Args.output_file args;
     Args.log_periodic := Args.log_periodic args |}.

(** Total correctness of an effectful computation: from a state that
    satisfies [P] it returns normally, with a value and a state that
    satisfy [Q]. *)
Definition hoare {A : Type} (P : globals -> Prop) (m : M A)
    (Q : A -> globals -> Prop) : Prop :=
  forall g, P g -> exists v g', m g = (Ok v, g') /\ Q v g'.

(** The counter reads [n], the file holds [deck], and the minimum
    frequency can be divided by. *)
Definition at_state (n : Z) (deck : list card) (g : globals) : Prop :=
  wire_number g = n /\ min_frequency g <> 0%R /\ outfile g = deck.

(** The identifiers [lo + 1, ..., lo + k]. *)
Definition ids_after (lo : Z) (k : nat) : list Z :=
  map (fun i => (lo + Z.of_nat i)%Z) (seq 1 k).

(** No geometry card and no conductivity card among [l]. *)
Definition no_wire_cards (l : list card) : Prop :=
  geometry_tags l = [] /\ conductivity_tags l = [].

(** Wires per antenna. *)
Definition wires_per_antenna (log_periodics : bool) : nat :=
  if log_periodics then 10%nat else 7%nat.

(** The antenna [a] owns the wires [lo + 1, ..., lo + k]; everything it
    writes outside its geometry is free of wire and conductivity cards. *)
Definition element_ok (a : antenna) (lo : Z) (k : nat) : Prop :=
  geometry_tags (repr_geometry a) = ids_after lo k /\
  conductivity_tags (repr_geometry a) = [] /\
  no_wire_cards (repr_loads a) /\
  no_wire_cards (repr_excitations a) /\
  no_wire_cards (repr_transmissionlines a) /\
  no_wire_cards (repr_comment_string a).

(** Objects constructed one after the other, each taking [k] identifiers:
    [ok b lo] relates an object to the counter it was constructed at. *)
Fixpoint chain {B : Type} (ok : B -> Z -> Prop) (k : nat) (bs : list B)
    (lo : Z) : Prop :=
  match bs with
  | [] => True
  | b :: rest => ok b lo /\ chain ok k rest (lo + Z.of_nat k)
  end.

(** The antennas of an array own consecutive blocks of [k] wires. *)
Definition elements_ok (objs : list antenna) (lo : Z) (k : nat) : Prop :=
  chain (fun a lo => element_ok a lo k) k objs lo.

(** A stretch of geometry cards for the wires [lo + 1, ..., lo + k]. *)
Definition geometry_block (cards : list card) (lo : Z) (k : nat) : Prop :=
  geometry_tags cards = ids_after lo k /\ conductivity_tags cards = [].

(** What the antennas write after the geometry section is free of wire
    and conductivity cards. *)
Definition electrical_ok (objs : list antenna) : Prop :=
  Forall (fun a => no_wire_cards (repr_loads a) /\
                   no_wire_cards (repr_excitations a) /\
                   no_wire_cards (repr_transmissionlines a) /\
                   no_wire_cards (repr_comment_string a)) objs.

(** From any counter [n] and any file contents, [m] returns normally, has
    constructed [K] wires and has appended cards whose geometry cards are
    those of the wires [n + 1, ..., n + K], with no conductivity card. *)
Definition emits_geometry {A : Type} (K : nat) (m : M A) (F : A -> Prop)
  : Prop :=
  forall n d,
    hoare (at_state n d) m
          (fun v g' => exists G,
               at_state (n + Z.of_nat K) (d ++ G) g' /\
               geometry_block G n K /\ F v).

(** The number of wires a run constructs: the two arrays and, unless
    switched off, a fence of 21 wires behind each. *)
Definition wires_of_run (args : Args.t) : Z :=
  let k := Z.of_nat (wires_per_antenna (Args.log_periodic args)) in
  let interferometer := (Args.int_antennas args >? 0)%Z in
  (k * Args.antennas args
   + (if interferometer then k * Args.int_antennas args else 0)
   + (if Args.without_fence args then 0
      else 21 + (if interferometer then 21 else 0)))%Z.

(** ** Vocabulary of the further statements *)

(** The segment count [Wire.__init__] computes when it is given none. *)
Definition auto_segments (min_frequency wire_length : R) : Z :=
  let k := py_int (wire_length / (0.05 * speed_of_light / min_frequency)) in
  if Z.even k then (k + 1)%Z else k.

(** The segment count a wire ends up with. *)
Definition chosen_segments (min_frequency wire_length : R) (segments : Z) : Z :=
  if (segments =? 0)%Z then auto_segments min_frequency wire_length
  else segments.

(** The counter reads [n], the minimum frequency is [f], the file holds
    [deck]. *)
Definition at_freq (n : Z) (f : R) (deck : list card) (g : globals) : Prop :=
  wire_number g = n /\ min_frequency g = f /\ outfile g = deck.

(** What a loop collects when the iteration on [x], entered with the
    counter at [n], produces [v x n] and advances the counter by [k]. *)
Fixpoint loop_values {A B : Type} (v : A -> Z -> B) (k : Z) (l : list A)
    (n : Z) : list B :=
  match l with
  | [] => []
  | x :: rest => v x n :: loop_values v k rest (n + k)
  end.

(** The wire a constructor call returns at counter [n] and minimum
    frequency [f]. *)
Definition wire_at (n : Z) (f : R) (x1 y1 z1 x2 y2 z2 radius : R) (s : Z)
  : Wire.t :=
  Wire.mk (n + 1)
          (chosen_segments f (Wire.wire_length x1 y1 z1 x2 y2 z2) s)
          x1 y1 z1 x2 y2 z2 radius.

(** The [reflector_wire]-th wire of a fence, constructed at counter [n]. *)
Definition fence_wire (f : R) (length_m spacing_m start_height_m radius
    angle global_x global_y global_z : R) (reflector_wire n : Z) : Wire.t :=
  let y := (- IZR reflector_wire * cos (angle * PI / 180) * spacing_m)%R in
  let z := (IZR reflector_wire * sin (angle * PI / 180) * spacing_m)%R in
  wire_at n f (- length_m / 2 + global_x) (y + global_y)
          (start_height_m - z + global_z) (length_m / 2 + global_x)
          (y + global_y) (start_height_m - z + global_z) radius 0.

(** The two end points of a wire. *)
Definition end1 (w : Wire.t) : R * R * R := (Wire.x1 w, Wire.y1 w, Wire.z1 w).
Definition end2 (w : Wire.t) : R * R * R := (Wire.x2 w, Wire.y2 w, Wire.z2 w).

(** The radius in metres of a wire of gauge [awg]. *)
Definition radius_m (awg : Z) : R :=
  (0.127 * Rpower 92 (IZR (36 - awg) / IZR 39) / 1000)%R.

(** What [get_mid_segment] returns on [s] segments when it returns. *)
Definition mid_of (s : Z) : Z := (1 + py_int (IZR s / 2))%Z.

(** The antenna the [TTFD] constructor returns at counter [n] and minimum
    frequency [f]. *)
Definition TTFD_at (n : Z) (f : R) (wire_gauge : Z)
    (height termination mid_width top_width wire_spacing
     global_x global_y global_z current_real current_imag : R) : TTFD.t :=
  let r := radius_m wire_gauge in
  let move := fun w => Wire.translate w global_x global_y global_z in
  let topleftwire :=
    move (wire_at n f (- mid_width / 2) 0 height
                  (- top_width / 2) 0 (wire_spacing + height) r 0) in
  let topwire :=
    move (wire_at (n + 1) f (- top_width / 2) 0 (wire_spacing + height)
                  (top_width / 2) 0 (wire_spacing + height) r 0) in
  let toprightwire :=
    move (wire_at (n + 2) f (mid_width / 2) 0 height
                  (top_width / 2) 0 (wire_spacing + height) r 0) in
  let middlewire :=
    move (wire_at (n + 3) f (- mid_width / 2) 0 height
                  (mid_width / 2) 0 height r 0) in
  let bottomleftwire :=
    move (wire_at (n + 4) f (- mid_width / 2) 0 height
                  (- top_width / 2) 0 (- wire_spacing + height) r 0) in
  let bottomwire :=
    move (wire_at (n + 5) f (- top_width / 2) 0 (- wire_spacing + height)
                  (top_width / 2) 0 (- wire_spacing + height) r 0) in
  let bottomrightwire :=
    move (wire_at (n + 6) f (mid_width / 2) 0 height
                  (top_width / 2) 0 (- wire_spacing + height) r 0) in
  TTFD.mk r
    (CM "SuperDARN TTFD"
        [height; IZR wire_gauge; termination; mid_width; top_width; wire_spacing])
    topleftwire topwire toprightwire middlewire
    bottomleftwire bottomwire bottomrightwire
    (Load.__init__ (Wire.get_wire_number topwire)
                   (mid_of (Wire.segments topwire))
                   (mid_of (Wire.segments topwire))
                   Load.default_impedance_real Load.default_impedance_imag)
    (Load.__init__ (Wire.get_wire_number bottomwire)
                   (mid_of (Wire.segments bottomwire))
                   (mid_of (Wire.segments bottomwire))
                   Load.default_impedance_real Load.default_impedance_imag)
    (Source.__init__ (Wire.get_wire_number middlewire)
                     (mid_of (Wire.segments middlewire))
                     current_real current_imag true).

(** The driven elements the [LogPeriodic] constructor builds at counter
    [n]. *)
Definition LogPeriodic_drivens (n : Z) (f height : R) : list Wire.t :=
  [wire_at n f (-6.04 / 2) 0 height (6.04 / 2) 0 height 0.01 13;
   wire_at (n + 1) f (-6.70 / 2) 0.725 height (6.70 / 2) 0.725 height 0.01 15;
   wire_at (n + 2) f (-7.57 / 2) 1.585 height (7.57 / 2) 1.585 height 0.01 17;
   wire_at (n + 3) f (-8.46 / 2) 2.59 height (8.46 / 2) 2.59 height 0.01 19;
   wire_at (n + 4) f (-9.49 / 2) 3.765 height (9.49 / 2) 3.765 height 0.01 21;
   wire_at (n + 5) f (-10.55 / 2) 5.165 height (10.55 / 2) 5.165 height 0.01 23;
   wire_at (n + 6) f (-11.87 / 2) 6.68 height (11.87 / 2) 6.68 height 0.01 25;
   wire_at (n + 7) f (-13.37 / 2) 8.385 height (13.37 / 2) 8.385 height 0.01 27;
   wire_at (n + 8) f (-15.38 / 2) 10.325 height (15.38 / 2) 10.325 height 0.01 29;
   wire_at (n + 9) f (-15.40 / 2) 11.63 height (15.40 / 2) 11.63 height 0.01 31].

(** The crossed line from the middle of wire [n + i] to the middle of wire
    [n + i + 1] of a log-periodic antenna. *)
Definition LogPeriodic_line (n i : Z) : card :=
  TransmissionLine.__init__ (n + i) (6 + i) (n + i + 1) (7 + i) true
                            TransmissionLine.default_impedance
                            TransmissionLine.default_length.

(** The antenna the [LogPeriodic] constructor returns at counter [n]. *)
Definition LogPeriodic_at (n : Z) (f height current_real current_imag : R)
  : LogPeriodic.t :=
  LogPeriodic.mk
    (LogPeriodic_drivens n f height)
    (Source.__init__ (n + 1) 7 current_real current_imag true)
    (map (LogPeriodic_line n) [1; 2; 3; 4; 5; 6; 7; 8; 9]%Z)
    0 0 0 0
    (CM "Log-Periodic" [height; 0; 180 / PI * 0; 0; 0]%R).

(** The antenna number [index] of an array, constructed at counter [n]:
    [offset_x], [global_y] and [global_z] are what the array adds to the
    position of the antenna along the array. *)
Definition array_antenna_at (f : R) (num_antennas : Z)
    (antenna_spacing_m : R) (place : R -> R) (global_y global_z : R)
    (antenna_magnitudes antenna_phases : list R) (log_periodics : bool)
    (index n : Z) : antenna :=
  let phase := nth (Z.to_nat index) antenna_phases 0%R in
  let magnitude := nth (Z.to_nat index) antenna_magnitudes 0%R in
  let real_cur := (magnitude * cos (phase * PI / 180))%R in
  let imag_cur := (magnitude * sin (phase * PI / 180))%R in
  let x_position :=
    (IZR index * antenna_spacing_m
     - IZR (num_antennas - 1) * antenna_spacing_m / 2)%R in
  if log_periodics then
    AntLogPeriodic (LogPeriodic_at n f 15 real_cur imag_cur)
  else
    AntTTFD (TTFD_at n f 13 10 100 12 8 1.5 (place x_position)
                     global_y global_z real_cur imag_cur).

(** The tables of a run with none of the special phase distributions. *)
Definition tables_of (args : Args.t) (rel_phase : R) : tables :=
  mkTables
    (map (fun _ => 1%R) (py_range 0 (Args.antennas args)))
    (map (fun m_ant => (rel_phase * IZR m_ant)%R)
         (py_range 0 (Args.antennas args)))
    (map (fun _ => 0%R) (py_range 0 (Args.int_antennas args)))
    (map (fun i_ant => (rel_phase * IZR i_ant)%R)
         (py_range 0 (Args.int_antennas args))).

Definition per_antenna (args : Args.t) : Z :=
  Z.of_nat (wires_per_antenna (Args.log_periodic args)).

(** The antennas of the main array of a run, built from counter 0. *)
Definition mains_of (args : Args.t) (rel_phase f : R) : list antenna :=
  loop_values
    (array_antenna_at f (Args.antennas args) (Args.antenna_spacing args)
       (fun x => x) 0 0
       (antenna_magnitudes (tables_of args rel_phase))
       (antenna_phases (tables_of args rel_phase))
       (Args.log_periodic args))
    (per_antenna args) (py_range 0 (Args.antennas args)) 0.

(** The antennas of the interferometer array of a run. *)
Definition ints_of (args : Args.t) (rel_phase f : R) : list antenna :=
  if (Args.int_antennas args >? 0)%Z then
    loop_values
      (array_antenna_at f (Args.int_antennas args) (Args.antenna_spacing args)
         (fun x_position => (x_position + Args.int_x_spacing args)%R)
         (Args.int_y_spacing args) (Args.int_z_spacing args)
         (int_antenna_magnitudes (tables_of args rel_phase))
         (int_antenna_phases (tables_of args rel_phase))
         (Args.log_periodic args))
      (per_antenna args) (py_range 0 (Args.int_antennas args))
      (per_antenna args * Args.antennas args)
  else [].

(** The cards of a fence of 21 wires built at counter [n]. *)
Definition fence_cards (f length_m global_x global_y global_z : R) (n : Z)
  : list card :=
  Reflector.__repr__
    (Reflector.mk
       (loop_values
          (fence_wire f length_m 0.707 15 (radius_m 13) 45
                      global_x global_y global_z)
          1 (py_range 0 21) n)).

(** The counter when the arrays are built. *)
Definition wires_of_arrays (args : Args.t) : Z :=
  (per_antenna args * Args.antennas args
   + (if (Args.int_antennas args >? 0)%Z
      then per_antenna args * Args.int_antennas args else 0))%Z.

Definition fences_of (args : Args.t) (f : R) : list card :=
  if Args.without_fence args then []
  else
    fence_cards f (IZR (Args.antennas args + 1) * Args.antenna_spacing args)
                0 0 0 (wires_of_arrays args)
    ++ (if (Args.int_antennas args >? 0)%Z then
          fence_cards f
            (IZR (Args.int_antennas args + 1) * Args.antenna_spacing args)
            (Args.int_x_spacing args) (Args.int_y_spacing args)
            (Args.int_z_spacing args) (wires_of_arrays args + 21)
        else []).

(** The deck of a run, section by section. *)
Definition geometry_of (args : Args.t) (rel_phase f : R) : list card :=
  flat_map repr_geometry (mains_of args rel_phase f)
  ++ flat_map repr_geometry (ints_of args rel_phase f)
  ++ fences_of args f
  ++ [GE 1].

Definition conductivities_of (args : Args.t) : list card :=
  flat_map
    (fun wire =>
       [create_wire_conductivity wire 0 0
          (if Args.log_periodic args then aluminum_conductivity
           else copper_conductivity)])
    (py_range 0 (wires_of_run args)).

Definition electrical_of (args : Args.t) (rel_phase f : R) : list card :=
  flat_map repr_loads (mains_of args rel_phase f)
  ++ flat_map repr_loads (ints_of args rel_phase f)
  ++ [ground_card 2 13 0.005; extended_kernel_card; max_coupling_card]
  ++ flat_map (fun a => repr_excitations a ++ repr_transmissionlines a
                        ++ repr_comment_string a)
              (mains_of args rel_phase f)
  ++ flat_map (fun a => repr_excitations a ++ repr_transmissionlines a)
              (ints_of args rel_phase f)
  ++ [frequency_card 1 (Args.frequency args) 0.5;
      radiation_pattern_card 0 1 90 0 1 361;
      end_of_run_card].

Definition deck_of (args : Args.t) (rel_phase f : R) : list card :=
  geometry_of args rel_phase f
  ++ conductivities_of args
  ++ electrical_of args rel_phase f.

(** The place of a card in the order of the deck. *)
Definition section_of (c : card) : nat :=
  match c with
  | GW _ _ _ _ _ _ _ _ _ => 0
  | GE _ => 1
  | LD5 _ _ _ _ => 2
  | LD4 _ _ _ _ _ => 3
  | GN _ _ _ => 4
  | EK => 5
  | CP => 6
  | EX _ _ _ _ _ | TL _ _ _ _ _ _ | CM _ _ => 7
  | FR _ _ _ => 8
  | RP _ _ _ _ _ _ => 9
  | EN => 10
  end.

(** The amplitudes of the excitation cards of a deck, in order. *)
Definition amplitudes (deck : list card) : list (R * R) :=
  flat_map (fun c => match c with
                     | EX _ _ _ re im => [(re, im)]
                     | _ => []
                     end) deck.

(** The amplitude a current source carries for the components [re] and
    [im] it is given: a component that is exactly zero is replaced. *)
Definition source_current (re im : R) : R * R :=
  (if Req_dec_T re 0 then 1e-10 else re,
   if Req_dec_T im 0 then 1e-10 else im)%R.

(** A file system on which every path can be opened for writing. *)
Definition all_writable : string -> bool := fun _ => true.

(** The state in which [main] computes the relative phase: the module as
    loaded, after the first [print]. *)
Definition started (args : Args.t) : globals :=
  mkGlobals 0 8e6 [PrintOutput (Args.output_file args)] [].

(** A run given [-w <power>] and [-P <phase>] on the command line. *)
Definition with_power_and_phase (args : Args.t) (power phase : R) : Args.t :=
  {| Args.antennas := Args.antennas args;
     Args.int_antennas := Args.int_antennas args;
     Args.power := power;
     Args.phase := phase;
     Args.parabolic_phase := Args.parabolic_phase args;
     Args.circular_phase := Args.circular_phase args;
     Args.broadened_beam := Args.broadened_beam args;
     Args.beam := Args.beam args;
     Args.frequency := Args.frequency args;
     Args.without_fence := Args.without_fence args;
     Args.antenna_spacing := Args.antenna_spacing args;
     Args.int_x_spacing := Args.int_x_spacing args;
     Args.int_y_spacing := Args.int_y_spacing args;
     Args.int_z_spacing := Args.int_z_spacing args;
     Args.output_file := Args.output_file args;
     Args.log_periodic := Args.log_periodic args |}.

(** A run given [-f <frequency>]: the option has no [type], [value] is
    what [argparse] stores. *)
Definition with_frequency (args : Args.t) (value : pyval) : Args.t :=
  {| Args.antennas := Args.antennas args;
     Args.int_antennas := Args.int_antennas args;
     Args.power := Args.power args;
     Args.phase := Args.phase args;
     Args.parabolic_phase := Args.parabolic_phase args;
     Args.circular_phase := Args.circular_phase args;
     Args.broadened_beam := Args.broadened_beam args;
     Args.beam := Args.beam args;
     Args.frequency := value;
     Args.without_fence := Args.without_fence args;
     Args.antenna_spacing := Args.antenna_spacing args;
     Args.int_x_spacing := Args.int_x_spacing args;
     Args.int_y_spacing := Args.int_y_spacing args;
     Args.int_z_spacing := Args.int_z_spacing args;
     Args.output_file := Args.output_file args;
     Args.log_periodic := Args.log_periodic args |}.

(** * Properties *)

Open Scope R_scope.

(** ** Python arithmetic *)

Lemma py_int_nonneg (x : R) : 0 <= x -> py_int x = Zfloor x.
Proof.
  intros H. unfold py_int. destruct (Rle_dec 0 x); [reflexivity | contradiction].
Qed.

Lemma Zfloor_nonneg (x : R) : 0 <= x -> (0 <= Zfloor x)%Z.
Proof.
  intros H. apply Zfloor_lub. simpl. exact H.
Qed.

Lemma Zfloor_half (s : Z) : Zfloor (IZR s / 2) = (s / 2)%Z.
Proof.
  apply Zfloor_eq.
  pose proof (Z.div_mod s 2 ltac:(lia)) as E.
  pose proof (Z.mod_pos_bound s 2 ltac:(lia)) as B.
  assert (Hs : IZR s = 2 * IZR (s / 2) + IZR (s mod 2)).
  { rewrite E at 1. rewrite plus_IZR, mult_IZR. reflexivity. }
  assert (B0 : 0 <= IZR (s mod 2)) by (apply IZR_le; lia).
  assert (B1 : IZR (s mod 2) <= 1) by (apply IZR_le; lia).
  split; lra.
Qed.

Lemma mod2_eqb_even (k : Z) : (k mod 2 =? 0)%Z = Z.even k.
Proof.
  rewrite Zmod_even. destruct (Z.even k); reflexivity.
Qed.

Lemma odd_after_bump (k : Z) :
  Z.odd (if Z.even k then k + 1 else k)%Z = true.
Proof.
  destruct (Z.even k) eqn:E.
  - rewrite Z.odd_add, <- Z.negb_even, E. reflexivity.
  - rewrite <- Z.negb_even, E. reflexivity.
Qed.

Lemma bump_monotone (j k : Z) :
  (j <= k)%Z ->
  ((if Z.even j then j + 1 else j) <= (if Z.even k then k + 1 else k))%Z.
Proof.
  intros H. destruct (Z.even j) eqn:Ej, (Z.even k) eqn:Ek; try lia.
  assert (j <> k) by (intros ->; congruence). lia.
Qed.

Lemma py_int_zero_quotient (x : R) : py_int (0 / x) = 0%Z.
Proof.
  replace (0 / x) with (IZR 0) by (unfold Rdiv; ring).
  rewrite py_int_nonneg by (simpl; lra). apply ZfloorZ.
Qed.

Lemma fdiv_ok (a b : R) : b <> 0 -> fdiv a b = Ok (a / b).
Proof.
  intros H. unfold fdiv. destruct (Req_dec_T b 0); [contradiction | reflexivity].
Qed.

Lemma segment_length_pos (f : R) : 0 < f -> 0 < 0.05 * speed_of_light / f.
Proof.
  intros H. unfold speed_of_light. apply Rdiv_lt_0_compat; lra.
Qed.

Lemma segment_length_nonzero (f : R) : f <> 0 -> 0.05 * speed_of_light / f <> 0.
Proof.
  intros H. unfold speed_of_light, Rdiv.
  apply Rmult_integral_contrapositive_currified; [lra |].
  apply Rinv_neq_0_compat. exact H.
Qed.

(** ** Wire construction *)

(** The state after one constructor call has consumed an identifier. *)
Lemma Wire_init_explicit (g : globals) (x1 y1 z1 x2 y2 z2 radius : R) (s : Z) :
  s <> 0%Z ->
  Wire.__init__ x1 y1 z1 x2 y2 z2 radius s g =
  (Ok (Wire.mk (wire_number g + 1) s x1 y1 z1 x2 y2 z2 radius),
   mkGlobals (wire_number g + 1) (min_frequency g) (stdout g) (outfile g)).
Proof.
  intros Hs. unfold Wire.__init__, bind, next_wire_number, ret.
  destruct (Z.eqb_spec s 0); [contradiction | reflexivity].
Qed.

Lemma Wire_init_auto (g : globals) (x1 y1 z1 x2 y2 z2 radius : R) :
  min_frequency g <> 0 ->
  Wire.__init__ x1 y1 z1 x2 y2 z2 radius 0 g =
  (Ok (Wire.mk (wire_number g + 1)
               (let k := py_int (Wire.wire_length x1 y1 z1 x2 y2 z2 /
                                 (0.05 * speed_of_light / min_frequency g)) in
                if Z.even k then k + 1 else k)%Z
               x1 y1 z1 x2 y2 z2 radius),
   mkGlobals (wire_number g + 1) (min_frequency g) (stdout g) (outfile g)).
Proof.
  intros Hf. unfold Wire.__init__, bind, next_wire_number, read_min_frequency,
    lift, ret. cbn [Z.eqb wire_number min_frequency stdout outfile].
  rewrite (fdiv_ok _ Hf).
  rewrite (fdiv_ok _ (segment_length_nonzero Hf)).
  rewrite mod2_eqb_even. reflexivity.
Qed.

Lemma wire_length_nonneg (x1 y1 z1 x2 y2 z2 : R) :
  0 <= Wire.wire_length x1 y1 z1 x2 y2 z2.
Proof. unfold Wire.wire_length. apply sqrt_pos. Qed.

Lemma wire_length_coincident (x y z : R) : Wire.wire_length x y z x y z = 0.
Proof.
  unfold Wire.wire_length.
  replace ((z - z) * (z - z) + (y - y) * (y - y) + (x - x) * (x - x)) with 0 by ring.
  apply sqrt_0.
Qed.

(** C2.  For a positive wire length and a positive minimum frequency, a
    wire constructed with [segments = 0] gets an odd, positive segment
    count: the floor of length / (0.05 * c / min_frequency), plus one when
    that floor is even.  For a fixed minimum frequency the count does not
    decrease when the length grows. *)
Theorem auto_segment_count
    (g : globals) (x1 y1 z1 x2 y2 z2 radius : R) :
  0 < min_frequency g ->
  0 < Wire.wire_length x1 y1 z1 x2 y2 z2 ->
  exists w g',
    Wire.__init__ x1 y1 z1 x2 y2 z2 radius 0 g = (Ok w, g') /\
    (let k := Zfloor (Wire.wire_length x1 y1 z1 x2 y2 z2 /
                      (0.05 * speed_of_light / min_frequency g)) in
     Wire.segments w = if Z.even k then k + 1 else k)%Z /\
    Z.odd (Wire.segments w) = true /\
    (0 < Wire.segments w)%Z /\
    forall (h : globals) (a1 b1 c1 a2 b2 c2 radius' : R),
      min_frequency h = min_frequency g ->
      Wire.wire_length x1 y1 z1 x2 y2 z2 <= Wire.wire_length a1 b1 c1 a2 b2 c2 ->
      exists w' h',
        Wire.__init__ a1 b1 c1 a2 b2 c2 radius' 0 h = (Ok w', h') /\
        (Wire.segments w <= Wire.segments w')%Z.
Proof.
  intros Hf Hlen.
  assert (Hf0 : min_frequency g <> 0) by lra.
  pose proof (segment_length_pos Hf) as Hseg.
  set (L := 0.05 * speed_of_light / min_frequency g) in *.
  assert (Hq : forall len, 0 <= len -> 0 <= len / L).
  { intros len Hl. apply Rmult_le_pos; [exact Hl |].
    apply Rlt_le, Rinv_0_lt_compat, Hseg. }
  eexists. eexists. split; [apply Wire_init_auto; exact Hf0 |].
  cbn [Wire.segments]. fold L.
  rewrite (py_int_nonneg (Hq _ (Rlt_le _ _ Hlen))).
  split; [reflexivity |].
  split; [apply odd_after_bump |].
  split.
  { pose proof (Zfloor_nonneg (Hq _ (Rlt_le _ _ Hlen))) as Hk.
    destruct (Z.even _) eqn:E; [lia |].
    assert (Zfloor (Wire.wire_length x1 y1 z1 x2 y2 z2 / L) <> 0%Z)
      by (intros K; rewrite K in E; discriminate).
    lia. }
  intros h a1 b1 c1 a2 b2 c2 radius' Hsame Hle.
  eexists. eexists.
  split; [apply Wire_init_auto; rewrite Hsame; exact Hf0 |].
  cbn [Wire.segments]. rewrite Hsame. fold L.
  rewrite (py_int_nonneg (Hq _ (wire_length_nonneg a1 b1 c1 a2 b2 c2))).
  apply bump_monotone, Zfloor_le.
  apply Rmult_le_compat_r; [| exact Hle].
  apply Rlt_le, Rinv_0_lt_compat, Hseg.
Qed.

Lemma auto_segment_count_witness :
  exists w g',
    Wire.__init__ (-4) 0 11.5 4 0 11.5 Wire.default_radius 0 initial_globals
      = (Ok w, g') /\
    Z.odd (Wire.segments w) = true /\ (0 < Wire.segments w)%Z.
Proof.
  assert (Hf : 0 < min_frequency initial_globals) by (simpl; lra).
  assert (Hl : 0 < Wire.wire_length (-4) 0 11.5 4 0 11.5).
  { unfold Wire.wire_length. apply sqrt_lt_R0. lra. }
  destruct (auto_segment_count initial_globals (-4) 0 11.5 4 0 11.5
              Wire.default_radius Hf Hl) as (w & g' & Hrun & _ & Hodd & Hpos & _).
  exists w, g'. repeat split; assumption.
Defined.

(** C3, as the code has it.  A wire whose length is not positive (its end
    points coincide) is constructed like any other when the segment count is
    automatic: it gets one segment and the next identifier. *)
Theorem degenerate_wire_has_one_segment
    (g : globals) (x1 y1 z1 x2 y2 z2 radius : R) :
  min_frequency g <> 0 ->
  Wire.wire_length x1 y1 z1 x2 y2 z2 <= 0 ->
  exists w g',
    Wire.__init__ x1 y1 z1 x2 y2 z2 radius 0 g = (Ok w, g') /\
    Wire.segments w = 1%Z /\
    Wire.wire_number w = (wire_number g + 1)%Z /\
    wire_number g' = (wire_number g + 1)%Z.
Proof.
  intros Hf Hlen.
  assert (H0 : Wire.wire_length x1 y1 z1 x2 y2 z2 = 0).
  { apply Rle_antisym; [exact Hlen | apply wire_length_nonneg]. }
  eexists. eexists. split; [apply Wire_init_auto; exact Hf |].
  cbn [Wire.segments Wire.wire_number wire_number]. rewrite H0.
  rewrite py_int_zero_quotient. repeat split; reflexivity.
Qed.

Lemma degenerate_wire_has_one_segment_witness :
  exists w g',
    Wire.__init__ 1 2 3 1 2 3 Wire.default_radius 0 initial_globals = (Ok w, g') /\
    Wire.segments w = 1%Z /\
    Wire.wire_number w = 1%Z /\
    wire_number g' = 1%Z.
Proof.
  apply (degenerate_wire_has_one_segment initial_globals 1 2 3 1 2 3
           Wire.default_radius).
  - simpl. lra.
  - rewrite wire_length_coincident. lra.
Defined.

(** C3, counterexample.  With coincident end points and an automatic
    segment count the constructor returns a wire; nothing is raised. *)
Lemma degenerate_wire_is_constructed :
  fst (Wire.__init__ 1 2 3 1 2 3 Wire.default_radius 0 initial_globals)
  = Ok (Wire.mk 1 1 1 2 3 1 2 3 Wire.default_radius).
Proof.
  rewrite Wire_init_auto by (simpl; lra).
  cbn [fst wire_number initial_globals]. rewrite wire_length_coincident.
  rewrite py_int_zero_quotient. reflexivity.
Qed.

(** ** The middle segment *)

Lemma get_mid_segment_odd (w : Wire.t) :
  Z.odd (Wire.segments w) = true ->
  Wire.get_mid_segment w = Ok (1 + py_int (IZR (Wire.segments w) / 2))%Z.
Proof.
  intros Hodd. unfold Wire.get_mid_segment.
  rewrite mod2_eqb_even, <- Z.negb_odd, Hodd. reflexivity.
Qed.

Lemma get_mid_segment_even (w : Wire.t) :
  Z.even (Wire.segments w) = true ->
  Wire.get_mid_segment w = Raise ValueError.
Proof.
  intros Heven. unfold Wire.get_mid_segment.
  rewrite mod2_eqb_even, Heven. reflexivity.
Qed.

(** C10.  [get_mid_segment] raises exactly when the segment count is
    even.  A wire has at least one segment: for an odd count [s] it
    returns [1 + floor(s / 2)], which lies in [1 .. s] and has as many
    segments before it as after it. *)
Theorem mid_segment_of_wire (w : Wire.t) :
  ((exists e, Wire.get_mid_segment w = Raise e) <->
   Z.even (Wire.segments w) = true) /\
  (Z.odd (Wire.segments w) = true ->
   (0 < Wire.segments w)%Z ->
   let mid := (1 + Wire.segments w / 2)%Z in
   Wire.get_mid_segment w = Ok mid /\
   (1 <= mid <= Wire.segments w)%Z /\
   (mid - 1 = Wire.segments w - mid)%Z).
Proof.
  split.
  - split.
    + intros [e He]. destruct (Z.even (Wire.segments w)) eqn:E; [reflexivity |].
      rewrite get_mid_segment_odd in He by (rewrite <- Z.negb_even, E; reflexivity).
      discriminate.
    + intros E. exists ValueError. apply get_mid_segment_even, E.
  - intros Hodd Hpos mid.
    assert (Hs : (Wire.segments w = 2 * (Wire.segments w / 2) + 1)%Z).
    { pose proof (Z.div_mod (Wire.segments w) 2 ltac:(lia)) as E.
      rewrite Zmod_odd, Hodd in E. exact E. }
    split; [| subst mid; lia].
    rewrite (get_mid_segment_odd _ Hodd).
    rewrite py_int_nonneg, Zfloor_half; [reflexivity |].
    apply Rmult_le_pos; [apply IZR_le; lia | lra].
Qed.

Lemma mid_segment_of_wire_witness :
  let w := Wire.mk 1 13 (-3.02) 0 15 3.02 0 15 0.01 in
  Wire.get_mid_segment w = Ok 7%Z /\ (1 <= 7 <= 13)%Z /\ (7 - 1 = 13 - 7)%Z.
Proof.
  intros w.
  exact (proj2 (mid_segment_of_wire w) eq_refl eq_refl).
Defined.

(** ** Excitations *)

(** C8.  A current source ([EX 6]) carries [1e-10] in place of an
    amplitude component that is exactly zero and the component itself
    otherwise; a voltage source ([EX 0]) carries both components as given. *)
Theorem source_amplitudes (tag segment : Z) (re im : R) :
  Source.__init__ tag segment re im true =
    EX 6 tag segment (if Req_dec_T re 0 then 1e-10 else re)
                     (if Req_dec_T im 0 then 1e-10 else im) /\
  Source.__init__ tag segment re im false = EX 0 tag segment re im.
Proof.
  split; [| reflexivity].
  unfold Source.__init__.
  destruct (Req_dec_T re 0) as [-> |], (Req_dec_T im 0) as [-> |];
    rewrite ?Rplus_0_l; reflexivity.
Qed.

(** ** Steering phase *)

Lemma wavelength_nonzero (f : R) : f <> 0 -> speed_of_light / f <> 0.
Proof.
  intros H. unfold speed_of_light, Rdiv.
  apply Rmult_integral_contrapositive_currified; [lra |].
  apply Rinv_neq_0_compat, H.
Qed.

Lemma calculate_phase_from_beam_value (b f d : R) (g : globals) :
  f <> 0 ->
  calculate_phase_from_beam b f d g =
  (Ok (360 * d * sin (calculate_angle_from_beam b 3.24 16 * PI / 180)
       / (speed_of_light / f)),
   mkGlobals (wire_number g) (min_frequency g)
             (stdout g ++ [PrintWavelength (f / 1000) (speed_of_light / f)])
             (outfile g)).
Proof.
  intros Hf. unfold calculate_phase_from_beam, bind, lift, print.
  rewrite (fdiv_ok _ Hf).
  cbn [wire_number min_frequency stdout outfile].
  rewrite (fdiv_ok _ (wavelength_nonzero Hf)). reflexivity.
Qed.

(** C6.  For a beam number [b], a frequency [f] and a spacing [d], the
    steering phase is 360 * d * sin(azimuth) / (c / f), the azimuth being
    (b - 16/2 + 0.5) * 3.24 degrees. *)
Theorem steering_phase_formula (b f d : R) (g : globals) :
  f <> 0 ->
  let azimuth_deg := (b - 16 / 2 + 0.5) * 3.24 in
  fst (calculate_phase_from_beam b f d g) =
  Ok (360 * d * sin (azimuth_deg * PI / 180) / (speed_of_light / f)).
Proof.
  intros Hf azimuth_deg.
  rewrite (calculate_phase_from_beam_value b d g Hf). reflexivity.
Qed.

Lemma steering_phase_formula_witness :
  fst (calculate_phase_from_beam 8 10500000 15.24 initial_globals) =
  Ok (360 * 15.24 * sin ((8 - 16 / 2 + 0.5) * 3.24 * PI / 180)
      / (speed_of_light / 10500000)).
Proof.
  apply (steering_phase_formula 8 15.24 initial_globals (f := 10500000)). lra.
Defined.

Lemma rel_phase_default_beam (args : Args.t) (g : globals) :
  Args.beam args = PyInt 0 -> rel_phase_of args g = (Ok 0, g).
Proof.
  intros H. unfold rel_phase_of. rewrite H. reflexivity.
Qed.

Lemma sin_beam_zero_negative :
  sin (calculate_angle_from_beam 0 3.24 16 * PI / 180) < 0.
Proof.
  pose proof PI_RGT_0 as HPI.
  unfold calculate_angle_from_beam.
  apply sin_lt_0_var; lra.
Qed.

(** C7, the code at [-b 0].  The parsed beam is the float [0.0], which is
    not the integer object [0]: the steering formula runs and the relative
    phase is negative, not zero. *)
Theorem beam_zero_on_command_line :
  exists v g',
    rel_phase_of (with_beam Args.defaults 0) initial_globals = (Ok v, g') /\
    v < 0.
Proof.
  unfold rel_phase_of, with_beam, Args.defaults, bind, lift.
  cbn [Args.beam Args.frequency Args.antenna_spacing is_int_zero negb
       mul_float float_of].
  assert (Hf : 10.5 * 1e6 <> 0) by lra.
  rewrite (calculate_phase_from_beam_value 0 15.24 initial_globals Hf).
  eexists. eexists. split; [reflexivity |].
  pose proof sin_beam_zero_negative as Hs.
  assert (Hw : 0 < speed_of_light / (10.5 * 1e6)).
  { unfold speed_of_light. apply Rdiv_lt_0_compat; lra. }
  apply Rinv_0_lt_compat in Hw.
  unfold Rdiv at 1.
  set (s := sin _) in *. set (iw := / _) in *.
  nra.
Qed.

(** ** Array assembly: the size checks *)

(** C5.  When the number of magnitudes or the number of phases differs
    from [num_antennas], [create_main_array] and [create_int_array] raise
    the [ValueError] of their size check (the configuration error of the
    specification) and leave the state, the wire counter included, as it
    was: no wire has been constructed. *)
Theorem array_size_mismatch
    (num_antennas : Z) (spacing x y z : R) (magnitudes phases : list R)
    (log_periodics : bool) (g : globals) :
  Z.of_nat (List.length magnitudes) <> num_antennas \/
  Z.of_nat (List.length phases) <> num_antennas ->
  create_main_array num_antennas spacing magnitudes phases log_periodics g
    = (Raise ValueError, g) /\
  create_int_array num_antennas spacing x y z magnitudes phases log_periodics g
    = (Raise ValueError, g).
Proof.
  intros H. unfold create_main_array, create_int_array.
  destruct (Z.eqb_spec (Z.of_nat (List.length magnitudes)) num_antennas) as [Em | Em];
    cbn [negb]; [| split; reflexivity].
  destruct (Z.eqb_spec (Z.of_nat (List.length phases)) num_antennas) as [Ep | Ep];
    cbn [negb]; [| split; reflexivity].
  destruct H; contradiction.
Qed.

Lemma array_size_mismatch_witness :
  create_main_array 16 15.24 [1; 1] [0; 0] false initial_globals
    = (Raise ValueError, initial_globals) /\
  create_int_array 16 15.24 0 (-100) 0 [1; 1] [0; 0] false initial_globals
    = (Raise ValueError, initial_globals).
Proof.
  apply array_size_mismatch. left. simpl. lia.
Defined.

(** ** Broadened beam *)

Lemma calculate_broadened_phase_outcome
    (f d : R) (num_antennas num_sub_arrays : Z) (g : globals) :
  calculate_broadened_phase f d num_antennas num_sub_arrays g
  = (Raise TypeError, g).
Proof. reflexivity. Qed.

(** C9, as the code has it.  The broadened-beam computation has no
    divisibility check: whether or not [num_antennas % num_sub_arrays] is
    zero, it does not raise the [ValueError] that stands for a
    configuration error. *)
Theorem broadened_phase_no_configuration_error
    (f d : R) (num_antennas num_sub_arrays : Z) (g : globals) :
  fst (calculate_broadened_phase f d num_antennas num_sub_arrays g)
  <> Raise ValueError.
Proof.
  rewrite calculate_broadened_phase_outcome. discriminate.
Qed.

(** C9, counterexample.  Eighteen antennas in four sub-arrays: the split
    is not even, and the error raised is the [TypeError] of [range] applied
    to a [float], not a configuration error. *)
Lemma broadened_phase_uneven_split :
  (18 mod 4 <> 0)%Z /\
  fst (calculate_broadened_phase 10500000 15.24 18 4 initial_globals)
  = Raise TypeError /\
  @Raise (list R) TypeError <> Raise ValueError.
Proof.
  split; [discriminate |]. split; [reflexivity | discriminate].
Qed.

(** ** Reasoning about effectful code *)

Lemma hoare_ret {A : Type} (P : globals -> Prop) (v : A)
    (Q : A -> globals -> Prop) :
  (forall g, P g -> Q v g) -> hoare P (ret v) Q.
Proof.
  intros H g Hg. exists v, g. split; [reflexivity | apply H, Hg].
Qed.

Lemma hoare_bind {A B : Type} (P : globals -> Prop) (m : M A) (k : A -> M B)
    (I : A -> globals -> Prop) (Q : B -> globals -> Prop) :
  hoare P m I -> (forall v, hoare (I v) (k v) Q) -> hoare P (bind m k) Q.
Proof.
  intros Hm Hk g Hg.
  destruct (Hm g Hg) as (v & g1 & E1 & H1).
  destruct (Hk v g1 H1) as (b & g2 & E2 & H2).
  exists b, g2. split; [| exact H2].
  unfold bind. rewrite E1. exact E2.
Qed.

Lemma hoare_weaken {A : Type} (P : globals -> Prop) (m : M A)
    (Q Q' : A -> globals -> Prop) :
  hoare P m Q -> (forall v g, Q v g -> Q' v g) -> hoare P m Q'.
Proof.
  intros Hm HQ g Hg. destruct (Hm g Hg) as (v & g' & E & H).
  exists v, g'. split; [exact E | apply HQ, H].
Qed.

Lemma hoare_pure {A : Type} (P : globals -> Prop) (F : Prop) (m : M A)
    (Q : A -> globals -> Prop) :
  (F -> hoare P m Q) -> hoare (fun g => P g /\ F) m Q.
Proof.
  intros H g [Hg HF]. apply (H HF g Hg).
Qed.

Lemma hoare_assoc {A B C : Type} (P : globals -> Prop) (m : M A)
    (f : A -> M B) (h : B -> M C) (Q : C -> globals -> Prop) :
  hoare P (bind m (fun x => bind (f x) h)) Q -> hoare P (bind (bind m f) h) Q.
Proof.
  intros H g Hg. destruct (H g Hg) as (v & g' & E & HQ).
  exists v, g'. split; [| exact HQ].
  unfold bind in *. destruct (m g) as [[a | e] g1]; exact E.
Qed.

Lemma hoare_bind_lift {A B : Type} (P : globals -> Prop) (r : result A) (v : A)
    (k : A -> M B) (Q : B -> globals -> Prop) :
  r = Ok v -> hoare P (k v) Q -> hoare P (bind (lift r) k) Q.
Proof.
  intros -> H g Hg. exact (H g Hg).
Qed.

Lemma hoare_bind_print {B : Type} (n : Z) (d : list card) (e : print_event)
    (k : unit -> M B) (Q : B -> globals -> Prop) :
  hoare (at_state n d) (k tt) Q -> hoare (at_state n d) (bind (print e) k) Q.
Proof.
  intros H g Hg. unfold bind, print. apply H. exact Hg.
Qed.

Lemma hoare_write (n : Z) (d cs : list card) :
  hoare (at_state n d) (write cs) (fun _ => at_state n (d ++ cs)).
Proof.
  intros g (Hn & Hf & Hd). exists tt. eexists. split; [reflexivity |].
  repeat split; cbn; [exact Hn | exact Hf | rewrite Hd; reflexivity].
Qed.

(** A constructor call returns a wire with the next identifier; its
    segment count is odd when it is automatic or given odd. *)
Lemma hoare_Wire_init (n : Z) (d : list card) (x1 y1 z1 x2 y2 z2 radius : R)
    (s : Z) :
  hoare (at_state n d) (Wire.__init__ x1 y1 z1 x2 y2 z2 radius s)
        (fun w g' => at_state (n + 1) d g' /\
                     (Wire.wire_number w = (n + 1)%Z /\
                      (s = 0%Z \/ Z.odd s = true ->
                       Z.odd (Wire.segments w) = true))).
Proof.
  intros g (Hn & Hf & Hd).
  destruct (Z.eq_dec s 0) as [-> | Hs].
  - eexists. eexists. split; [apply Wire_init_auto, Hf |].
    cbn [Wire.wire_number Wire.segments]. rewrite Hn.
    repeat split; try assumption.
    intros _. apply odd_after_bump.
  - eexists. eexists. split; [apply Wire_init_explicit, Hs |].
    cbn [Wire.wire_number Wire.segments]. rewrite Hn.
    repeat split; try assumption.
    intros [E | E]; [contradiction | exact E].
Qed.

Lemma hoare_bind_Wire {B : Type} (n : Z) (d : list card)
    (x1 y1 z1 x2 y2 z2 radius : R) (s : Z) (k : Wire.t -> M B)
    (Q : B -> globals -> Prop) :
  (forall w,
      Wire.wire_number w = (n + 1)%Z ->
      (s = 0%Z \/ Z.odd s = true -> Z.odd (Wire.segments w) = true) ->
      hoare (at_state (n + 1) d) (k w) Q) ->
  hoare (at_state n d) (bind (Wire.__init__ x1 y1 z1 x2 y2 z2 radius s) k) Q.
Proof.
  intros H. eapply hoare_bind; [apply hoare_Wire_init |].
  intros w. apply hoare_pure. intros [Hw Ho]. apply H; assumption.
Qed.

(** ** Antenna elements *)

Lemma get_mm_radius_in_range (awg : Z) :
  (0 <= awg <= 36)%Z ->
  get_mm_radius_from_awg awg = Ok (0.127 * Rpower 92 (IZR (36 - awg) / IZR 39)).
Proof.
  intros H. unfold get_mm_radius_from_awg.
  destruct (Z.ltb_spec awg 0); [lia |].
  destruct (Z.gtb_spec awg 36); [lia |]. reflexivity.
Qed.

Lemma mid_segment_translated (w : Wire.t) (x y z : R) :
  Z.odd (Wire.segments w) = true ->
  Wire.get_mid_segment (Wire.translate w x y z)
  = Ok (1 + py_int (IZR (Wire.segments w) / 2))%Z.
Proof.
  intros H. apply (get_mid_segment_odd (Wire.translate w x y z)). exact H.
Qed.

Ltac hoare_zeta := cbv beta zeta.

Ltac hoare_wire w :=
  let N := fresh "N" w in
  let O := fresh "O" w in
  hoare_zeta; apply hoare_bind_Wire; intros w N O;
  try (specialize (O (or_introl eq_refl)));
  try (specialize (O (or_intror eq_refl))).

Lemma hoare_TTFD_init (n : Z) (d : list card) (wire_gauge : Z)
    (height termination mid_width top_width wire_spacing
     global_x global_y global_z current_real current_imag : R) :
  (0 <= wire_gauge <= 36)%Z ->
  hoare (at_state n d)
        (TTFD.__init__ wire_gauge height termination mid_width top_width
                       wire_spacing global_x global_y global_z
                       current_real current_imag)
        (fun a g' => at_state (n + 7) d g' /\ element_ok (AntTTFD a) n 7).
Proof.
  intros Hawg. unfold TTFD.__init__.
  eapply hoare_bind_lift; [apply get_mm_radius_in_range, Hawg |].
  hoare_wire w1. hoare_wire w2. hoare_wire w3. hoare_wire w4.
  hoare_wire w5. hoare_wire w6. hoare_wire w7.
  hoare_zeta.
  eapply hoare_bind_lift; [apply mid_segment_translated, Ow2 |].
  hoare_zeta. apply hoare_bind_print.
  eapply hoare_bind_lift; [apply mid_segment_translated, Ow6 |].
  hoare_zeta. apply hoare_bind_print.
  eapply hoare_bind_lift; [apply mid_segment_translated, Ow4 |].
  apply hoare_ret. intros g Hg. split.
  - replace (n + 7)%Z with (n + 1 + 1 + 1 + 1 + 1 + 1 + 1)%Z by lia. exact Hg.
  - unfold element_ok, no_wire_cards.
    cbn [repr_geometry repr_loads repr_excitations repr_transmissionlines
         repr_comment_string TTFD.repr_geometry TTFD.repr_loads
         TTFD.repr_excitations TTFD.repr_transmissionlines
         TTFD.repr_comment_string TTFD.wires TTFD.topleftwire TTFD.topwire
         TTFD.toprightwire TTFD.middlewire TTFD.bottomleftwire TTFD.bottomwire
         TTFD.bottomrightwire TTFD.topload TTFD.bottomload TTFD.excitation
         TTFD.comment_string map Wire.__repr__ Wire.translate
         Wire.wire_number Wire.segments Load.__init__ Source.__init__
         geometry_tags conductivity_tags flat_map app].
    rewrite Nw1, Nw2, Nw3, Nw4, Nw5, Nw6, Nw7.
    unfold ids_after. cbn [seq map].
    repeat split; repeat (f_equal; try lia).
Qed.

Lemma hoare_bind_ret {A B : Type} (P : globals -> Prop) (v : A) (k : A -> M B)
    (Q : B -> globals -> Prop) :
  hoare P (k v) Q -> hoare P (bind (ret v) k) Q.
Proof.
  intros H g Hg. exact (H g Hg).
Qed.

Ltac hoare_pure_steps :=
  repeat (hoare_zeta;
          lazymatch goal with
          | |- hoare _ (bind (ret _) _) _ => apply hoare_bind_ret
          | |- hoare _ (bind (lift _) _) _ =>
              eapply hoare_bind_lift;
              [ solve [ reflexivity
                      | apply get_mid_segment_odd; assumption ] | ]
          | |- hoare _ (bind (bind _ _) _) _ => apply hoare_assoc
          end).

Lemma hoare_LogPeriodic_init (n : Z) (d : list card)
    (height global_x global_y global_z current_real current_imag : R) :
  hoare (at_state n d)
        (LogPeriodic.__init__ height global_x global_y global_z
                              current_real current_imag)
        (fun a g' => at_state (n + 10) d g' /\
                     element_ok (AntLogPeriodic a) n 10).
Proof.
  unfold LogPeriodic.__init__.
  hoare_wire w0. hoare_pure_steps.
  hoare_wire w1. hoare_wire w2. hoare_wire w3. hoare_wire w4. hoare_wire w5.
  hoare_wire w6. hoare_wire w7. hoare_wire w8. hoare_wire w9.
  hoare_zeta.
  change (LogPeriodic.enumerate
            (((((((((([w0] ++ [w1]) ++ [w2]) ++ [w3]) ++ [w4]) ++ [w5])
                   ++ [w6]) ++ [w7]) ++ [w8]) ++ [w9])))
    with [(0, w0); (1, w1); (2, w2); (3, w3); (4, w4); (5, w5); (6, w6);
          (7, w7); (8, w8); (9, w9)]%Z.
  cbn [mapM Z.eqb Pos.eqb].
  hoare_pure_steps.
  apply hoare_ret. intros g Hg. split.
  - replace (n + 10)%Z with (n + 1 + 1 + 1 + 1 + 1 + 1 + 1 + 1 + 1 + 1)%Z by lia.
    exact Hg.
  - unfold element_ok, no_wire_cards.
    cbn [repr_geometry repr_loads repr_excitations repr_transmissionlines
         repr_comment_string LogPeriodic.repr_geometry LogPeriodic.repr_drivens
         LogPeriodic.repr_loads LogPeriodic.repr_excitations
         LogPeriodic.repr_transmissionlines LogPeriodic.repr_comment_string
         LogPeriodic.drivens LogPeriodic.excitation
         LogPeriodic.transmissionlines LogPeriodic.comment_string
         map Wire.__repr__ Wire.wire_number Wire.segments
         Source.__init__ TransmissionLine.__init__ List.concat
         geometry_tags conductivity_tags flat_map app].
    rewrite Nw0, Nw1, Nw2, Nw3, Nw4, Nw5, Nw6, Nw7, Nw8, Nw9.
    unfold ids_after. cbn [seq map].
    repeat split; repeat (f_equal; try lia).
Qed.

(** ** Identifier ranges and card kinds *)

Lemma ids_after_shift (lo : Z) (a k : nat) :
  map (fun i => (lo + Z.of_nat i)%Z) (seq (1 + a) k)
  = ids_after (lo + Z.of_nat a) k.
Proof.
  unfold ids_after. generalize 1%nat as s.
  induction k as [| k IH]; intros s; [reflexivity |].
  cbn [seq map]. f_equal; [lia |]. apply (IH (S s)).
Qed.

Lemma ids_after_app (lo : Z) (a b : nat) :
  ids_after lo (a + b) = ids_after lo a ++ ids_after (lo + Z.of_nat a) b.
Proof.
  unfold ids_after at 1 2. rewrite seq_app, map_app, (ids_after_shift lo a b). reflexivity.
Qed.

Lemma ids_after_In (lo : Z) (k : nat) (x : Z) :
  In x (ids_after lo k) <-> (lo < x <= lo + Z.of_nat k)%Z.
Proof.
  unfold ids_after. rewrite in_map_iff. split.
  - intros (i & <- & Hi). apply in_seq in Hi. lia.
  - intros H. exists (Z.to_nat (x - lo)). split; [lia |]. apply in_seq. lia.
Qed.

Lemma ids_after_sorted (lo : Z) (k : nat) : StronglySorted Z.lt (ids_after lo k).
Proof.
  revert lo. induction k as [| k IH]; intros lo.
  - constructor.
  - change (S k) with (1 + k)%nat. rewrite ids_after_app.
    cbn [ids_after seq map app]. constructor.
    + apply IH.
    + apply Forall_forall. intros x Hx. apply ids_after_In in Hx. lia.
Qed.

Lemma ids_after_NoDup (lo : Z) (k : nat) : NoDup (ids_after lo k).
Proof.
  revert lo. induction k as [| k IH]; intros lo.
  - constructor.
  - change (S k) with (1 + k)%nat. rewrite ids_after_app.
    cbn [ids_after seq map app]. constructor.
    + intros Hx. apply ids_after_In in Hx. lia.
    + apply IH.
Qed.

Lemma py_range_length (n : Z) : List.length (py_range 0 n) = Z.to_nat n.
Proof.
  unfold py_range. rewrite length_map, length_seq, Z.sub_0_r. reflexivity.
Qed.

Lemma py_range_In (n x : Z) : In x (py_range 0 n) <-> (0 <= x < n)%Z.
Proof.
  unfold py_range. rewrite in_map_iff, Z.sub_0_r. split.
  - intros (i & <- & Hi). apply in_seq in Hi. lia.
  - intros H. exists (Z.to_nat x). split; [lia |]. apply in_seq. lia.
Qed.

Lemma geometry_tags_app (a b : list card) :
  geometry_tags (a ++ b) = geometry_tags a ++ geometry_tags b.
Proof. apply flat_map_app. Qed.

Lemma conductivity_tags_app (a b : list card) :
  conductivity_tags (a ++ b) = conductivity_tags a ++ conductivity_tags b.
Proof. apply flat_map_app. Qed.

Lemma geometry_block_app (G1 G2 : list card) (lo : Z) (a b : nat) :
  geometry_block G1 lo a ->
  geometry_block G2 (lo + Z.of_nat a) b ->
  geometry_block (G1 ++ G2) lo (a + b).
Proof.
  intros [T1 C1] [T2 C2]. split.
  - rewrite geometry_tags_app, T1, T2, ids_after_app. reflexivity.
  - rewrite conductivity_tags_app, C1, C2. reflexivity.
Qed.

Lemma geometry_block_no_wire (G : list card) (lo : Z) :
  no_wire_cards G -> geometry_block G lo 0.
Proof. intros [T C]. split; assumption. Qed.

Lemma wires_geometry_block (ws : list Wire.t) (lo : Z) :
  chain (fun w lo => Wire.wire_number w = (lo + 1)%Z) 1 ws lo ->
  geometry_block (map Wire.__repr__ ws) lo (List.length ws).
Proof.
  revert lo. induction ws as [| w ws IH]; intros lo H.
  - split; reflexivity.
  - destruct H as [Hw Hrest]. apply IH in Hrest.
    change (geometry_block ([Wire.__repr__ w] ++ map Wire.__repr__ ws) lo
              (1 + List.length ws)).
    apply geometry_block_app; [| exact Hrest].
    split; [| reflexivity]. cbn. rewrite Hw. unfold ids_after. cbn.
    f_equal.
Qed.

Lemma elements_geometry_block (objs : list antenna) (lo : Z) (k : nat) :
  elements_ok objs lo k ->
  geometry_block (flat_map repr_geometry objs) lo (List.length objs * k).
Proof.
  revert lo. induction objs as [| a objs IH]; intros lo H.
  - split; reflexivity.
  - destruct H as [Ha Hrest]. apply IH in Hrest.
    cbn [flat_map List.length Nat.mul].
    apply geometry_block_app; [| exact Hrest].
    destruct Ha as (T & C & _). split; assumption.
Qed.

Lemma elements_electrical (objs : list antenna) (lo : Z) (k : nat) :
  elements_ok objs lo k -> electrical_ok objs.
Proof.
  revert lo. induction objs as [| a objs IH]; intros lo H.
  - constructor.
  - destruct H as [Ha Hrest]. constructor; [| exact (IH _ Hrest)].
    destruct Ha as (_ & _ & La & Ea & Ta & Ca).
    split; [exact La | split; [exact Ea | split; [exact Ta | exact Ca]]].
Qed.

(** ** Loops *)

Lemma hoare_bind_pure {A B : Type} (P : globals -> Prop) (m : M A)
    (k : A -> M B) (I : A -> globals -> Prop) (F : A -> Prop)
    (Q : B -> globals -> Prop) :
  hoare P m (fun v g => I v g /\ F v) ->
  (forall v, F v -> hoare (I v) (k v) Q) ->
  hoare P (bind m k) Q.
Proof.
  intros Hm Hk. eapply hoare_bind; [exact Hm |].
  intros v. apply hoare_pure. apply Hk.
Qed.

Lemma hoare_mapM_chain {A B : Type} (f : A -> M B) (ok : B -> Z -> Prop)
    (k : nat) (d : list card) (l : list A) :
  (forall x n, In x l ->
     hoare (at_state n d) (f x)
           (fun b g' => at_state (n + Z.of_nat k) d g' /\ ok b n)) ->
  forall n,
    hoare (at_state n d) (mapM f l)
          (fun bs g' => at_state (n + Z.of_nat (List.length l * k)) d g' /\
                        (chain ok k bs n /\ List.length bs = List.length l)).
Proof.
  induction l as [| x l IH]; intros Hf n.
  - apply hoare_ret. intros g Hg.
    cbn [List.length Nat.mul Z.of_nat chain]. rewrite Z.add_0_r.
    split; [exact Hg | split; [exact I | reflexivity]].
  - cbn [mapM].
    eapply hoare_bind_pure; [apply Hf; left; reflexivity |].
    intros b Hb.
    eapply hoare_bind_pure;
      [apply IH; intros y m Hy; apply Hf; right; exact Hy |].
    intros bs [Hbs Hlen].
    apply hoare_ret. intros g Hg. cbn [List.length chain].
    replace (n + Z.of_nat (S (List.length l) * k))%Z
      with (n + Z.of_nat k + Z.of_nat (List.length l * k))%Z
      by (cbn [Nat.mul]; lia).
    split; [exact Hg |]. split; [split; assumption |].
    rewrite Hlen. reflexivity.
Qed.

Lemma hoare_forM_write {A : Type} (f : A -> M unit) (h : A -> list card)
    (l : list A) :
  (forall x n d, In x l ->
     hoare (at_state n d) (f x) (fun _ => at_state n (d ++ h x))) ->
  forall n d,
    hoare (at_state n d) (forM_ f l) (fun _ => at_state n (d ++ flat_map h l)).
Proof.
  induction l as [| x l IH]; intros Hf n d.
  - apply hoare_ret. intros g Hg. cbn. rewrite app_nil_r. exact Hg.
  - cbn [forM_ flat_map].
    eapply hoare_bind; [apply Hf; left; reflexivity |].
    intros []. rewrite app_assoc.
    apply IH. intros y m e Hy. apply Hf. right. exact Hy.
Qed.

Lemma py_index_in_range {A : Type} (l : list A) (i : Z) :
  (0 <= i < Z.of_nat (List.length l))%Z -> exists a, py_index l i = Ok a.
Proof.
  intros H. unfold py_index.
  destruct (Z.leb_spec 0 i); [| lia].
  destruct (Z.ltb_spec i 0); [lia |].
  destruct (nth_error l (Z.to_nat i)) as [a |] eqn:E.
  - exists a. reflexivity.
  - apply nth_error_None in E. lia.
Qed.

(** ** Sections of the deck *)

Lemma emits_bind {A B : Type} (K1 K2 : nat) (m : M A) (k : A -> M B)
    (F1 : A -> Prop) (F2 : B -> Prop) :
  emits_geometry K1 m F1 ->
  (forall v, F1 v -> emits_geometry K2 (k v) F2) ->
  emits_geometry (K1 + K2) (bind m k) F2.
Proof.
  intros Hm Hk n d g Hg.
  destruct (Hm n d g Hg) as (v & g1 & E1 & G1 & S1 & B1 & HF1).
  destruct (Hk v HF1 _ _ g1 S1) as (b & g2 & E2 & G2 & S2 & B2 & HF2).
  exists b, g2. split; [unfold bind; rewrite E1; exact E2 |].
  exists (G1 ++ G2). split; [| split; [| exact HF2]].
  - rewrite Nat2Z.inj_add, Z.add_assoc, app_assoc. exact S2.
  - apply geometry_block_app; assumption.
Qed.

Lemma emits_ret {A : Type} (v : A) (F : A -> Prop) :
  F v -> emits_geometry 0 (ret v) F.
Proof.
  intros HF n d. apply hoare_ret. intros g Hg. exists [].
  cbn [Z.of_nat]. rewrite Z.add_0_r, app_nil_r.
  split; [exact Hg |]. split; [split; reflexivity | exact HF].
Qed.

Lemma emits_write (cs : list card) :
  no_wire_cards cs -> emits_geometry 0 (write cs) (fun _ => True).
Proof.
  intros H n d. eapply hoare_weaken; [apply hoare_write |].
  intros [] g Hg. exists cs. cbn [Z.of_nat]. rewrite Z.add_0_r.
  split; [exact Hg |]. split; [apply geometry_block_no_wire, H | exact I].
Qed.

(** Equal programs emit the same. *)
Lemma emits_ext {A : Type} (K : nat) (m m' : M A) (F : A -> Prop) :
  (forall g, m g = m' g) -> emits_geometry K m F -> emits_geometry K m' F.
Proof.
  intros E H n d g Hg. rewrite <- E. apply (H n d g Hg).
Qed.

(** Objects are constructed, then their geometry is written. *)
Lemma emits_construct_write {A : Type} (K : nat) (m : M A) (w : A -> M unit)
    (h : A -> list card) (F : A -> Prop) :
  (forall n d,
      hoare (at_state n d) m
            (fun v g' => at_state (n + Z.of_nat K) d g' /\
                         (geometry_block (h v) n K /\ F v))) ->
  (forall v n d, hoare (at_state n d) (w v) (fun _ => at_state n (d ++ h v))) ->
  emits_geometry K (bind m (fun v => bind (w v) (fun _ => ret v))) F.
Proof.
  intros Hm Hw n d.
  eapply hoare_bind_pure; [apply Hm |].
  intros v [HB HF].
  eapply hoare_bind; [apply Hw |].
  intros []. apply hoare_ret. intros g Hg. exists (h v).
  split; [exact Hg |]. split; assumption.
Qed.

Lemma bind_reassoc {A B : Type} (m : M A) (w : A -> M unit) (k : A -> M B)
    (g : globals) :
  bind (bind m (fun v => bind (w v) (fun _ => ret v))) k g
  = bind m (fun v => bind (w v) (fun _ => k v)) g.
Proof.
  unfold bind, ret. destruct (m g) as [[v | e] g1]; [| reflexivity].
  destruct (w v g1) as [[u | e] g2]; reflexivity.
Qed.

Lemma emits_forM {A : Type} (f : A -> M unit) (l : list A) :
  (forall x, In x l -> emits_geometry 0 (f x) (fun _ => True)) ->
  emits_geometry 0 (forM_ f l) (fun _ => True).
Proof.
  induction l as [| x l IH]; intros Hf.
  - apply emits_ret. exact I.
  - cbn [forM_]. change 0%nat with (0 + 0)%nat.
    apply emits_bind with (F1 := fun _ => True).
    + apply Hf. left. reflexivity.
    + intros _ _. apply IH. intros y Hy. apply Hf. right. exact Hy.
Qed.

(** ** Fences and arrays *)

Lemma hoare_Reflector_init (n : Z) (d : list card)
    (length_m spacing_m start_height_m : R) (num_wires awg : Z)
    (angle global_x global_y global_z : R) :
  (0 <= awg <= 36)%Z ->
  (0 < num_wires)%Z ->
  hoare (at_state n d)
        (Reflector.__init__ length_m spacing_m start_height_m num_wires awg
                            angle global_x global_y global_z)
        (fun r g' =>
           at_state (n + Z.of_nat (Z.to_nat num_wires)) d g' /\
           (geometry_block (Reflector.__repr__ r) n (Z.to_nat num_wires) /\ True)).
Proof.
  intros Hawg Hnum. unfold Reflector.__init__.
  eapply hoare_bind_lift; [apply get_mm_radius_in_range, Hawg |].
  hoare_zeta.
  destruct (Z.eqb_spec num_wires 0) as [E | _]; [lia |].
  eapply hoare_bind_pure.
  - apply (hoare_mapM_chain _ (fun w lo => Wire.wire_number w = (lo + 1)%Z) 1).
    intros x m _. eapply hoare_weaken; [apply hoare_Wire_init |].
    intros w g [H1 [H2 _]]. split; [exact H1 | exact H2].
  - intros ws [Hc Hl]. rewrite py_range_length in Hl.
    apply hoare_ret. intros g Hg.
    rewrite py_range_length, Nat.mul_1_r in Hg.
    split; [exact Hg |]. split; [| exact I].
    unfold Reflector.__repr__. cbn [Reflector.reflector_wires].
    rewrite <- Hl. apply wires_geometry_block, Hc.
Qed.

Lemma Z_of_nat_length_eqb {A : Type} (l : list A) (n : Z) :
  Z.of_nat (List.length l) = n -> negb (Z.of_nat (List.length l) =? n)%Z = false.
Proof. intros ->. rewrite Z.eqb_refl. reflexivity. Qed.

Ltac hoare_antenna :=
  lazymatch goal with
  | |- hoare _ (bind (LogPeriodic.__init__ _ _ _ _ _ _) _) _ =>
      eapply hoare_bind; [apply hoare_LogPeriodic_init |]
  | |- hoare _ (bind (TTFD.__init__ _ _ _ _ _ _ _ _ _ _ _) _) _ =>
      eapply hoare_bind; [apply hoare_TTFD_init; lia |]
  end;
  let a := fresh "a" in
  intros a; apply hoare_ret; intros ? [? ?]; split; assumption.

Lemma hoare_create_main_array (n : Z) (d : list card) (num_antennas : Z)
    (spacing : R) (magnitudes phases : list R) (log_periodics : bool) :
  Z.of_nat (List.length magnitudes) = num_antennas ->
  Z.of_nat (List.length phases) = num_antennas ->
  hoare (at_state n d)
        (create_main_array num_antennas spacing magnitudes phases log_periodics)
        (fun objs g' =>
           at_state (n + Z.of_nat (Z.to_nat num_antennas *
                                   wires_per_antenna log_periodics)) d g' /\
           (geometry_block (flat_map repr_geometry objs) n
              (Z.to_nat num_antennas * wires_per_antenna log_periodics) /\
            electrical_ok objs)).
Proof.
  intros Hm Hp. unfold create_main_array.
  rewrite (Z_of_nat_length_eqb _ Hm), (Z_of_nat_length_eqb _ Hp).
  hoare_zeta. eapply hoare_weaken.
  - apply (hoare_mapM_chain _
             (fun a lo => element_ok a lo (wires_per_antenna log_periodics))
             (wires_per_antenna log_periodics)).
    intros x m Hx. apply py_range_In in Hx.
    destruct (@py_index_in_range _ phases x ltac:(lia)) as [p Ep].
    destruct (@py_index_in_range _ magnitudes x ltac:(lia)) as [a Ea].
    eapply hoare_bind_lift; [exact Ep |].
    eapply hoare_bind_lift; [exact Ea |].
    hoare_zeta. apply hoare_bind_print.
    destruct log_periodics; hoare_antenna.
  - intros objs g (S & C & L). rewrite py_range_length in S, L.
    split; [exact S |]. split; [| exact (elements_electrical _ _ _ C)].
    rewrite <- L. apply elements_geometry_block, C.
Qed.

Lemma hoare_create_int_array (n : Z) (d : list card) (num_antennas : Z)
    (spacing x y z : R) (magnitudes phases : list R) (log_periodics : bool) :
  Z.of_nat (List.length magnitudes) = num_antennas ->
  Z.of_nat (List.length phases) = num_antennas ->
  hoare (at_state n d)
        (create_int_array num_antennas spacing x y z magnitudes phases
                          log_periodics)
        (fun objs g' =>
           at_state (n + Z.of_nat (Z.to_nat num_antennas *
                                   wires_per_antenna log_periodics)) d g' /\
           (geometry_block (flat_map repr_geometry objs) n
              (Z.to_nat num_antennas * wires_per_antenna log_periodics) /\
            electrical_ok objs)).
Proof.
  intros Hm Hp. unfold create_int_array.
  rewrite (Z_of_nat_length_eqb _ Hm), (Z_of_nat_length_eqb _ Hp).
  hoare_zeta. eapply hoare_weaken.
  - apply (hoare_mapM_chain _
             (fun a lo => element_ok a lo (wires_per_antenna log_periodics))
             (wires_per_antenna log_periodics)).
    intros i m Hi. apply py_range_In in Hi.
    destruct (@py_index_in_range _ phases i ltac:(lia)) as [p Ep].
    destruct (@py_index_in_range _ magnitudes i ltac:(lia)) as [a Ea].
    eapply hoare_bind_lift; [exact Ep |].
    eapply hoare_bind_lift; [exact Ea |].
    hoare_zeta. apply hoare_bind_print.
    destruct log_periodics; hoare_antenna.
  - intros objs g (S & C & L). rewrite py_range_length in S, L.
    split; [exact S |]. split; [| exact (elements_electrical _ _ _ C)].
    rewrite <- L. apply elements_geometry_block, C.
Qed.

(** ** The geometry section *)

Lemma emits_main_array (num_antennas : Z) (spacing : R)
    (magnitudes phases : list R) (log_periodics : bool) :
  Z.of_nat (List.length magnitudes) = num_antennas ->
  Z.of_nat (List.length phases) = num_antennas ->
  emits_geometry
    (Z.to_nat num_antennas * wires_per_antenna log_periodics)
    (bind (create_main_array num_antennas spacing magnitudes phases log_periodics)
          (fun objs =>
             bind (forM_ (fun m_ant => write (repr_geometry m_ant)) objs)
                  (fun _ => ret objs)))
    electrical_ok.
Proof.
  intros Hm Hp.
  apply emits_construct_write with (h := flat_map repr_geometry).
  - intros n d. apply hoare_create_main_array; assumption.
  - intros objs n d. apply hoare_forM_write. intros x m e _. apply hoare_write.
Qed.

Lemma emits_int_array (num_antennas : Z) (spacing x y z : R)
    (magnitudes phases : list R) (log_periodics : bool) :
  Z.of_nat (List.length magnitudes) = num_antennas ->
  Z.of_nat (List.length phases) = num_antennas ->
  emits_geometry
    (Z.to_nat num_antennas * wires_per_antenna log_periodics)
    (bind (create_int_array num_antennas spacing x y z magnitudes phases
                            log_periodics)
          (fun objs =>
             bind (forM_ (fun i_ant => write (repr_geometry i_ant)) objs)
                  (fun _ => ret objs)))
    electrical_ok.
Proof.
  intros Hm Hp.
  apply emits_construct_write with (h := flat_map repr_geometry).
  - intros n d. apply hoare_create_int_array; assumption.
  - intros objs n d. apply hoare_forM_write. intros a m e _. apply hoare_write.
Qed.

Lemma emits_fence (length_m spacing_m start_height_m angle x y z : R) :
  emits_geometry 21
    (bind (Reflector.__init__ length_m spacing_m start_height_m 21 13 angle x y z)
          (fun fence => bind (write (Reflector.__repr__ fence))
                             (fun _ => ret fence)))
    (fun _ => True).
Proof.
  apply emits_construct_write with (h := Reflector.__repr__).
  - intros n d.
    apply (@hoare_Reflector_init n d length_m spacing_m start_height_m 21 13
             angle x y z); lia.
  - intros fence n d. apply hoare_write.
Qed.

Lemma bind_then_unit {A : Type} (m : M A) (w : A -> M unit) (g : globals) :
  bind (bind m (fun v => bind (w v) (fun _ => ret v))) (fun _ => ret tt) g
  = bind m w g.
Proof.
  unfold bind, ret. destruct (m g) as [[v | e] g1]; [| reflexivity].
  destruct (w v g1) as [[[] | e] g2]; reflexivity.
Qed.

Ltac emits_stage L :=
  eapply emits_ext; [intros ?; apply bind_reassoc |];
  eapply emits_bind; [apply L |].

Lemma wires_of_run_count (args : Args.t) (K1 K2 K3 : nat) :
  (0 <= Args.antennas args)%Z ->
  K1 = (Z.to_nat (Args.antennas args)
        * wires_per_antenna (Args.log_periodic args))%nat ->
  K2 = (if (Args.int_antennas args >? 0)%Z
        then Z.to_nat (Args.int_antennas args)
             * wires_per_antenna (Args.log_periodic args)
        else 0)%nat ->
  K3 = (if Args.without_fence args then 0
        else 21 + (if (Args.int_antennas args >? 0)%Z then 21 else 0))%nat ->
  Z.of_nat (K1 + (K2 + (K3 + (0 + 0)))) = wires_of_run args.
Proof.
  intros H0 -> -> ->. unfold wires_of_run.
  destruct (Z.gtb_spec (Args.int_antennas args) 0);
    destruct (Args.without_fence args);
    destruct (Args.log_periodic args);
    cbn [wires_per_antenna]; lia.
Qed.

Lemma emits_write_geometry (args : Args.t) (t : tables) :
  Z.of_nat (List.length (antenna_magnitudes t)) = Args.antennas args ->
  Z.of_nat (List.length (antenna_phases t)) = Args.antennas args ->
  ((Args.int_antennas args > 0)%Z ->
   Z.of_nat (List.length (int_antenna_magnitudes t)) = Args.int_antennas args /\
   Z.of_nat (List.length (int_antenna_phases t)) = Args.int_antennas args) ->
  exists K,
    Z.of_nat K = wires_of_run args /\
    emits_geometry K (write_geometry args t)
                   (fun objs => electrical_ok (fst objs) /\
                                electrical_ok (snd objs)).
Proof.
  intros Hm Hp Hi.
  eexists. split; cycle 1.
  - unfold write_geometry.
    emits_stage emits_main_array; [exact Hm | exact Hp |].
    intros mains Hmains.
    eapply emits_bind with (F1 := electrical_ok).
    { instantiate (1 := if (Args.int_antennas args >? 0)%Z
                        then (Z.to_nat (Args.int_antennas args)
                              * wires_per_antenna (Args.log_periodic args))%nat
                        else 0%nat).
      destruct (Z.gtb_spec (Args.int_antennas args) 0) as [Hpos | Hneg].
      - apply emits_int_array; apply Hi; lia.
      - apply emits_ret. constructor. }
    intros ints Hints.
    eapply emits_bind with (F1 := fun _ => True).
    { instantiate (1 := if Args.without_fence args then 0%nat
                        else (21 + (if (Args.int_antennas args >? 0)%Z
                                    then 21 else 0))%nat).
      destruct (Args.without_fence args); cbn [negb].
      - apply emits_ret. exact I.
      - emits_stage emits_fence. intros fence _.
        destruct (Args.int_antennas args >? 0)%Z.
        + eapply emits_ext; [intros ?; apply bind_then_unit |].
          change 21%nat with (21 + 0)%nat at 1.
          eapply emits_bind; [apply emits_fence |].
          intros fence2 _. apply emits_ret. exact I.
        + apply emits_ret. exact I. }
    intros [] _.
    eapply emits_bind with (F1 := fun _ => True).
    { apply emits_write. split; reflexivity. }
    intros [] _. apply emits_ret. split; assumption.
  - apply wires_of_run_count; try reflexivity. lia.
Qed.

(** ** The conductivity section and the rest of the deck *)

Lemma conductivity_cards_tags (c : R) (l : list Z) :
  geometry_tags (flat_map (fun wire => [create_wire_conductivity wire 0 0 c]) l) = []
  /\ conductivity_tags
       (flat_map (fun wire => [create_wire_conductivity wire 0 0 c]) l) = l.
Proof.
  induction l as [| x l [IHg IHc]]; [split; reflexivity |].
  cbn [flat_map]. rewrite geometry_tags_app, conductivity_tags_app, IHg, IHc.
  split; reflexivity.
Qed.

Lemma hoare_bind_read_wire_number {B : Type} (n : Z) (d : list card)
    (k : Z -> M B) (Q : B -> globals -> Prop) :
  hoare (at_state n d) (k n) Q ->
  hoare (at_state n d) (bind read_wire_number k) Q.
Proof.
  intros H g Hg. unfold bind, read_wire_number.
  rewrite (proj1 Hg). exact (H g Hg).
Qed.

Lemma hoare_write_conductivities (args : Args.t) (n : Z) (d : list card) :
  hoare (at_state n d) (write_conductivities args)
        (fun _ g' => exists C,
             at_state n (d ++ C) g' /\
             (geometry_tags C = [] /\ conductivity_tags C = py_range 0 n)).
Proof.
  unfold write_conductivities. apply hoare_bind_read_wire_number.
  set (c := if Args.log_periodic args then aluminum_conductivity
            else copper_conductivity).
  eapply hoare_weaken.
  - apply hoare_forM_write
      with (h := fun wire => [create_wire_conductivity wire 0 0 c]).
    intros x m e _. subst c.
    destruct (Args.log_periodic args); apply hoare_write.
  - intros [] g Hg. eexists. split; [exact Hg |].
    apply conductivity_cards_tags.
Qed.

Lemma emits_seq {A B : Type} (m : M A) (k : A -> M B) (F : B -> Prop) :
  emits_geometry 0 m (fun _ => True) ->
  (forall v, emits_geometry 0 (k v) F) ->
  emits_geometry 0 (bind m k) F.
Proof.
  intros Hm Hk.
  apply (@emits_bind A B 0 0 m k (fun _ => True) F Hm).
  intros v _. apply Hk.
Qed.

Lemma electrical_ok_In (objs : list antenna) (a : antenna) :
  electrical_ok objs -> In a objs ->
  no_wire_cards (repr_loads a) /\
  no_wire_cards (repr_excitations a) /\
  no_wire_cards (repr_transmissionlines a) /\
  no_wire_cards (repr_comment_string a).
Proof.
  intros H Ha. unfold electrical_ok in H. rewrite Forall_forall in H.
  apply H, Ha.
Qed.

Lemma emits_write_electrical (args : Args.t) (mains ints : list antenna) :
  electrical_ok mains -> electrical_ok ints ->
  emits_geometry 0 (write_electrical args mains ints) (fun _ => True).
Proof.
  intros Hmains Hints. unfold write_electrical.
  apply emits_seq.
  { apply emits_forM. intros a Ha. apply emits_write.
    apply (@electrical_ok_In mains a Hmains Ha). }
  intros [].
  apply emits_seq.
  { destruct (Args.int_antennas args >? 0)%Z.
    - apply emits_forM. intros a Ha. apply emits_write.
      apply (@electrical_ok_In ints a Hints Ha).
    - apply emits_ret. exact I. }
  intros [].
  apply emits_seq; [apply emits_write; split; reflexivity | intros []].
  apply emits_seq; [apply emits_write; split; reflexivity | intros []].
  apply emits_seq; [apply emits_write; split; reflexivity | intros []].
  apply emits_seq.
  { apply emits_forM. intros a Ha.
    destruct (@electrical_ok_In mains a Hmains Ha) as (_ & He & Ht & Hc).
    apply emits_seq; [apply emits_write, He | intros []].
    apply emits_seq; [apply emits_write, Ht | intros []].
    apply emits_write, Hc. }
  intros [].
  apply emits_seq.
  { destruct (Args.int_antennas args >? 0)%Z.
    - apply emits_forM. intros a Ha.
      destruct (@electrical_ok_In ints a Hints Ha) as (_ & He & Ht & _).
      apply emits_seq; [apply emits_write, He | intros []].
      apply emits_write, Ht.
    - apply emits_ret. exact I. }
  intros [].
  apply emits_seq; [apply emits_write; split; reflexivity | intros []].
  apply emits_seq; [apply emits_write; split; reflexivity | intros []].
  apply emits_write; split; reflexivity.
Qed.

Lemma hoare_exists_pre {A X : Type} (P : X -> globals -> Prop) (m : M A)
    (Q : A -> globals -> Prop) :
  (forall x, hoare (P x) m Q) -> hoare (fun g => exists x, P x g) m Q.
Proof.
  intros H g [x Hx]. exact (H x g Hx).
Qed.

Lemma tables_lengths (n : Z) (f : Z -> R) :
  (0 <= n)%Z -> Z.of_nat (List.length (map f (py_range 0 n))) = n.
Proof.
  intros H. rewrite length_map, py_range_length. lia.
Qed.

Lemma hoare_bind_open {B : Type} (writable : string -> bool) (path : string)
    (n : Z) (d : list card) (k : unit -> M B) (Q : B -> globals -> Prop) :
  writable path = true ->
  hoare (at_state n []) (k tt) Q ->
  hoare (at_state n d) (bind (open_for_writing writable path) k) Q.
Proof.
  intros Hw H g (S1 & S2 & S3). unfold bind, open_for_writing. rewrite Hw.
  apply H. repeat split; assumption.
Qed.

Lemma open_for_writing_inv (writable : string -> bool) (path : string)
    (g g' : globals) :
  open_for_writing writable path g = (Ok tt, g') ->
  writable path = true.
Proof.
  unfold open_for_writing. destruct (writable path); [reflexivity | discriminate].
Qed.

(** The run from the choice of the phase distribution on: the deck lists
    the wires [1 .. N] in its geometry cards and the tags [0 .. N - 1] in
    its conductivity cards, [N] being the final value of the wire counter. *)
Lemma deck_after_rel_phase (writable : string -> bool) (args : Args.t)
    (rel_phase : R) :
  Args.circular_phase args = false ->
  Args.parabolic_phase args = false ->
  Args.broadened_beam args = false ->
  (0 <= Args.antennas args)%Z ->
  writable (Args.output_file args) = true ->
  hoare (at_state 0 []) (after_rel_phase writable args rel_phase)
        (fun _ g' =>
           wire_number g' = wires_of_run args /\
           geometry_tags (outfile g')
           = ids_after 0 (Z.to_nat (wires_of_run args)) /\
           conductivity_tags (outfile g')
           = py_range 0 (wires_of_run args)).
Proof.
  intros Hc Hp Hb Hn Hw. unfold after_rel_phase.
  unfold excitation_tables. rewrite Hc, Hp, Hb.
  apply hoare_bind_ret.
  apply hoare_bind_open; [exact Hw |].
  match goal with
  | |- hoare _ (bind (write_geometry _ ?t) _) _ =>
      destruct (@emits_write_geometry args t) as (K & HK & Hemit)
  end.
  { cbn [antenna_magnitudes]. apply tables_lengths, Hn. }
  { cbn [antenna_phases]. apply tables_lengths, Hn. }
  { intros Hi. cbn [int_antenna_magnitudes int_antenna_phases].
    split; apply tables_lengths; lia. }
  eapply hoare_bind; [apply Hemit |].
  intros objs. apply hoare_exists_pre. intros G.
  apply hoare_pure. intros [[TG CG] [Hmains Hints]].
  eapply hoare_bind; [apply hoare_write_conductivities |].
  intros []. apply hoare_exists_pre. intros C.
  apply hoare_pure. intros [TC CC].
  eapply hoare_weaken; [apply (emits_write_electrical args Hmains Hints) |].
  intros [] g (E & (Sn & _ & Sd) & [TE CE] & _).
  rewrite Sn, Sd, <- HK.
  rewrite !geometry_tags_app, !conductivity_tags_app.
  rewrite TG, CG, TC, CC, TE, CE.
  cbn [Z.of_nat app ids_after seq map]. rewrite !app_nil_r, Nat2Z.id.
  repeat split; f_equal; lia.
Qed.

Lemma main_unfold (writable : string -> bool) (args : Args.t) (g : globals) :
  main writable args g =
  bind (rel_phase_of args) (after_rel_phase writable args)
       (mkGlobals (wire_number g) (min_frequency g)
                  (stdout g ++ [PrintOutput (Args.output_file args)])
                  (outfile g)).
Proof. reflexivity. Qed.

(** The steering phase is computed without touching the counter, the
    minimum frequency or the file. *)
Lemma rel_phase_of_state (args : Args.t) (g g' : globals) (r : result R) :
  rel_phase_of args g = (r, g') ->
  wire_number g' = wire_number g /\
  min_frequency g' = min_frequency g /\
  outfile g' = outfile g.
Proof.
  unfold rel_phase_of, calculate_phase_from_beam, bind, lift, print, ret.
  destruct (negb (is_int_zero (Args.beam args))).
  - destruct (mul_float (Args.frequency args) 1e6) as [f | e];
      [| intros H; injection H as <- <-; repeat split].
    destruct (float_of (Args.beam args)) as [b | e];
      [| intros H; injection H as <- <-; repeat split].
    destruct (fdiv speed_of_light f) as [w | e];
      [| intros H; injection H as <- <-; repeat split].
    intros H. cbv beta iota zeta in H. injection H as <- <-. repeat split.
  - intros H. injection H as <- <-. repeat split.
Qed.

(** A run from the loaded module without a steering request, on an output
    file that can be opened, completes in the model, where no float value
    overflows. *)
Lemma main_deck (writable : string -> bool) (args : Args.t) :
  Args.circular_phase args = false ->
  Args.parabolic_phase args = false ->
  Args.broadened_beam args = false ->
  Args.beam args = PyInt 0 ->
  (0 <= Args.antennas args)%Z ->
  writable (Args.output_file args) = true ->
  exists g',
    main writable args initial_globals = (Ok tt, g') /\
    wire_number g' = wires_of_run args.
Proof.
  intros Hc Hp Hb Hbeam Hn Hw. rewrite main_unfold.
  unfold bind at 1. rewrite (rel_phase_default_beam _ _ Hbeam).
  destruct (@deck_after_rel_phase writable args 0 Hc Hp Hb Hn Hw
              (mkGlobals (wire_number initial_globals)
                 (min_frequency initial_globals)
                 (stdout initial_globals
                  ++ [PrintOutput (Args.output_file args)])
                 (outfile initial_globals)))
    as ([] & g' & Hrun & HN & _).
  { repeat split. simpl. lra. }
  exists g'. split; [exact Hrun | exact HN].
Qed.

Lemma bind_inv {A B : Type} (m : M A) (k : A -> M B) (g g' : globals) (v : B) :
  bind m k g = (Ok v, g') ->
  exists a g1, m g = (Ok a, g1) /\ k a g1 = (Ok v, g').
Proof.
  unfold bind. destruct (m g) as [[a | e] g1]; [| discriminate].
  intros H. exists a, g1. split; [reflexivity | exact H].
Qed.

(** A run that gets past the choice of the phase distribution had none of
    the three special distributions requested. *)
Lemma excitation_tables_flags (args : Args.t) (rel_phase : R)
    (g g' : globals) (t : tables) :
  excitation_tables args rel_phase g = (Ok t, g') ->
  Args.circular_phase args = false /\
  Args.parabolic_phase args = false /\
  Args.broadened_beam args = false.
Proof.
  unfold excitation_tables.
  destruct (Args.circular_phase args).
  { unfold bind, lift, calculate_circular_phase, raise.
    destruct (mul_float (Args.frequency args) 1e6); discriminate. }
  destruct (Args.parabolic_phase args).
  { unfold bind, lift, calculate_parabolic_phase, raise.
    destruct (mul_float (Args.frequency args) 1e6); discriminate. }
  destruct (Args.broadened_beam args); [| repeat split].
  unfold bind at 1, lift at 1.
  destruct (mul_float (Args.frequency args) 1e6); [| discriminate].
  unfold bind at 1. rewrite calculate_broadened_phase_outcome. discriminate.
Qed.

Lemma create_main_array_sizes (num_antennas : Z) (spacing : R)
    (magnitudes phases : list R) (log_periodics : bool) (g g' : globals)
    (objs : list antenna) :
  create_main_array num_antennas spacing magnitudes phases log_periodics g
  = (Ok objs, g') ->
  Z.of_nat (List.length magnitudes) = num_antennas.
Proof.
  unfold create_main_array.
  destruct (Z.eqb_spec (Z.of_nat (List.length magnitudes)) num_antennas) as [E | E];
    [intros _; exact E | discriminate].
Qed.

(** A run that completes had a non-negative number of main antennas and
    no special phase distribution. *)
Lemma after_rel_phase_conditions (writable : string -> bool) (args : Args.t)
    (rel_phase : R) (g g' : globals) :
  after_rel_phase writable args rel_phase g = (Ok tt, g') ->
  (Args.circular_phase args = false /\
   Args.parabolic_phase args = false /\
   Args.broadened_beam args = false) /\
  (0 <= Args.antennas args)%Z.
Proof.
  intros H. unfold after_rel_phase in H.
  apply bind_inv in H. destruct H as (t & g1 & Ht & H).
  pose proof (excitation_tables_flags _ _ _ Ht) as (Hc & Hp & Hb).
  split; [repeat split; assumption |].
  unfold excitation_tables in Ht. rewrite Hc, Hp, Hb in Ht.
  injection Ht as <- <-.
  apply bind_inv in H. destruct H as ([] & g0 & _ & H).
  apply bind_inv in H. destruct H as (objs & g2 & Hgeo & _).
  unfold write_geometry in Hgeo.
  apply bind_inv in Hgeo. destruct Hgeo as (mains & g3 & Hmain & _).
  apply create_main_array_sizes in Hmain. cbn [antenna_magnitudes] in Hmain.
  rewrite length_map, py_range_length in Hmain. lia.
Qed.

(** A run that completes has opened its output file. *)
Lemma after_rel_phase_opened (writable : string -> bool) (args : Args.t)
    (rel_phase : R) (g g' : globals) :
  after_rel_phase writable args rel_phase g = (Ok tt, g') ->
  writable (Args.output_file args) = true.
Proof.
  intros H. unfold after_rel_phase in H.
  apply bind_inv in H. destruct H as (t & g1 & _ & H).
  apply bind_inv in H. destruct H as ([] & g0 & Hopen & _).
  exact (open_for_writing_inv _ _ _ Hopen).
Qed.

(** ** Wire identifiers *)

(** Whatever the outcome of a constructor call, it has consumed exactly one
    identifier, which is the one the wire carries. *)
Lemma Wire_init_counter (x1 y1 z1 x2 y2 z2 radius : R) (s : Z)
    (g g' : globals) (r : result Wire.t) :
  Wire.__init__ x1 y1 z1 x2 y2 z2 radius s g = (r, g') ->
  wire_number g' = (wire_number g + 1)%Z /\
  forall w, r = Ok w -> Wire.wire_number w = (wire_number g + 1)%Z.
Proof.
  unfold Wire.__init__, bind, next_wire_number, read_min_frequency, lift, ret.
  destruct (s =? 0)%Z; cbn [min_frequency];
    [destruct (fdiv (0.05 * speed_of_light) (min_frequency g)) as [sl | e];
     [destruct (fdiv (Wire.wire_length x1 y1 z1 x2 y2 z2) sl) as [q | e] |] |];
    intros H; cbv beta iota zeta in H; injection H as <- <-;
    (split; [reflexivity |]); intros w Hw;
    try discriminate; injection Hw as <-; reflexivity.
Qed.

Lemma mapM_WireCall_ids (calls : list WireCall.t) (g g' : globals)
    (ws : list Wire.t) :
  mapM WireCall.run calls g = (Ok ws, g') ->
  map Wire.get_wire_number ws = ids_after (wire_number g) (List.length calls) /\
  wire_number g' = (wire_number g + Z.of_nat (List.length calls))%Z.
Proof.
  revert g g' ws. induction calls as [| c calls IH]; intros g g' ws H.
  - injection H as <- <-. split; [reflexivity | cbn; lia].
  - cbn [mapM] in H. unfold bind at 1 in H.
    destruct (WireCall.run c g) as [[w | e] g1] eqn:E1; [| discriminate].
    unfold bind at 1 in H.
    destruct (mapM WireCall.run calls g1) as [[ws' | e] g2] eqn:E2;
      [| discriminate].
    injection H as <- <-.
    apply Wire_init_counter in E1. destruct E1 as [C1 W1].
    specialize (W1 w eq_refl).
    destruct (IH _ _ _ E2) as [I1 I2].
    change (List.length (c :: calls)) with (1 + List.length calls)%nat.
    rewrite ids_after_app. cbn [map]. unfold Wire.get_wire_number at 1.
    rewrite W1, I1, I2, C1. split; [| lia].
    unfold ids_after at 1. cbn [seq map]. reflexivity.
Qed.

(** C4.  The wires constructed by a sequence of constructor calls carry
    the identifiers that follow the counter, one after the other: they are
    strictly increasing in construction order and pairwise distinct, and the
    counter ends past the last of them. *)
Theorem wire_numbers_increase (calls : list WireCall.t) (g g' : globals)
    (ws : list Wire.t) :
  mapM WireCall.run calls g = (Ok ws, g') ->
  let ids := map Wire.get_wire_number ws in
  ids = ids_after (wire_number g) (List.length calls) /\
  StronglySorted Z.lt ids /\
  NoDup ids /\
  Forall (fun i => (wire_number g < i <= wire_number g')%Z) ids.
Proof.
  intros H ids. destruct (mapM_WireCall_ids _ _ H) as [Hids Hcounter].
  subst ids. rewrite Hids.
  split; [reflexivity |].
  split; [apply ids_after_sorted |].
  split; [apply ids_after_NoDup |].
  apply Forall_forall. intros i Hi. apply ids_after_In in Hi. lia.
Qed.

Lemma wire_numbers_increase_witness :
  let calls :=
    [WireCall.mk (-3.02) 0 15 3.02 0 15 0.01 13;
     WireCall.mk (-3.35) 0.725 15 3.35 0.725 15 0.01 15;
     WireCall.mk (-3.785) 1.585 15 3.785 1.585 15 0.01 17] in
  exists ws g',
    mapM WireCall.run calls initial_globals = (Ok ws, g') /\
    map Wire.get_wire_number ws = [1; 2; 3]%Z /\
    StronglySorted Z.lt (map Wire.get_wire_number ws) /\
    NoDup (map Wire.get_wire_number ws).
Proof.
  intros calls.
  assert (E : mapM WireCall.run calls initial_globals
              = (Ok [Wire.mk 1 13 (-3.02) 0 15 3.02 0 15 0.01;
                     Wire.mk 2 15 (-3.35) 0.725 15 3.35 0.725 15 0.01;
                     Wire.mk 3 17 (-3.785) 1.585 15 3.785 1.585 15 0.01],
                 mkGlobals 3 8e6 [] [])) by reflexivity.
  eexists. eexists. split; [exact E |].
  destruct (wire_numbers_increase calls initial_globals E) as (H1 & H2 & H3 & _).
  split; [exact H1 |]. split; [exact H2 | exact H3].
Defined.

(** ** The conductivity cards of a run *)

(** C1, what the code does.  In every run that completes, from the module
    as loaded, the geometry cards carry the identifiers [1 .. N] of the [N]
    wires constructed, while the conductivity cards carry the tags
    [0 .. N - 1] in ascending order: when there is a wire at all, tag [0],
    which no wire has, gets a card, and the last wire [N] gets none. *)
Theorem conductivity_cards_of_run (writable : string -> bool)
    (args : Args.t) (g' : globals) :
  main writable args initial_globals = (Ok tt, g') ->
  let N := wire_number g' in
  N = wires_of_run args /\
  geometry_tags (outfile g') = ids_after 0 (Z.to_nat N) /\
  conductivity_tags (outfile g') = py_range 0 N /\
  ((0 < N)%Z ->
   In 0%Z (conductivity_tags (outfile g')) /\
   ~ In N (conductivity_tags (outfile g')) /\
   In N (geometry_tags (outfile g'))).
Proof.
  intros Hrun. rewrite main_unfold in Hrun.
  apply bind_inv in Hrun. destruct Hrun as (rp & g1 & Hrp & Hrest).
  destruct (rel_phase_of_state _ _ Hrp) as (S1 & S2 & S3).
  destruct (after_rel_phase_conditions _ _ _ _ Hrest) as ((Hc & Hp & Hb) & Hn).
  pose proof (after_rel_phase_opened _ _ _ _ Hrest) as Hw.
  destruct (@deck_after_rel_phase writable args rp Hc Hp Hb Hn Hw g1)
    as ([] & g2 & Hrun & HN & HG & HC).
  { repeat split; [exact S1 | rewrite S2; simpl; lra | exact S3]. }
  rewrite Hrest in Hrun. injection Hrun as <-.
  cbn zeta. rewrite HN, HG, HC.
  split; [reflexivity |]. split; [reflexivity |]. split; [reflexivity |].
  intros Hpos.
  split; [apply py_range_In; lia |].
  split; [rewrite py_range_In; lia |].
  apply ids_after_In. lia.
Qed.

Lemma conductivity_cards_of_run_witness :
  exists g',
    main all_writable Args.defaults initial_globals = (Ok tt, g') /\
    wire_number g' = 182%Z /\
    geometry_tags (outfile g') = ids_after 0 182 /\
    conductivity_tags (outfile g') = py_range 0 182 /\
    In 0%Z (conductivity_tags (outfile g')) /\
    ~ In 182%Z (conductivity_tags (outfile g')) /\
    In 182%Z (geometry_tags (outfile g')).
Proof.
  destruct (main_deck all_writable Args.defaults eq_refl eq_refl eq_refl
              eq_refl ltac:(simpl; lia) eq_refl) as (g' & Hrun & HK).
  change (wires_of_run Args.defaults) with 182%Z in HK.
  destruct (conductivity_cards_of_run all_writable Args.defaults Hrun)
    as (_ & HG & HC & Hrest).
  rewrite HK in HG, HC, Hrest.
  destruct (Hrest eq_refl) as (H0 & Hlast & Hgeo).
  exists g'. repeat split; assumption.
Defined.

(** * Further properties of the module *)

(** ** Wires: translation *)

Lemma wire_length_translate (x1 y1 z1 x2 y2 z2 a b c : R) :
  Wire.wire_length (x1 + a) (y1 + b) (z1 + c) (x2 + a) (y2 + b) (z2 + c)
  = Wire.wire_length x1 y1 z1 x2 y2 z2.
Proof.
  unfold Wire.wire_length. f_equal. ring.
Qed.

Lemma Wire_init_value (g : globals) (x1 y1 z1 x2 y2 z2 radius : R) (s : Z) :
  min_frequency g <> 0 \/ s <> 0%Z ->
  Wire.__init__ x1 y1 z1 x2 y2 z2 radius s g =
  (Ok (Wire.mk (wire_number g + 1)
               (chosen_segments (min_frequency g)
                                (Wire.wire_length x1 y1 z1 x2 y2 z2) s)
               x1 y1 z1 x2 y2 z2 radius),
   mkGlobals (wire_number g + 1) (min_frequency g) (stdout g) (outfile g)).
Proof.
  intros H. unfold chosen_segments.
  destruct (Z.eqb_spec s 0) as [-> | Hs].
  - destruct H as [H | H]; [| contradiction]. apply Wire_init_auto, H.
  - apply Wire_init_explicit, Hs.
Qed.

(** X1.  Constructing a wire and translating it gives the wire that the
    constructor builds at the translated end points: same identifier, same
    segment count, same state afterwards. *)
Theorem translate_after_construction
    (g g' : globals) (x1 y1 z1 x2 y2 z2 radius a b c : R) (s : Z) (w : Wire.t) :
  Wire.__init__ x1 y1 z1 x2 y2 z2 radius s g = (Ok w, g') ->
  Wire.__init__ (x1 + a) (y1 + b) (z1 + c) (x2 + a) (y2 + b) (z2 + c) radius s g
  = (Ok (Wire.translate w a b c), g').
Proof.
  unfold Wire.__init__, bind, next_wire_number, read_min_frequency, lift, ret.
  rewrite wire_length_translate.
  destruct (s =? 0)%Z; cbn [min_frequency];
    [destruct (fdiv (0.05 * speed_of_light) (min_frequency g)) as [sl | e];
     [destruct (fdiv (Wire.wire_length x1 y1 z1 x2 y2 z2) sl) as [q | e] |] |];
    intros H; cbv beta iota zeta in H; try discriminate;
    injection H as <- <-; reflexivity.
Qed.

Lemma translate_after_construction_witness :
  Wire.__init__ (-4 + 22.86) (0 + 0) (11.5 + 0) (4 + 22.86) (0 + 0) (11.5 + 0)
                Wire.default_radius 13 initial_globals
  = (Ok (Wire.translate
           (Wire.mk 1 13 (-4) 0 11.5 4 0 11.5 Wire.default_radius) 22.86 0 0),
     mkGlobals 1 8e6 [] []).
Proof.
  apply (@translate_after_construction initial_globals (mkGlobals 1 8e6 [] [])
           (-4) 0 11.5 4 0 11.5 Wire.default_radius 22.86 0 0 13).
  reflexivity.
Defined.

(** X2.  Translations add up, the opposite translation undoes one, and a
    translation changes neither the length of a wire nor its identifier,
    segment count, radius or middle segment. *)
Theorem translate_algebra (w : Wire.t) (a b c a' b' c' : R) :
  Wire.translate (Wire.translate w a b c) a' b' c'
  = Wire.translate w (a + a') (b + b') (c + c') /\
  Wire.translate (Wire.translate w a b c) (- a) (- b) (- c) = w /\
  (let t := Wire.translate w a b c in
   Wire.wire_length (Wire.x1 t) (Wire.y1 t) (Wire.z1 t)
                    (Wire.x2 t) (Wire.y2 t) (Wire.z2 t)
   = Wire.wire_length (Wire.x1 w) (Wire.y1 w) (Wire.z1 w)
                      (Wire.x2 w) (Wire.y2 w) (Wire.z2 w) /\
   Wire.get_wire_number t = Wire.get_wire_number w /\
   Wire.segments t = Wire.segments w /\
   Wire.radius t = Wire.radius w /\
   Wire.get_mid_segment t = Wire.get_mid_segment w).
Proof.
  destruct w as [n s x1 y1 z1 x2 y2 z2 r]. unfold Wire.translate.
  cbn [Wire.wire_number Wire.segments Wire.x1 Wire.y1 Wire.z1 Wire.x2 Wire.y2
       Wire.z2 Wire.radius].
  split; [f_equal; ring |]. split; [f_equal; ring |].
  split; [apply wire_length_translate |]. repeat split.
Qed.

(** ** Wires: the automatic segment count *)

Lemma auto_segments_odd (f len : R) : Z.odd (auto_segments f len) = true.
Proof. unfold auto_segments. apply odd_after_bump. Qed.

Lemma quotient_nonneg (f len : R) :
  0 < f -> 0 <= len -> 0 <= len / (0.05 * speed_of_light / f).
Proof.
  intros Hf Hl. apply Rmult_le_pos; [exact Hl |].
  apply Rlt_le, Rinv_0_lt_compat, segment_length_pos, Hf.
Qed.

Lemma auto_segments_bounds (f len : R) :
  0 < f -> 0 <= len ->
  let q := len / (0.05 * speed_of_light / f) in
  (1 <= auto_segments f len)%Z /\
  IZR (auto_segments f len) <= q + 1 /\
  q < 2 * IZR (auto_segments f len).
Proof.
  intros Hf Hl q. unfold auto_segments. fold q.
  pose proof (quotient_nonneg Hf Hl) as Hq. fold q in Hq.
  rewrite (py_int_nonneg Hq).
  pose proof (Zfloor_bound q) as [LB UB].
  pose proof (Zfloor_nonneg Hq) as Hk.
  set (k := Zfloor q) in *.
  destruct (Z.even k) eqn:E.
  - rewrite plus_IZR. simpl (IZR 1). split; [lia |].
    assert (0 <= IZR k) by (apply IZR_le; exact Hk).
    split; lra.
  - assert (Hk1 : (1 <= k)%Z).
    { assert (k <> 0%Z) by (intros K; rewrite K in E; discriminate). lia. }
    assert (1 <= IZR k) by (apply IZR_le; exact Hk1).
    split; [exact Hk1 |]. split; lra.
Qed.

(** X3.  A wire constructed with the automatic segment count always has a
    middle segment: [get_mid_segment] does not raise on it.  For a positive
    minimum frequency the middle segment [m] lies in [1 .. segments] and
    has [m - 1] segments on either side. *)
Theorem auto_wire_has_middle_segment
    (g : globals) (x1 y1 z1 x2 y2 z2 radius : R) :
  min_frequency g <> 0 ->
  exists w g' m,
    Wire.__init__ x1 y1 z1 x2 y2 z2 radius 0 g = (Ok w, g') /\
    Wire.get_mid_segment w = Ok m /\
    (0 < min_frequency g ->
     (1 <= m <= Wire.segments w)%Z /\ (2 * m = Wire.segments w + 1)%Z).
Proof.
  intros Hf. eexists. eexists. eexists.
  split; [apply Wire_init_value; left; exact Hf |].
  change (chosen_segments ?f ?l 0) with (auto_segments f l).
  split.
  - apply get_mid_segment_odd. cbn [Wire.segments]. apply auto_segments_odd.
  - intros Hpos. cbn [Wire.segments].
    set (len := Wire.wire_length x1 y1 z1 x2 y2 z2).
    destruct (auto_segments_bounds Hpos (wire_length_nonneg x1 y1 z1 x2 y2 z2))
      as (H1 & _). fold len in H1.
    pose proof (auto_segments_odd (min_frequency g) len) as Hodd.
    set (s := auto_segments (min_frequency g) len) in *.
    rewrite py_int_nonneg, Zfloor_half
      by (apply Rmult_le_pos; [apply IZR_le; lia | lra]).
    pose proof (Z.div_mod s 2 ltac:(lia)) as E.
    rewrite Zmod_odd, Hodd in E. lia.
Qed.

Lemma auto_wire_has_middle_segment_witness :
  exists w g' m,
    Wire.__init__ (-6) 0 10 6 0 10 Wire.default_radius 0 initial_globals
    = (Ok w, g') /\
    Wire.get_mid_segment w = Ok m /\
    (1 <= m <= Wire.segments w)%Z /\ (2 * m = Wire.segments w + 1)%Z.
Proof.
  assert (Hf : min_frequency initial_globals <> 0) by (simpl; lra).
  destruct (auto_wire_has_middle_segment initial_globals (-6) 0 10 6 0 10
              Wire.default_radius Hf) as (w & g' & m & Hrun & Hmid & Hin).
  exists w, g', m. split; [exact Hrun |]. split; [exact Hmid |].
  apply Hin. simpl. lra.
Defined.

(** X4.  With a positive minimum frequency, every segment of an
    automatically segmented wire of positive length is shorter than a tenth
    of the wavelength at that frequency, and the count exceeds the length
    measured in twentieths of the wavelength by at most one. *)
Theorem auto_segments_are_short
    (g : globals) (x1 y1 z1 x2 y2 z2 radius : R) :
  0 < min_frequency g ->
  0 < Wire.wire_length x1 y1 z1 x2 y2 z2 ->
  exists w g',
    Wire.__init__ x1 y1 z1 x2 y2 z2 radius 0 g = (Ok w, g') /\
    let len := Wire.wire_length x1 y1 z1 x2 y2 z2 in
    let wavelength := speed_of_light / min_frequency g in
    len / IZR (Wire.segments w) < 0.1 * wavelength /\
    IZR (Wire.segments w) <= len / (0.05 * wavelength) + 1.
Proof.
  intros Hf Hlen.
  eexists. eexists.
  split; [apply Wire_init_value; left; lra |].
  change (chosen_segments ?f ?l 0) with (auto_segments f l).
  cbn [Wire.segments]. cbv zeta.
  set (len := Wire.wire_length x1 y1 z1 x2 y2 z2) in *.
  destruct (auto_segments_bounds Hf (Rlt_le _ _ Hlen)) as (H1 & H2 & H3).
  fold len in H1, H2, H3.
  set (s := auto_segments (min_frequency g) len) in *.
  assert (Hs : 1 <= IZR s) by (apply IZR_le; exact H1).
  pose proof (segment_length_pos Hf) as HL.
  assert (EL : 0.05 * speed_of_light / min_frequency g
               = 0.05 * (speed_of_light / min_frequency g))
    by apply Rmult_assoc.
  rewrite <- EL.
  replace (0.1 * (speed_of_light / min_frequency g))
    with (2 * (0.05 * speed_of_light / min_frequency g)) by (rewrite EL; lra).
  clear EL.
  set (L := 0.05 * speed_of_light / min_frequency g) in *.
  split; [| exact H2].
  apply Rmult_lt_reg_r with (r := IZR s); [lra |].
  unfold Rdiv at 1. rewrite Rmult_assoc, Rinv_l by lra. rewrite Rmult_1_r.
  apply Rmult_lt_compat_r with (r := L) in H3; [| exact HL].
  unfold Rdiv in H3. rewrite Rmult_assoc, Rinv_l in H3 by lra. lra.
Qed.

Lemma auto_segments_are_short_witness :
  exists w g',
    Wire.__init__ (-6) 0 10 6 0 10 Wire.default_radius 0 initial_globals
    = (Ok w, g') /\
    Wire.wire_length (-6) 0 10 6 0 10 / IZR (Wire.segments w)
    < 0.1 * (speed_of_light / 8e6).
Proof.
  assert (Hf : 0 < min_frequency initial_globals) by (simpl; lra).
  assert (Hl : 0 < Wire.wire_length (-6) 0 10 6 0 10).
  { unfold Wire.wire_length. apply sqrt_lt_R0. lra. }
  destruct (auto_segments_are_short initial_globals (-6) 0 10 6 0 10
              Wire.default_radius Hf Hl) as (w & g' & Hrun & Hshort & _).
  exists w, g'. split; [exact Hrun | exact Hshort].
Defined.

(** ** Wire gauge *)

Lemma awg_exponent_pos (awg : Z) :
  (awg < 36)%Z -> 0 < IZR (36 - awg) / IZR 39.
Proof.
  intros H. apply Rdiv_lt_0_compat; apply IZR_lt; lia.
Qed.

Lemma awg_exponent_lt (awg awg' : Z) :
  (awg < awg')%Z -> IZR (36 - awg') / IZR 39 < IZR (36 - awg) / IZR 39.
Proof.
  intros H. apply Rmult_lt_compat_r.
  - apply Rinv_0_lt_compat, IZR_lt. lia.
  - apply IZR_lt. lia.
Qed.

Lemma get_mm_radius_out_of_range (awg : Z) :
  (awg < 0 \/ 36 < awg)%Z -> get_mm_radius_from_awg awg = Raise ValueError.
Proof.
  intros H. unfold get_mm_radius_from_awg.
  destruct (Z.ltb_spec awg 0); [reflexivity |].
  destruct (Z.gtb_spec awg 36); [reflexivity | lia].
Qed.

(** X5.  The gauge conversion raises [ValueError] exactly outside
    [0 .. 36].  Inside, the radius is at least 0.127 mm, which is the
    radius of gauge 36, and a larger gauge gives a strictly thinner wire. *)
Theorem awg_radius (awg : Z) :
  (get_mm_radius_from_awg awg = Raise ValueError <-> (awg < 0 \/ 36 < awg)%Z) /\
  ((0 <= awg <= 36)%Z ->
   exists r,
     get_mm_radius_from_awg awg = Ok r /\
     0.127 <= r /\
     (awg = 36%Z -> r = 0.127) /\
     forall awg', (awg < awg' <= 36)%Z ->
       exists r', get_mm_radius_from_awg awg' = Ok r' /\ r' < r).
Proof.
  split.
  - unfold get_mm_radius_from_awg.
    destruct (Z.ltb_spec awg 0); cbn [orb].
    + split; [intros _; lia | reflexivity].
    + destruct (Z.gtb_spec awg 36).
      * split; [intros _; lia | reflexivity].
      * split; [discriminate | lia].
  - intros Hin. eexists. split; [apply get_mm_radius_in_range, Hin |].
    assert (H92 : 1 < 92) by lra.
    assert (H0 : Rpower 92 0 = 1) by (apply Rpower_O; lra).
    split; [| split].
    + destruct (Z.eq_dec awg 36) as [-> | Hne].
      * replace (IZR (36 - 36) / IZR 39) with 0
          by (simpl; unfold Rdiv; ring).
        rewrite H0. lra.
      * pose proof (Rpower_lt 92 0 _ H92 (@awg_exponent_pos awg ltac:(lia))).
        lra.
    + intros ->. replace (IZR (36 - 36) / IZR 39) with 0
        by (simpl; unfold Rdiv; ring).
      rewrite H0. lra.
    + intros awg' H'. eexists.
      split; [apply get_mm_radius_in_range; lia |].
      pose proof (Rpower_lt 92 _ _ H92 (@awg_exponent_lt awg awg' ltac:(lia))).
      lra.
Qed.

Lemma awg_radius_witness :
  exists r r',
    get_mm_radius_from_awg 13 = Ok r /\
    get_mm_radius_from_awg 14 = Ok r' /\
    0.127 <= r /\ r' < r.
Proof.
  destruct (proj2 (awg_radius 13) ltac:(lia)) as (r & Hr & Hmin & _ & Hdec).
  destruct (Hdec 14%Z ltac:(lia)) as (r' & Hr' & Hlt).
  exists r, r'. repeat split; assumption.
Defined.

(** ** Beams *)

Lemma angle_from_beam_opposite (b beam_separation : R) (number_of_beams : Z) :
  calculate_angle_from_beam (IZR number_of_beams - 1 - b) beam_separation
                            number_of_beams
  = - calculate_angle_from_beam b beam_separation number_of_beams.
Proof.
  unfold calculate_angle_from_beam.
  generalize (IZR number_of_beams). intros n. lra || nra.
Qed.

(** X6.  Beam numbers [b] and [N - 1 - b] point to opposite azimuths, and
    the azimuths of consecutive beam numbers differ by the beam separation:
    the beams numbered [0 .. N - 1] are spread evenly and symmetrically
    about boresight. *)
Theorem beam_azimuths_mirror (b beam_separation : R) (number_of_beams : Z) :
  calculate_angle_from_beam (IZR number_of_beams - 1 - b) beam_separation
                            number_of_beams
  = - calculate_angle_from_beam b beam_separation number_of_beams /\
  calculate_angle_from_beam (b + 1) beam_separation number_of_beams
  - calculate_angle_from_beam b beam_separation number_of_beams
  = beam_separation.
Proof.
  split; [apply angle_from_beam_opposite |].
  unfold calculate_angle_from_beam. lra || nra.
Qed.

Lemma phase_as_product (d s f : R) :
  f <> 0 ->
  360 * d * s / (speed_of_light / f) = 360 * d * s * f / speed_of_light.
Proof.
  intros Hf. unfold speed_of_light. field. exact Hf.
Qed.

(** X7.  For a nonzero frequency the steering phase of beam [15 - b] is
    the opposite of that of beam [b], and no steering phase exceeds
    360 * |spacing| * |frequency| / c degrees in absolute value. *)
Theorem steering_phase_mirror (b f d : R) (g : globals) :
  f <> 0 ->
  exists p,
    fst (calculate_phase_from_beam b f d g) = Ok p /\
    fst (calculate_phase_from_beam (15 - b) f d g) = Ok (- p) /\
    Rabs p <= 360 * Rabs d * Rabs f / speed_of_light.
Proof.
  intros Hf. eexists.
  rewrite !(calculate_phase_from_beam_value _ d g Hf). cbn [fst].
  split; [reflexivity |].
  set (a := calculate_angle_from_beam b 3.24 16).
  assert (Ha : calculate_angle_from_beam (15 - b) 3.24 16 = - a).
  { subst a. rewrite <- (angle_from_beam_opposite b 3.24 16).
    f_equal. simpl. lra. }
  rewrite Ha.
  replace (- a * PI / 180) with (- (a * PI / 180)) by (unfold Rdiv; ring).
  rewrite sin_neg, !(phase_as_product _ _ Hf).
  split; [f_equal; unfold Rdiv; ring |].
  set (s := sin (a * PI / 180)).
  assert (Hs : Rabs s <= 1).
  { apply Rabs_le. subst s. pose proof (SIN_bound (a * PI / 180)). lra. }
  unfold Rdiv. rewrite !Rabs_mult.
  assert (Hc : 0 < / speed_of_light)
    by (apply Rinv_0_lt_compat; unfold speed_of_light; lra).
  rewrite (Rabs_right 360) by lra.
  rewrite (Rabs_right (/ speed_of_light)) by lra.
  pose proof (Rabs_pos d). pose proof (Rabs_pos f). pose proof (Rabs_pos s).
  apply Rmult_le_compat_r; [lra |].
  apply Rmult_le_compat_r; [assumption |].
  rewrite <- (Rmult_1_r (360 * Rabs d)) at 2.
  apply Rmult_le_compat_l; [nra | exact Hs].
Qed.

Lemma steering_phase_mirror_witness :
  exists p,
    fst (calculate_phase_from_beam 3 10500000 15.24 initial_globals) = Ok p /\
    fst (calculate_phase_from_beam (15 - 3) 10500000 15.24 initial_globals)
    = Ok (- p) /\
    Rabs p <= 360 * Rabs 15.24 * Rabs 10500000 / speed_of_light.
Proof.
  apply (@steering_phase_mirror 3 10500000 15.24 initial_globals). lra.
Defined.

(** ** Tracking values through effectful code *)

Lemma hoare_freq_bind_print {B : Type} (n : Z) (f : R) (d : list card)
    (e : print_event) (k : unit -> M B) (Q : B -> globals -> Prop) :
  hoare (at_freq n f d) (k tt) Q -> hoare (at_freq n f d) (bind (print e) k) Q.
Proof.
  intros H g Hg. unfold bind, print. apply H. exact Hg.
Qed.

Lemma hoare_freq_write (n : Z) (f : R) (d cs : list card) :
  hoare (at_freq n f d) (write cs) (fun _ => at_freq n f (d ++ cs)).
Proof.
  intros g (Hn & Hf & Hd). exists tt. eexists. split; [reflexivity |].
  repeat split; cbn; [exact Hn | exact Hf | rewrite Hd; reflexivity].
Qed.

Lemma hoare_freq_bind_write {B : Type} (n : Z) (f : R) (d cs : list card)
    (k : unit -> M B) (Q : B -> globals -> Prop) :
  hoare (at_freq n f (d ++ cs)) (k tt) Q ->
  hoare (at_freq n f d) (bind (write cs) k) Q.
Proof.
  intros H. eapply hoare_bind; [apply hoare_freq_write |].
  intros []. exact H.
Qed.

Lemma hoare_freq_Wire (n : Z) (f : R) (d : list card)
    (x1 y1 z1 x2 y2 z2 radius : R) (s : Z) :
  f <> 0 \/ s <> 0%Z ->
  hoare (at_freq n f d) (Wire.__init__ x1 y1 z1 x2 y2 z2 radius s)
        (fun w g' => at_freq (n + 1) f d g' /\
                     w = wire_at n f x1 y1 z1 x2 y2 z2 radius s).
Proof.
  intros H g (Hn & Hf & Hd). eexists. eexists.
  split; [apply Wire_init_value; rewrite Hf; exact H |].
  unfold wire_at. rewrite Hn, Hf. repeat split. exact Hd.
Qed.

Lemma hoare_freq_bind_Wire {B : Type} (n : Z) (f : R) (d : list card)
    (x1 y1 z1 x2 y2 z2 radius : R) (s : Z) (k : Wire.t -> M B)
    (Q : B -> globals -> Prop) :
  f <> 0 \/ s <> 0%Z ->
  hoare (at_freq (n + 1) f d) (k (wire_at n f x1 y1 z1 x2 y2 z2 radius s)) Q ->
  hoare (at_freq n f d) (bind (Wire.__init__ x1 y1 z1 x2 y2 z2 radius s) k) Q.
Proof.
  intros H Hk. eapply hoare_bind; [apply hoare_freq_Wire, H |].
  intros w. apply hoare_pure. intros ->. exact Hk.
Qed.

Lemma hoare_mapM_values {A B : Type} (body : A -> M B) (v : A -> Z -> B)
    (k : Z) (f : R) (d : list card) (l : list A) :
  (forall x n, In x l ->
     hoare (at_freq n f d) (body x)
           (fun b g' => at_freq (n + k) f d g' /\ b = v x n)) ->
  forall n,
    hoare (at_freq n f d) (mapM body l)
          (fun bs g' => at_freq (n + k * Z.of_nat (List.length l)) f d g' /\
                        bs = loop_values v k l n).
Proof.
  induction l as [| x l IH]; intros Hb n.
  - apply hoare_ret. intros g Hg. cbn [List.length Z.of_nat loop_values].
    rewrite Z.mul_0_r, Z.add_0_r. split; [exact Hg | reflexivity].
  - cbn [mapM].
    eapply hoare_bind_pure; [apply Hb; left; reflexivity |].
    intros b ->.
    eapply hoare_bind_pure;
      [apply IH; intros y m Hy; apply Hb; right; exact Hy |].
    intros bs ->.
    apply hoare_ret. intros g Hg. cbn [loop_values].
    split; [| reflexivity].
    replace (n + k * Z.of_nat (List.length (x :: l)))%Z
      with (n + k + k * Z.of_nat (List.length l))%Z
      by (cbn [List.length]; lia).
    exact Hg.
Qed.

Lemma loop_values_length {A B : Type} (v : A -> Z -> B) (k : Z) (l : list A)
    (n : Z) :
  List.length (loop_values v k l n) = List.length l.
Proof.
  revert n. induction l as [| x l IH]; intros n; [reflexivity |].
  cbn [loop_values List.length]. rewrite IH. reflexivity.
Qed.

Lemma loop_values_nth {A B : Type} (v : A -> Z -> B) (k : Z) (l : list A)
    (n : Z) (i : nat) (b : B) :
  nth_error (loop_values v k l n) i = Some b ->
  exists x, nth_error l i = Some x /\ b = v x (n + k * Z.of_nat i)%Z.
Proof.
  revert n i. induction l as [| x l IH]; intros n i H.
  - destruct i; discriminate.
  - destruct i as [| i].
    + injection H as <-. exists x. split; [reflexivity |].
      f_equal. cbn. lia.
    + cbn [loop_values nth_error] in H.
      destruct (IH _ _ H) as (y & Hy & ->).
      exists y. split; [exact Hy |]. f_equal. lia.
Qed.

Lemma py_range_nth (stop : Z) (i : nat) (x : Z) :
  nth_error (py_range 0 stop) i = Some x -> x = Z.of_nat i /\ (x < stop)%Z.
Proof.
  unfold py_range. intros H.
  destruct (nth_error (seq 0 (Z.to_nat (stop - 0))) i) as [j |] eqn:E.
  - rewrite (map_nth_error _ _ _ E) in H. injection H as <-.
    pose proof (nth_error_In _ _ E) as Hin. apply in_seq in Hin.
    assert (Hi : (i < Z.to_nat (stop - 0))%nat).
    { rewrite <- (length_seq (Z.to_nat (stop - 0)) 0).
      apply nth_error_Some. congruence. }
    assert (Hj : j = i).
    { apply nth_error_nth with (d := 0%nat) in E.
      rewrite seq_nth in E by exact Hi. lia. }
    subst j. lia.
  - apply nth_error_None in E. rewrite <- (length_map (fun i => (0 + Z.of_nat i)%Z)) in E.
    apply nth_error_None in E. congruence.
Qed.

(** ** Reflector fences *)

(** X8.  A fence cannot be built with a gauge outside [0 .. 36]
    ([ValueError], whatever the number of wires) nor, with a valid gauge,
    with zero wires ([NotImplementedError]); in both cases no wire is
    constructed and the state is untouched.  A negative number of wires is
    accepted and gives a fence without wires. *)
Theorem reflector_without_wires
    (length_m spacing_m start_height_m : R) (num_wires awg : Z)
    (angle global_x global_y global_z : R) (g : globals) :
  let make := Reflector.__init__ length_m spacing_m start_height_m num_wires
                                 awg angle global_x global_y global_z in
  ((awg < 0 \/ 36 < awg)%Z -> make g = (Raise ValueError, g)) /\
  ((0 <= awg <= 36)%Z -> num_wires = 0%Z ->
   make g = (Raise NotImplementedError, g)) /\
  ((0 <= awg <= 36)%Z -> (num_wires < 0)%Z ->
   make g = (Ok (Reflector.mk []), g)).
Proof.
  intros make. subst make. unfold Reflector.__init__, bind, lift.
  split; [| split].
  - intros H. rewrite (get_mm_radius_out_of_range H). reflexivity.
  - intros H ->. rewrite (get_mm_radius_in_range H). reflexivity.
  - intros H Hneg. rewrite (get_mm_radius_in_range H).
    destruct (Z.eqb_spec num_wires 0) as [E | _]; [lia |].
    unfold py_range. replace (Z.to_nat (num_wires - 0)) with 0%nat by lia.
    reflexivity.
Qed.

Lemma reflector_without_wires_witness :
  Reflector.__init__ 259.08 0.707 15 21 40 45 0 0 0 initial_globals
    = (Raise ValueError, initial_globals) /\
  Reflector.__init__ 259.08 0.707 15 0 13 45 0 0 0 initial_globals
    = (Raise NotImplementedError, initial_globals) /\
  Reflector.__init__ 259.08 0.707 15 (-2) 13 45 0 0 0 initial_globals
    = (Ok (Reflector.mk []), initial_globals).
Proof.
  split; [| split].
  - apply (proj1 (reflector_without_wires 259.08 0.707 15 21 40 45 0 0 0
                    initial_globals)). lia.
  - apply (proj1 (proj2 (reflector_without_wires 259.08 0.707 15 0 13 45 0 0 0
                           initial_globals))); lia.
  - apply (proj2 (proj2 (reflector_without_wires 259.08 0.707 15 (-2) 13 45
                           0 0 0 initial_globals))); lia.
Defined.

Lemma wire_length_along_x (x1 x2 y z : R) :
  Wire.wire_length x1 y z x2 y z = Rabs (x2 - x1).
Proof.
  unfold Wire.wire_length.
  replace ((z - z) * (z - z) + (y - y) * (y - y) + (x2 - x1) * (x2 - x1))
    with (Rsqr (x2 - x1)) by (unfold Rsqr; ring).
  apply sqrt_Rsqr_abs.
Qed.

Lemma hoare_freq_Reflector (n : Z) (f : R) (d : list card)
    (length_m spacing_m start_height_m : R) (num_wires awg : Z)
    (angle global_x global_y global_z : R) :
  (0 <= awg <= 36)%Z -> (0 < num_wires)%Z -> f <> 0 ->
  hoare (at_freq n f d)
        (Reflector.__init__ length_m spacing_m start_height_m num_wires awg
                            angle global_x global_y global_z)
        (fun r g' =>
           at_freq (n + num_wires) f d g' /\
           r = Reflector.mk
                 (loop_values
                    (fence_wire f length_m spacing_m start_height_m
                       (0.127 * Rpower 92 (IZR (36 - awg) / IZR 39) / 1000)
                       angle global_x global_y global_z)
                    1 (py_range 0 num_wires) n)).
Proof.
  intros Hawg Hnum Hf. unfold Reflector.__init__.
  eapply hoare_bind_lift; [apply get_mm_radius_in_range, Hawg |].
  hoare_zeta.
  destruct (Z.eqb_spec num_wires 0) as [E | _]; [lia |].
  eapply hoare_bind_pure.
  - apply (hoare_mapM_values _
             (fence_wire f length_m spacing_m start_height_m
                (0.127 * Rpower 92 (IZR (36 - awg) / IZR 39) / 1000)
                angle global_x global_y global_z) 1).
    intros x m _. apply hoare_freq_Wire. left. exact Hf.
  - intros ws ->. apply hoare_ret. intros g Hg.
    rewrite py_range_length in Hg.
    replace (n + 1 * Z.of_nat (Z.to_nat num_wires))%Z
      with (n + num_wires)%Z in Hg by lia.
    split; [exact Hg | reflexivity].
Qed.

(** X9.  With a valid gauge, a positive number of wires and a nonzero
    minimum frequency, a fence consists of exactly [num_wires] wires with
    consecutive identifiers.  Wire [i] runs parallel to the x axis over
    [length_m], [i] steps of [spacing_m] down the slope from the first
    one, and all wires have the segment count of a wire of length
    [|length_m|]. *)
Theorem reflector_fence_wires
    (length_m spacing_m start_height_m : R) (num_wires awg : Z)
    (angle global_x global_y global_z : R) (g : globals) :
  (0 <= awg <= 36)%Z -> (0 < num_wires)%Z -> min_frequency g <> 0 ->
  exists fence g',
    Reflector.__init__ length_m spacing_m start_height_m num_wires awg
                       angle global_x global_y global_z g = (Ok fence, g') /\
    wire_number g' = (wire_number g + num_wires)%Z /\
    List.length (Reflector.reflector_wires fence) = Z.to_nat num_wires /\
    forall i w,
      nth_error (Reflector.reflector_wires fence) i = Some w ->
      Wire.get_wire_number w = (wire_number g + Z.of_nat i + 1)%Z /\
      Wire.x2 w - Wire.x1 w = length_m /\
      Wire.y1 w = Wire.y2 w /\ Wire.z1 w = Wire.z2 w /\
      Wire.y1 w = global_y - INR i * cos (angle * PI / 180) * spacing_m /\
      Wire.z1 w = start_height_m - INR i * sin (angle * PI / 180) * spacing_m
                  + global_z /\
      Wire.segments w = auto_segments (min_frequency g) (Rabs length_m).
Proof.
  intros Hawg Hnum Hf.
  destruct (@hoare_freq_Reflector (wire_number g) (min_frequency g) (outfile g)
              length_m spacing_m start_height_m num_wires awg angle
              global_x global_y global_z Hawg Hnum Hf g)
    as (fence & g' & Hrun & (Hn & _ & _) & ->).
  { repeat split. }
  exists (Reflector.mk
            (loop_values
               (fence_wire (min_frequency g) length_m spacing_m start_height_m
                  (0.127 * Rpower 92 (IZR (36 - awg) / IZR 39) / 1000)
                  angle global_x global_y global_z)
               1 (py_range 0 num_wires) (wire_number g))), g'.
  split; [exact Hrun |]. split; [exact Hn |].
  cbn [Reflector.reflector_wires].
  split; [rewrite loop_values_length; apply py_range_length |].
  intros i w Hw.
  destruct (loop_values_nth _ _ _ _ _ Hw) as (x & Hx & ->).
  apply py_range_nth in Hx. destruct Hx as [-> _].
  unfold fence_wire, wire_at, Wire.get_wire_number.
  cbn [Wire.wire_number Wire.segments Wire.x1 Wire.x2 Wire.y1 Wire.y2
       Wire.z1 Wire.z2].
  rewrite <- INR_IZR_INZ.
  split; [lia |]. split; [lra |]. split; [reflexivity |].
  split; [reflexivity |]. split; [lra |]. split; [reflexivity |].
  unfold chosen_segments. cbn [Z.eqb]. rewrite wire_length_along_x.
  f_equal. f_equal. lra.
Qed.

Lemma reflector_fence_wires_witness :
  exists fence g',
    Reflector.__init__ 259.08 0.707 15 21 13 45 0 0 0 initial_globals
    = (Ok fence, g') /\
    wire_number g' = 21%Z /\
    List.length (Reflector.reflector_wires fence) = 21%nat.
Proof.
  destruct (@reflector_fence_wires 259.08 0.707 15 21 13 45 0 0 0
              initial_globals ltac:(lia) ltac:(lia) ltac:(simpl; lra))
    as (fence & g' & Hrun & Hn & Hlen & _).
  exists fence, g'. split; [exact Hrun |]. split; [exact Hn | exact Hlen].
Defined.

(** ** The folded dipole *)

Lemma mid_segment_at (n : Z) (f : R) (x1 y1 z1 x2 y2 z2 radius a b c : R) :
  Wire.get_mid_segment
    (Wire.translate (wire_at n f x1 y1 z1 x2 y2 z2 radius 0) a b c)
  = Ok (mid_of
          (Wire.segments
             (Wire.translate (wire_at n f x1 y1 z1 x2 y2 z2 radius 0) a b c))).
Proof.
  apply get_mid_segment_odd. cbn [Wire.translate wire_at Wire.segments].
  apply auto_segments_odd.
Qed.

Ltac hoare_freq_wire H :=
  hoare_zeta; apply hoare_freq_bind_Wire; [exact H |].

Lemma hoare_freq_TTFD (n : Z) (f : R) (d : list card) (wire_gauge : Z)
    (height termination mid_width top_width wire_spacing
     global_x global_y global_z current_real current_imag : R) :
  (0 <= wire_gauge <= 36)%Z -> f <> 0 ->
  hoare (at_freq n f d)
        (TTFD.__init__ wire_gauge height termination mid_width top_width
                       wire_spacing global_x global_y global_z
                       current_real current_imag)
        (fun a g' =>
           at_freq (n + 7) f d g' /\
           a = TTFD_at n f wire_gauge height termination mid_width top_width
                       wire_spacing global_x global_y global_z
                       current_real current_imag).
Proof.
  intros Hawg Hf. unfold TTFD.__init__.
  assert (H : f <> 0 \/ 0%Z <> 0%Z) by (left; exact Hf).
  eapply hoare_bind_lift; [apply get_mm_radius_in_range, Hawg |].
  do 7 hoare_freq_wire H.
  hoare_zeta.
  eapply hoare_bind_lift; [apply mid_segment_at |].
  hoare_zeta. apply hoare_freq_bind_print.
  eapply hoare_bind_lift; [apply mid_segment_at |].
  hoare_zeta. apply hoare_freq_bind_print.
  eapply hoare_bind_lift; [apply mid_segment_at |].
  apply hoare_ret. intros g Hg. split.
  - replace (n + 7)%Z with (n + 1 + 1 + 1 + 1 + 1 + 1 + 1)%Z by lia. exact Hg.
  - unfold TTFD_at, radius_m. cbv zeta.
    replace (n + 1 + 1)%Z with (n + 2)%Z by lia.
    replace (n + 2 + 1)%Z with (n + 3)%Z by lia.
    replace (n + 3 + 1)%Z with (n + 4)%Z by lia.
    replace (n + 4 + 1)%Z with (n + 5)%Z by lia.
    replace (n + 5 + 1)%Z with (n + 6)%Z by lia.
    reflexivity.
Qed.

Lemma TTFD_init_at (g : globals) (wire_gauge : Z)
    (height termination mid_width top_width wire_spacing
     global_x global_y global_z current_real current_imag : R) :
  (0 <= wire_gauge <= 36)%Z -> min_frequency g <> 0 ->
  exists g',
    TTFD.__init__ wire_gauge height termination mid_width top_width
                  wire_spacing global_x global_y global_z
                  current_real current_imag g
    = (Ok (TTFD_at (wire_number g) (min_frequency g) wire_gauge height
                   termination mid_width top_width wire_spacing
                   global_x global_y global_z current_real current_imag), g') /\
    at_freq (wire_number g + 7) (min_frequency g) (outfile g) g'.
Proof.
  intros Hawg Hf.
  destruct (@hoare_freq_TTFD (wire_number g) (min_frequency g) (outfile g)
              wire_gauge height termination mid_width top_width wire_spacing
              global_x global_y global_z current_real current_imag Hawg Hf g)
    as (a & g' & Hrun & Hg' & ->).
  { repeat split. }
  exists g'. split; [exact Hrun | exact Hg'].
Qed.

(** X10.  A folded dipole with a gauge outside [0 .. 36] is refused with
    [ValueError] before anything else happens: no wire is constructed,
    nothing is printed, the state is untouched. *)
Theorem TTFD_bad_gauge (g : globals) (wire_gauge : Z)
    (height termination mid_width top_width wire_spacing
     global_x global_y global_z current_real current_imag : R) :
  (wire_gauge < 0 \/ 36 < wire_gauge)%Z ->
  TTFD.__init__ wire_gauge height termination mid_width top_width
                wire_spacing global_x global_y global_z
                current_real current_imag g
  = (Raise ValueError, g).
Proof.
  intros H. unfold TTFD.__init__, bind, lift.
  rewrite (get_mm_radius_out_of_range H). reflexivity.
Qed.

Lemma TTFD_bad_gauge_witness :
  TTFD.__init__ 37 10 100 12 8 1.5 0 0 0 1 0 initial_globals
  = (Raise ValueError, initial_globals).
Proof.
  apply TTFD_bad_gauge. lia.
Defined.

(** X11.  With a valid gauge and a nonzero minimum frequency a folded
    dipole is built for any widths, height and spacing.  It takes seven
    consecutive identifiers, in the order top left, top, top right, middle,
    bottom left, bottom, bottom right, and its wires join end to end: the
    four slanted wires start at the two ends of the middle wire and finish
    at the ends of the top and of the bottom wire. *)
Theorem TTFD_wires_are_joined (g : globals) (wire_gauge : Z)
    (height termination mid_width top_width wire_spacing
     global_x global_y global_z current_real current_imag : R) :
  (0 <= wire_gauge <= 36)%Z -> min_frequency g <> 0 ->
  exists a g',
    TTFD.__init__ wire_gauge height termination mid_width top_width
                  wire_spacing global_x global_y global_z
                  current_real current_imag g = (Ok a, g') /\
    wire_number g' = (wire_number g + 7)%Z /\
    map Wire.get_wire_number (TTFD.wires a)
    = ids_after (wire_number g) 7 /\
    end1 (TTFD.topleftwire a) = end1 (TTFD.middlewire a) /\
    end1 (TTFD.bottomleftwire a) = end1 (TTFD.middlewire a) /\
    end1 (TTFD.toprightwire a) = end2 (TTFD.middlewire a) /\
    end1 (TTFD.bottomrightwire a) = end2 (TTFD.middlewire a) /\
    end2 (TTFD.topleftwire a) = end1 (TTFD.topwire a) /\
    end2 (TTFD.toprightwire a) = end2 (TTFD.topwire a) /\
    end2 (TTFD.bottomleftwire a) = end1 (TTFD.bottomwire a) /\
    end2 (TTFD.bottomrightwire a) = end2 (TTFD.bottomwire a).
Proof.
  intros Hawg Hf.
  destruct (@TTFD_init_at g wire_gauge height termination mid_width top_width
              wire_spacing global_x global_y global_z current_real
              current_imag Hawg Hf) as (g' & Hrun & (Hn & _ & _)).
  eexists. exists g'. split; [exact Hrun |]. split; [exact Hn |].
  split.
  - unfold ids_after. cbn. repeat (f_equal; try lia).
  - repeat split.
Qed.

Lemma TTFD_wires_are_joined_witness :
  exists a g',
    TTFD.__init__ 13 10 100 12 8 1.5 (-114.3) 0 0 1 0 initial_globals
    = (Ok a, g') /\
    wire_number g' = 7%Z /\
    end1 (TTFD.topleftwire a) = end1 (TTFD.middlewire a) /\
    end2 (TTFD.bottomrightwire a) = end2 (TTFD.bottomwire a).
Proof.
  destruct (@TTFD_wires_are_joined initial_globals 13 10 100 12 8 1.5 (-114.3)
              0 0 1 0 ltac:(lia) ltac:(simpl; lra))
    as (a & g' & Hrun & Hn & _ & J1 & _ & _ & _ & _ & _ & _ & J8).
  exists a, g'. repeat split; assumption.
Defined.

(** X12.  The two loads of a folded dipole sit on the middle segments of
    its top and bottom wires and are always 100 + 0j ohms, whatever
    [termination] is given; the excitation is a current source on the
    middle segment of the middle wire. *)
Theorem TTFD_loads_and_excitation (g : globals) (wire_gauge : Z)
    (height termination mid_width top_width wire_spacing
     global_x global_y global_z current_real current_imag : R) :
  (0 <= wire_gauge <= 36)%Z -> min_frequency g <> 0 ->
  exists a g' top bottom middle,
    TTFD.__init__ wire_gauge height termination mid_width top_width
                  wire_spacing global_x global_y global_z
                  current_real current_imag g = (Ok a, g') /\
    Wire.get_mid_segment (TTFD.topwire a) = Ok top /\
    Wire.get_mid_segment (TTFD.bottomwire a) = Ok bottom /\
    Wire.get_mid_segment (TTFD.middlewire a) = Ok middle /\
    TTFD.repr_loads a
    = [LD4 (Wire.get_wire_number (TTFD.topwire a)) top top 100 0;
       LD4 (Wire.get_wire_number (TTFD.bottomwire a)) bottom bottom 100 0] /\
    TTFD.repr_excitations a
    = [Source.__init__ (Wire.get_wire_number (TTFD.middlewire a)) middle
                       current_real current_imag true].
Proof.
  intros Hawg Hf.
  destruct (@TTFD_init_at g wire_gauge height termination mid_width top_width
              wire_spacing global_x global_y global_z current_real
              current_imag Hawg Hf) as (g' & Hrun & _).
  eexists. exists g'. eexists. eexists. eexists.
  split; [exact Hrun |].
  unfold TTFD_at. cbv zeta.
  cbn [TTFD.topwire TTFD.bottomwire TTFD.middlewire TTFD.repr_loads
       TTFD.repr_excitations TTFD.topload TTFD.bottomload TTFD.excitation].
  split; [apply mid_segment_at |]. split; [apply mid_segment_at |].
  split; [apply mid_segment_at |]. split; reflexivity.
Qed.

Lemma TTFD_loads_and_excitation_witness :
  exists a g' top bottom,
    TTFD.__init__ 13 10 50 12 8 1.5 0 0 0 1 0 initial_globals = (Ok a, g') /\
    TTFD.repr_loads a
    = [LD4 (Wire.get_wire_number (TTFD.topwire a)) top top 100 0;
       LD4 (Wire.get_wire_number (TTFD.bottomwire a)) bottom bottom 100 0].
Proof.
  destruct (@TTFD_loads_and_excitation initial_globals 13 10 50 12 8 1.5 0 0 0
              1 0 ltac:(lia) ltac:(simpl; lra))
    as (a & g' & top & bottom & middle & Hrun & _ & _ & _ & Hloads & _).
  exists a, g', top, bottom. split; [exact Hrun | exact Hloads].
Defined.

Lemma slanted_length (a b s h h' : R) :
  (h' - h) * (h' - h) = s * s ->
  forall a' b', (b' - a') * (b' - a') = (b - a) * (b - a) ->
  Wire.wire_length a' 0 h b' 0 h' = Wire.wire_length a 0 h b 0 (s + h).
Proof.
  intros Hz a' b' Hx. unfold Wire.wire_length. f_equal.
  replace (s + h - h) with s by ring. nra.
Qed.

(** X13.  A folded dipole is symmetric: its four slanted wires have the
    same length and hence the same segment count, and the top and bottom
    wires have the segment count of a wire of length [|top_width|]. *)
Theorem TTFD_is_symmetric (g : globals) (wire_gauge : Z)
    (height termination mid_width top_width wire_spacing
     global_x global_y global_z current_real current_imag : R) :
  (0 <= wire_gauge <= 36)%Z -> min_frequency g <> 0 ->
  exists a g',
    TTFD.__init__ wire_gauge height termination mid_width top_width
                  wire_spacing global_x global_y global_z
                  current_real current_imag g = (Ok a, g') /\
    Wire.segments (TTFD.toprightwire a) = Wire.segments (TTFD.topleftwire a) /\
    Wire.segments (TTFD.bottomleftwire a) = Wire.segments (TTFD.topleftwire a) /\
    Wire.segments (TTFD.bottomrightwire a) = Wire.segments (TTFD.topleftwire a) /\
    Wire.segments (TTFD.topwire a)
    = auto_segments (min_frequency g) (Rabs top_width) /\
    Wire.segments (TTFD.bottomwire a)
    = auto_segments (min_frequency g) (Rabs top_width) /\
    Wire.segments (TTFD.middlewire a)
    = auto_segments (min_frequency g) (Rabs mid_width).
Proof.
  intros Hawg Hf.
  destruct (@TTFD_init_at g wire_gauge height termination mid_width top_width
              wire_spacing global_x global_y global_z current_real
              current_imag Hawg Hf) as (g' & Hrun & _).
  eexists. exists g'. split; [exact Hrun |].
  unfold TTFD_at, wire_at, chosen_segments. cbv zeta.
  cbn [TTFD.topleftwire TTFD.topwire TTFD.toprightwire TTFD.middlewire
       TTFD.bottomleftwire TTFD.bottomwire TTFD.bottomrightwire
       Wire.translate Wire.segments Z.eqb].
  rewrite !wire_length_along_x.
  repeat split.
  - f_equal. apply slanted_length; nra.
  - f_equal.
    apply (@slanted_length (- mid_width / 2) (- top_width / 2) wire_spacing
             height (- wire_spacing + height)); nra.
  - f_equal.
    apply (@slanted_length (- mid_width / 2) (- top_width / 2) wire_spacing
             height (- wire_spacing + height)); nra.
  - f_equal. f_equal. lra.
  - f_equal. f_equal. lra.
  - f_equal. f_equal. lra.
Qed.

Lemma TTFD_is_symmetric_witness :
  exists a g',
    TTFD.__init__ 13 10 100 12 8 1.5 0 0 0 1 0 initial_globals = (Ok a, g') /\
    Wire.segments (TTFD.bottomrightwire a) = Wire.segments (TTFD.topleftwire a) /\
    Wire.segments (TTFD.bottomwire a) = Wire.segments (TTFD.topwire a).
Proof.
  destruct (@TTFD_is_symmetric initial_globals 13 10 100 12 8 1.5 0 0 0 1 0
              ltac:(lia) ltac:(simpl; lra))
    as (a & g' & Hrun & _ & _ & H3 & H4 & H5 & _).
  exists a, g'. split; [exact Hrun |]. split; [exact H3 |].
  rewrite H4, H5. reflexivity.
Defined.

(** ** The log-periodic antenna *)

Lemma mid_segment_explicit (n : Z) (f : R) (x1 y1 z1 x2 y2 z2 radius : R) (s : Z) :
  Z.odd s = true -> (0 < s)%Z ->
  Wire.get_mid_segment (wire_at n f x1 y1 z1 x2 y2 z2 radius s)
  = Ok (1 + s / 2)%Z.
Proof.
  intros Hodd Hpos.
  assert (Hs : Wire.segments (wire_at n f x1 y1 z1 x2 y2 z2 radius s) = s).
  { unfold wire_at, chosen_segments. cbn [Wire.segments].
    destruct (Z.eqb_spec s 0); [lia | reflexivity]. }
  rewrite get_mid_segment_odd by (rewrite Hs; exact Hodd).
  rewrite Hs, py_int_nonneg, Zfloor_half; [reflexivity |].
  apply Rmult_le_pos; [apply IZR_le; lia | lra].
Qed.

Ltac hoare_freq_explicit_wire :=
  hoare_zeta; apply hoare_freq_bind_Wire; [right; discriminate |].

Ltac hoare_explicit_steps :=
  repeat (hoare_zeta;
          lazymatch goal with
          | |- hoare _ (bind (ret _) _) _ => apply hoare_bind_ret
          | |- hoare _ (bind (lift (Wire.get_mid_segment _)) _) _ =>
              eapply hoare_bind_lift;
              [ apply mid_segment_explicit; reflexivity | ]
          | |- hoare _ (bind (lift _) _) _ =>
              eapply hoare_bind_lift; [ reflexivity | ]
          | |- hoare _ (bind (bind _ _) _) _ => apply hoare_assoc
          end).

Lemma hoare_freq_LogPeriodic (n : Z) (f : R) (d : list card)
    (height global_x global_y global_z current_real current_imag : R) :
  hoare (at_freq n f d)
        (LogPeriodic.__init__ height global_x global_y global_z
                              current_real current_imag)
        (fun a g' =>
           at_freq (n + 10) f d g' /\
           a = LogPeriodic_at n f height current_real current_imag).
Proof.
  unfold LogPeriodic.__init__.
  hoare_freq_explicit_wire. hoare_explicit_steps.
  do 9 hoare_freq_explicit_wire.
  hoare_zeta.
  match goal with
  | |- context [LogPeriodic.enumerate ?l] =>
      change (LogPeriodic.enumerate l)
        with (combine [0; 1; 2; 3; 4; 5; 6; 7; 8; 9]%Z l)
  end.
  cbn [app combine mapM Z.eqb Pos.eqb].
  hoare_explicit_steps.
  apply hoare_ret. intros g Hg. split.
  - replace (n + 10)%Z with (n + 1 + 1 + 1 + 1 + 1 + 1 + 1 + 1 + 1 + 1)%Z by lia.
    exact Hg.
  - unfold LogPeriodic_at, LogPeriodic_drivens, LogPeriodic_line.
    cbn [map app List.concat Wire.get_wire_number wire_at Wire.wire_number].
    replace (n + 1 + 1)%Z with (n + 2)%Z by lia.
    replace (n + 2 + 1)%Z with (n + 3)%Z by lia.
    replace (n + 3 + 1)%Z with (n + 4)%Z by lia.
    replace (n + 4 + 1)%Z with (n + 5)%Z by lia.
    replace (n + 5 + 1)%Z with (n + 6)%Z by lia.
    replace (n + 6 + 1)%Z with (n + 7)%Z by lia.
    replace (n + 7 + 1)%Z with (n + 8)%Z by lia.
    replace (n + 8 + 1)%Z with (n + 9)%Z by lia.
    replace (n + 9 + 1)%Z with (n + 10)%Z by lia.
    reflexivity.
Qed.

(** X14.  The log-periodic constructor succeeds in every state.  It takes
    ten consecutive identifiers for elements of 13, 15, ..., 31 segments,
    which all lie across the x axis at the requested height whatever global
    position is asked for; it excites the middle segment of the first
    element and joins each element to the next, middle segment to middle
    segment, by a crossed line of -50 ohms; it has no loads. *)
Theorem LogPeriodic_structure (g : globals)
    (height global_x global_y global_z current_real current_imag : R) :
  exists a g',
    LogPeriodic.__init__ height global_x global_y global_z
                         current_real current_imag g = (Ok a, g') /\
    wire_number g' = (wire_number g + 10)%Z /\
    map Wire.get_wire_number (LogPeriodic.drivens a)
    = ids_after (wire_number g) 10 /\
    map Wire.segments (LogPeriodic.drivens a)
    = [13; 15; 17; 19; 21; 23; 25; 27; 29; 31]%Z /\
    Forall (fun w => Wire.x1 w = - Wire.x2 w /\ Wire.y1 w = Wire.y2 w /\
                     Wire.z1 w = height /\ Wire.z2 w = height)
           (LogPeriodic.drivens a) /\
    LogPeriodic.repr_excitations a
    = [Source.__init__ (wire_number g + 1) 7 current_real current_imag true] /\
    LogPeriodic.repr_transmissionlines a
    = map (fun i => TL (wire_number g + i) (6 + i)
                       (wire_number g + i + 1) (7 + i) (-50) 0)
          [1; 2; 3; 4; 5; 6; 7; 8; 9]%Z /\
    LogPeriodic.repr_loads a = [].
Proof.
  destruct (@hoare_freq_LogPeriodic (wire_number g) (min_frequency g)
              (outfile g) height global_x global_y global_z current_real
              current_imag g) as (a & g' & Hrun & (Hn & _ & _) & ->).
  { repeat split. }
  eexists. exists g'. split; [exact Hrun |]. split; [exact Hn |].
  unfold LogPeriodic_at, LogPeriodic_drivens, LogPeriodic_line,
    LogPeriodic.repr_excitations, LogPeriodic.repr_transmissionlines,
    LogPeriodic.repr_loads, TransmissionLine.__init__,
    TransmissionLine.default_impedance, TransmissionLine.default_length.
  cbn [LogPeriodic.drivens LogPeriodic.excitation LogPeriodic.transmissionlines
       map Wire.get_wire_number wire_at Wire.wire_number Wire.segments
       Wire.x1 Wire.x2 Wire.y1 Wire.y2 Wire.z1 Wire.z2 chosen_segments Z.eqb].
  split.
  { unfold ids_after. cbn [seq map Z.of_nat Pos.of_succ_nat Pos.succ].
    repeat (f_equal; try lia). }
  split; [reflexivity |].
  split.
  { repeat (apply Forall_cons;
            [unfold wire_at;
             cbn [Wire.x1 Wire.x2 Wire.y1 Wire.y2 Wire.z1 Wire.z2];
             repeat split; lra |]).
    apply Forall_nil. }
  split; [reflexivity |].
  split; [| reflexivity].
  repeat (f_equal; try lra).
Qed.

(** ** Arrays *)

Lemma py_index_nth {A : Type} (l : list A) (i : Z) (default : A) :
  (0 <= i < Z.of_nat (List.length l))%Z ->
  py_index l i = Ok (nth (Z.to_nat i) l default).
Proof.
  intros H. unfold py_index.
  destruct (Z.leb_spec 0 i); [| lia].
  destruct (Z.ltb_spec i 0); [lia |].
  destruct (nth_error l (Z.to_nat i)) as [a |] eqn:E.
  - rewrite (nth_error_nth _ _ default E). reflexivity.
  - apply nth_error_None in E. lia.
Qed.

Ltac hoare_freq_antenna Hf :=
  lazymatch goal with
  | |- hoare _ (bind (LogPeriodic.__init__ _ _ _ _ _ _) _) _ =>
      eapply hoare_bind; [apply hoare_freq_LogPeriodic |]
  | |- hoare _ (bind (TTFD.__init__ _ _ _ _ _ _ _ _ _ _ _) _) _ =>
      eapply hoare_bind;
      [apply hoare_freq_TTFD;
       [lia | destruct Hf as [Hf | Hf]; [exact Hf | discriminate Hf]] |]
  end;
  let a := fresh "a" in
  intros a; apply hoare_pure; intros ->; apply hoare_ret;
  intros ? ?; split; [assumption | reflexivity].

Lemma hoare_freq_create_main_array (n : Z) (f : R) (d : list card)
    (num_antennas : Z) (spacing : R) (magnitudes phases : list R)
    (log_periodics : bool) :
  Z.of_nat (List.length magnitudes) = num_antennas ->
  Z.of_nat (List.length phases) = num_antennas ->
  f <> 0 \/ log_periodics = true ->
  hoare (at_freq n f d)
        (create_main_array num_antennas spacing magnitudes phases log_periodics)
        (fun objs g' =>
           at_freq (n + Z.of_nat (wires_per_antenna log_periodics)
                        * num_antennas) f d g' /\
           objs = loop_values
                    (array_antenna_at f num_antennas spacing (fun x => x) 0 0
                                      magnitudes phases log_periodics)
                    (Z.of_nat (wires_per_antenna log_periodics))
                    (py_range 0 num_antennas) n).
Proof.
  intros Hm Hp Hf. unfold create_main_array.
  rewrite (Z_of_nat_length_eqb _ Hm), (Z_of_nat_length_eqb _ Hp).
  hoare_zeta. eapply hoare_weaken.
  - apply (hoare_mapM_values _
             (array_antenna_at f num_antennas spacing (fun x => x) 0 0
                               magnitudes phases log_periodics)
             (Z.of_nat (wires_per_antenna log_periodics))).
    intros x m Hx. apply py_range_In in Hx.
    eapply hoare_bind_lift; [apply (py_index_nth phases 0); lia |].
    eapply hoare_bind_lift; [apply (py_index_nth magnitudes 0); lia |].
    hoare_zeta. apply hoare_freq_bind_print.
    unfold array_antenna_at.
    destruct log_periodics; hoare_freq_antenna Hf.
  - intros objs g [S ->]. rewrite py_range_length in S.
    split; [| reflexivity].
    replace (Z.of_nat (Z.to_nat num_antennas)) with num_antennas in S by lia.
    exact S.
Qed.

Lemma hoare_freq_create_int_array (n : Z) (f : R) (d : list card)
    (num_antennas : Z) (spacing x y z : R) (magnitudes phases : list R)
    (log_periodics : bool) :
  Z.of_nat (List.length magnitudes) = num_antennas ->
  Z.of_nat (List.length phases) = num_antennas ->
  f <> 0 \/ log_periodics = true ->
  hoare (at_freq n f d)
        (create_int_array num_antennas spacing x y z magnitudes phases
                          log_periodics)
        (fun objs g' =>
           at_freq (n + Z.of_nat (wires_per_antenna log_periodics)
                        * num_antennas) f d g' /\
           objs = loop_values
                    (array_antenna_at f num_antennas spacing
                                      (fun x_position => x_position + x) y z
                                      magnitudes phases log_periodics)
                    (Z.of_nat (wires_per_antenna log_periodics))
                    (py_range 0 num_antennas) n).
Proof.
  intros Hm Hp Hf. unfold create_int_array.
  rewrite (Z_of_nat_length_eqb _ Hm), (Z_of_nat_length_eqb _ Hp).
  hoare_zeta. eapply hoare_weaken.
  - apply (hoare_mapM_values _
             (array_antenna_at f num_antennas spacing
                               (fun x_position => x_position + x) y z
                               magnitudes phases log_periodics)
             (Z.of_nat (wires_per_antenna log_periodics))).
    intros i m Hi. apply py_range_In in Hi.
    eapply hoare_bind_lift; [apply (py_index_nth phases 0); lia |].
    eapply hoare_bind_lift; [apply (py_index_nth magnitudes 0); lia |].
    hoare_zeta. apply hoare_freq_bind_print.
    unfold array_antenna_at.
    destruct log_periodics; hoare_freq_antenna Hf.
  - intros objs g [S ->]. rewrite py_range_length in S.
    split; [| reflexivity].
    replace (Z.of_nat (Z.to_nat num_antennas)) with num_antennas in S by lia.
    exact S.
Qed.

Lemma at_freq_here (g : globals) :
  at_freq (wire_number g) (min_frequency g) (outfile g) g.
Proof. repeat split. Qed.

(** X15.  Given as many magnitudes and phases as antennas, and a nonzero
    minimum frequency, [create_main_array] returns one folded dipole per
    antenna, each on seven fresh identifiers.  The middle wire of antenna
    [i] is 12 m long and centred at [i * spacing - (n - 1) * spacing / 2],
    so that the array is centred on x = 0, and its excitation is the
    current [magnitude * (cos phase, sin phase)] of that antenna. *)
Theorem main_array_layout (g : globals) (num_antennas : Z) (spacing : R)
    (magnitudes phases : list R) :
  Z.of_nat (List.length magnitudes) = num_antennas ->
  Z.of_nat (List.length phases) = num_antennas ->
  min_frequency g <> 0 ->
  exists objs g',
    create_main_array num_antennas spacing magnitudes phases false g
    = (Ok objs, g') /\
    List.length objs = Z.to_nat num_antennas /\
    wire_number g' = (wire_number g + 7 * num_antennas)%Z /\
    (forall i a,
        nth_error objs i = Some a ->
        exists t m,
          a = AntTTFD t /\
          map Wire.get_wire_number (TTFD.wires t)
          = ids_after (wire_number g + 7 * Z.of_nat i) 7 /\
          Wire.x1 (TTFD.middlewire t)
          = INR i * spacing - IZR (num_antennas - 1) * spacing / 2 - 6 /\
          Wire.x2 (TTFD.middlewire t)
          = INR i * spacing - IZR (num_antennas - 1) * spacing / 2 + 6 /\
          Wire.get_mid_segment (TTFD.middlewire t) = Ok m /\
          TTFD.repr_excitations t
          = [Source.__init__
               (wire_number g + 7 * Z.of_nat i + 4) m
               (nth i magnitudes 0 * cos (nth i phases 0 * PI / 180))
               (nth i magnitudes 0 * sin (nth i phases 0 * PI / 180))
               true]) /\
    (forall i j ti tj,
        nth_error objs i = Some (AntTTFD ti) ->
        nth_error objs j = Some (AntTTFD tj) ->
        (Z.of_nat i + Z.of_nat j = num_antennas - 1)%Z ->
        Wire.x1 (TTFD.middlewire ti) = - Wire.x2 (TTFD.middlewire tj)).
Proof.
  intros Hm Hp Hf.
  destruct (@hoare_freq_create_main_array (wire_number g) (min_frequency g)
              (outfile g) num_antennas spacing magnitudes phases false
              Hm Hp (or_introl Hf) g (at_freq_here g))
    as (objs & g' & Hrun & (Hn & _ & _) & ->).
  eexists. exists g'. split; [exact Hrun |].
  split; [rewrite loop_values_length; apply py_range_length |].
  split; [rewrite Hn; cbn [wires_per_antenna]; lia |].
  assert (Hshape : forall i a,
             nth_error
               (loop_values
                  (array_antenna_at (min_frequency g) num_antennas spacing
                     (fun x => x) 0 0 magnitudes phases false)
                  (Z.of_nat (wires_per_antenna false))
                  (py_range 0 num_antennas) (wire_number g)) i = Some a ->
             a = AntTTFD
                   (TTFD_at (wire_number g + 7 * Z.of_nat i) (min_frequency g)
                      13 10 100 12 8 1.5
                      (INR i * spacing - IZR (num_antennas - 1) * spacing / 2)
                      0 0
                      (nth i magnitudes 0 * cos (nth i phases 0 * PI / 180))
                      (nth i magnitudes 0 * sin (nth i phases 0 * PI / 180)))).
  { intros i a Ha.
    destruct (loop_values_nth _ _ _ _ _ Ha) as (x & Hx & ->).
    apply py_range_nth in Hx. destruct Hx as [-> _].
    unfold array_antenna_at. cbv zeta.
    rewrite Nat2Z.id, <- INR_IZR_INZ. reflexivity. }
  split.
  - intros i a Ha. rewrite (Hshape i a Ha).
    eexists. eexists. split; [reflexivity |].
    unfold TTFD_at, TTFD.repr_excitations, TTFD.wires. cbv zeta.
    cbn [TTFD.wires TTFD.topleftwire TTFD.topwire TTFD.toprightwire
         TTFD.middlewire TTFD.bottomleftwire TTFD.bottomwire
         TTFD.bottomrightwire TTFD.repr_excitations TTFD.excitation map].
    split.
    { unfold ids_after.
      cbn [seq map Wire.get_wire_number Wire.translate wire_at
           Wire.wire_number].
      repeat (f_equal; try lia). }
    split; [cbn [Wire.translate wire_at Wire.x1]; lra |].
    split; [cbn [Wire.translate wire_at Wire.x2]; lra |].
    split; [apply mid_segment_at |].
    cbn [Wire.get_wire_number Wire.translate wire_at Wire.wire_number].
    repeat (f_equal; try lia).
  - intros i j ti tj Hi Hj Hsum.
    apply Hshape in Hi. apply Hshape in Hj.
    injection Hi as ->. injection Hj as ->.
    unfold TTFD_at. cbv zeta.
    cbn [TTFD.middlewire Wire.translate wire_at Wire.x1 Wire.x2].
    assert (E : INR i + INR j = IZR (num_antennas - 1)).
    { rewrite <- Hsum, plus_IZR, <- !INR_IZR_INZ. reflexivity. }
    nra.
Qed.

Lemma main_array_layout_witness :
  exists objs g',
    create_main_array 2 15.24 [1; 1] [0; 0] false initial_globals
    = (Ok objs, g') /\
    List.length objs = 2%nat /\
    wire_number g' = 14%Z.
Proof.
  destruct (@main_array_layout initial_globals 2 15.24 [1; 1] [0; 0]
              eq_refl eq_refl ltac:(simpl; lra))
    as (objs & g' & Hrun & Hlen & Hn & _).
  exists objs, g'. split; [exact Hrun |]. split; [exact Hlen | exact Hn].
Defined.

(** X16.  In an array of log-periodic antennas the spacing and the
    interferometer offsets have no effect on the geometry: every antenna of
    the array has its ten elements at the same place, across the x axis at
    a height of 15 m.  This holds in every state. *)
Theorem LogPeriodic_array_is_stacked (g : globals) (num_antennas : Z)
    (spacing x y z : R) (magnitudes phases : list R) :
  Z.of_nat (List.length magnitudes) = num_antennas ->
  Z.of_nat (List.length phases) = num_antennas ->
  exists objs g',
    create_int_array num_antennas spacing x y z magnitudes phases true g
    = (Ok objs, g') /\
    List.length objs = Z.to_nat num_antennas /\
    wire_number g' = (wire_number g + 10 * num_antennas)%Z /\
    forall i a,
      nth_error objs i = Some a ->
      exists t,
        a = AntLogPeriodic t /\
        map Wire.x1 (LogPeriodic.drivens t)
        = [-6.04 / 2; -6.70 / 2; -7.57 / 2; -8.46 / 2; -9.49 / 2;
           -10.55 / 2; -11.87 / 2; -13.37 / 2; -15.38 / 2; -15.40 / 2] /\
        map Wire.x2 (LogPeriodic.drivens t)
        = [6.04 / 2; 6.70 / 2; 7.57 / 2; 8.46 / 2; 9.49 / 2;
           10.55 / 2; 11.87 / 2; 13.37 / 2; 15.38 / 2; 15.40 / 2] /\
        map Wire.y1 (LogPeriodic.drivens t)
        = [0; 0.725; 1.585; 2.59; 3.765; 5.165; 6.68; 8.385; 10.325; 11.63] /\
        map Wire.y2 (LogPeriodic.drivens t) = map Wire.y1 (LogPeriodic.drivens t) /\
        Forall (fun w => Wire.z1 w = 15 /\ Wire.z2 w = 15)
               (LogPeriodic.drivens t).
Proof.
  intros Hm Hp.
  destruct (@hoare_freq_create_int_array (wire_number g) (min_frequency g)
              (outfile g) num_antennas spacing x y z magnitudes phases true
              Hm Hp (or_intror eq_refl) g (at_freq_here g))
    as (objs & g' & Hrun & (Hn & _ & _) & ->).
  eexists. exists g'. split; [exact Hrun |].
  split; [rewrite loop_values_length; apply py_range_length |].
  split; [rewrite Hn; cbn [wires_per_antenna]; lia |].
  intros i a Ha.
  destruct (loop_values_nth _ _ _ _ _ Ha) as (k & _ & ->).
  unfold array_antenna_at. cbv zeta.
  eexists. split; [reflexivity |].
  unfold LogPeriodic_at, LogPeriodic_drivens, wire_at.
  cbn [LogPeriodic.drivens map Wire.x1 Wire.x2 Wire.y1 Wire.y2].
  repeat (split; [reflexivity |]).
  repeat (apply Forall_cons; [split; reflexivity |]). apply Forall_nil.
Qed.

Lemma LogPeriodic_array_is_stacked_witness :
  exists objs g',
    create_int_array 4 15.24 0 (-100) 0 [0; 0; 0; 0] [0; 0; 0; 0] true
                     initial_globals = (Ok objs, g') /\
    List.length objs = 4%nat /\
    wire_number g' = 40%Z.
Proof.
  destruct (@LogPeriodic_array_is_stacked initial_globals 4 15.24 0 (-100) 0
              [0; 0; 0; 0] [0; 0; 0; 0] eq_refl eq_refl)
    as (objs & g' & Hrun & Hlen & Hn & _).
  exists objs, g'. split; [exact Hrun |]. split; [exact Hlen | exact Hn].
Defined.

Lemma loop_values_Forall2 {A B : Type} (rel : B -> B -> Prop)
    (v v' : A -> Z -> B) (k : Z) (l : list A) :
  (forall x n, rel (v x n) (v' x n)) ->
  forall n, Forall2 rel (loop_values v k l n) (loop_values v' k l n).
Proof.
  intros H. induction l as [| x l IH]; intros n; constructor.
  - apply H.
  - apply IH.
Qed.

Lemma translate_twice (w : Wire.t) (p x y z : R) :
  Wire.translate w (p + x) y z
  = Wire.translate (Wire.translate w p 0 0) x y z.
Proof.
  destruct w as [n s x1 y1 z1 x2 y2 z2 r]. unfold Wire.translate.
  cbn [Wire.wire_number Wire.segments Wire.x1 Wire.y1 Wire.z1 Wire.x2 Wire.y2
       Wire.z2 Wire.radius].
  f_equal; ring.
Qed.

(** X17.  Built from the same state with the same magnitudes and phases,
    the interferometer array of folded dipoles is the main array moved by
    the interferometer offsets: antenna by antenna the wires are those of
    the main array translated by [(x, y, z)], with the same identifiers and
    segment counts, and the loads and excitations are the same cards. *)
Theorem int_array_is_translated_main_array (g : globals) (num_antennas : Z)
    (spacing x y z : R) (magnitudes phases : list R) :
  Z.of_nat (List.length magnitudes) = num_antennas ->
  Z.of_nat (List.length phases) = num_antennas ->
  min_frequency g <> 0 ->
  exists mains ints g1 g2,
    create_main_array num_antennas spacing magnitudes phases false g
    = (Ok mains, g1) /\
    create_int_array num_antennas spacing x y z magnitudes phases false g
    = (Ok ints, g2) /\
    wire_number g2 = wire_number g1 /\
    Forall2 (fun m i =>
               exists tm ti,
                 m = AntTTFD tm /\ i = AntTTFD ti /\
                 TTFD.wires ti
                 = map (fun w => Wire.translate w x y z) (TTFD.wires tm) /\
                 TTFD.repr_loads ti = TTFD.repr_loads tm /\
                 TTFD.repr_excitations ti = TTFD.repr_excitations tm)
            mains ints.
Proof.
  intros Hm Hp Hf.
  destruct (@hoare_freq_create_main_array (wire_number g) (min_frequency g)
              (outfile g) num_antennas spacing magnitudes phases false
              Hm Hp (or_introl Hf) g (at_freq_here g))
    as (mains & g1 & Hrun1 & (Hn1 & _ & _) & ->).
  destruct (@hoare_freq_create_int_array (wire_number g) (min_frequency g)
              (outfile g) num_antennas spacing x y z magnitudes phases false
              Hm Hp (or_introl Hf) g (at_freq_here g))
    as (ints & g2 & Hrun2 & (Hn2 & _ & _) & ->).
  eexists. eexists. exists g1, g2.
  split; [exact Hrun1 |]. split; [exact Hrun2 |].
  split; [rewrite Hn1, Hn2; reflexivity |].
  apply loop_values_Forall2. intros i n.
  unfold array_antenna_at. cbv zeta.
  eexists. eexists. split; [reflexivity |]. split; [reflexivity |].
  unfold TTFD_at, TTFD.wires, TTFD.repr_loads, TTFD.repr_excitations.
  cbv zeta.
  cbn [TTFD.topleftwire TTFD.topwire TTFD.toprightwire TTFD.middlewire
       TTFD.bottomleftwire TTFD.bottomwire TTFD.bottomrightwire
       TTFD.topload TTFD.bottomload TTFD.excitation map].
  split; [| split; reflexivity].
  rewrite !translate_twice. reflexivity.
Qed.

Lemma int_array_is_translated_main_array_witness :
  exists mains ints g1 g2,
    create_main_array 2 15.24 [1; 1] [0; 0] false initial_globals
    = (Ok mains, g1) /\
    create_int_array 2 15.24 0 (-100) 0 [1; 1] [0; 0] false initial_globals
    = (Ok ints, g2) /\
    wire_number g2 = wire_number g1 /\
    List.length ints = List.length mains.
Proof.
  destruct (@int_array_is_translated_main_array initial_globals 2 15.24
              0 (-100) 0 [1; 1] [0; 0] eq_refl eq_refl ltac:(simpl; lra))
    as (mains & ints & g1 & g2 & H1 & H2 & Hn & HF).
  exists mains, ints, g1, g2.
  split; [exact H1 |]. split; [exact H2 |]. split; [exact Hn |].
  symmetry. apply (Forall2_length HF).
Defined.

(** ** The deck of a run *)

Lemma hoare_freq_forM_write {A : Type} (body : A -> M unit)
    (h : A -> list card) (f : R) (l : list A) :
  (forall x n d, In x l ->
     hoare (at_freq n f d) (body x) (fun _ => at_freq n f (d ++ h x))) ->
  forall n d,
    hoare (at_freq n f d) (forM_ body l)
          (fun _ => at_freq n f (d ++ flat_map h l)).
Proof.
  induction l as [| x l IH]; intros Hb n d.
  - apply hoare_ret. intros g Hg. cbn. rewrite app_nil_r. exact Hg.
  - cbn [forM_ flat_map].
    eapply hoare_bind; [apply Hb; left; reflexivity |].
    intros []. rewrite app_assoc.
    apply IH. intros y m e Hy. apply Hb. right. exact Hy.
Qed.

Lemma hoare_freq_bind_forM_write {A B : Type} (h : A -> list card) (f : R)
    (l : list A) (n : Z) (d : list card) (k : unit -> M B)
    (Q : B -> globals -> Prop) :
  hoare (at_freq n f (d ++ flat_map h l)) (k tt) Q ->
  hoare (at_freq n f d) (bind (forM_ (fun x => write (h x)) l) k) Q.
Proof.
  intros H. eapply hoare_bind.
  - apply hoare_freq_forM_write with (h := h).
    intros x m e _. apply hoare_freq_write.
  - intros []. exact H.
Qed.

Lemma hoare_freq_bind_read_wire_number {B : Type} (n : Z) (f : R)
    (d : list card) (k : Z -> M B) (Q : B -> globals -> Prop) :
  hoare (at_freq n f d) (k n) Q ->
  hoare (at_freq n f d) (bind read_wire_number k) Q.
Proof.
  intros H g Hg. unfold bind, read_wire_number.
  rewrite (proj1 Hg). exact (H g Hg).
Qed.

Lemma hoare_freq_fence {B : Type} (n : Z) (f : R) (d : list card)
    (length_m x y z : R) (k : Reflector.t -> M B) (Q : B -> globals -> Prop) :
  f <> 0 ->
  (forall fence,
      Reflector.__repr__ fence = fence_cards f length_m x y z n ->
      hoare (at_freq (n + 21) f d) (k fence) Q) ->
  hoare (at_freq n f d)
        (bind (Reflector.__init__ length_m 0.707 15 21 13 45 x y z) k) Q.
Proof.
  intros Hf Hk. eapply hoare_bind_pure.
  - apply (@hoare_freq_Reflector n f d length_m 0.707 15 21 13 45 x y z);
      [lia | lia | exact Hf].
  - intros fence ->. apply Hk. reflexivity.
Qed.

Lemma hoare_freq_write_electrical (args : Args.t) (rel_phase f : R)
    (n : Z) (d : list card) :
  hoare (at_freq n f d)
        (write_electrical args (mains_of args rel_phase f)
                          (ints_of args rel_phase f))
        (fun _ => at_freq n f (d ++ electrical_of args rel_phase f)).
Proof.
  unfold write_electrical, electrical_of.
  set (mains := mains_of args rel_phase f).
  assert (Hints : ints_of args rel_phase f
                  = if (Args.int_antennas args >? 0)%Z
                    then ints_of args rel_phase f else []).
  { unfold ints_of. destruct (Args.int_antennas args >? 0)%Z; reflexivity. }
  set (ints := ints_of args rel_phase f) in *.
  apply hoare_freq_bind_forM_write.
  eapply hoare_bind with (I := fun _ => at_freq n f ((d ++ flat_map repr_loads mains)
                                                     ++ flat_map repr_loads ints)).
  { destruct (Args.int_antennas args >? 0)%Z.
    - apply hoare_freq_forM_write. intros x m e _. apply hoare_freq_write.
    - apply hoare_ret. intros g Hg.
      try rewrite Hints in Hg. rewrite Hints.
      cbn [flat_map] in Hg |- *.
      rewrite ?app_nil_r in Hg. rewrite ?app_nil_r. exact Hg. }
  intros [].
  do 3 apply hoare_freq_bind_write.
  eapply hoare_bind.
  { apply hoare_freq_forM_write
      with (h := fun a => repr_excitations a ++ repr_transmissionlines a
                          ++ repr_comment_string a).
    intros x m e _.
    do 2 apply hoare_freq_bind_write.
    eapply hoare_weaken; [apply hoare_freq_write |].
    intros [] g Hg. rewrite <- !app_assoc in Hg. exact Hg. }
  intros [].
  eapply hoare_bind
    with (I := fun _ =>
                 at_freq n f
                   (((((((d ++ flat_map repr_loads mains)
                        ++ flat_map repr_loads ints)
                       ++ [ground_card 2 13 0.005])
                      ++ [extended_kernel_card]) ++ [max_coupling_card])
                     ++ flat_map (fun a => repr_excitations a
                                           ++ repr_transmissionlines a
                                           ++ repr_comment_string a) mains)
                    ++ flat_map (fun a => repr_excitations a
                                          ++ repr_transmissionlines a) ints)).
  { destruct (Args.int_antennas args >? 0)%Z.
    - apply hoare_freq_forM_write
        with (h := fun a => repr_excitations a ++ repr_transmissionlines a).
      intros x m e _.
      apply hoare_freq_bind_write.
      eapply hoare_weaken; [apply hoare_freq_write |].
      intros [] g Hg. rewrite <- !app_assoc in Hg. exact Hg.
    - apply hoare_ret. intros g Hg.
      try rewrite Hints in Hg. rewrite Hints.
      cbn [flat_map] in Hg |- *.
      rewrite ?app_nil_r in Hg. rewrite ?app_nil_r. exact Hg. }
  intros [].
  do 2 apply hoare_freq_bind_write.
  eapply hoare_weaken; [apply hoare_freq_write |].
  intros [] g Hg. rewrite <- !app_assoc in Hg. cbn [app] in Hg. exact Hg.
Qed.

Lemma hoare_mains_stage (args : Args.t) (rel_phase f : R) (d : list card) :
  (0 <= Args.antennas args)%Z -> f <> 0 ->
  hoare (at_freq 0 f d)
        (create_main_array (Args.antennas args) (Args.antenna_spacing args)
           (antenna_magnitudes (tables_of args rel_phase))
           (antenna_phases (tables_of args rel_phase))
           (Args.log_periodic args))
        (fun objs g' =>
           at_freq (per_antenna args * Args.antennas args) f d g' /\
           objs = mains_of args rel_phase f).
Proof.
  intros Hn Hf. eapply hoare_weaken.
  - apply hoare_freq_create_main_array;
      [apply tables_lengths, Hn | apply tables_lengths, Hn | left; exact Hf].
  - intros objs g [S ->]. split; [exact S | reflexivity].
Qed.

Lemma hoare_ints_stage (args : Args.t) (rel_phase f : R) (d : list card) :
  f <> 0 ->
  hoare (at_freq (per_antenna args * Args.antennas args) f d)
        (if (Args.int_antennas args >? 0)%Z then
           int_antenna_objects <-
             create_int_array (Args.int_antennas args)
               (Args.antenna_spacing args) (Args.int_x_spacing args)
               (Args.int_y_spacing args) (Args.int_z_spacing args)
               (int_antenna_magnitudes (tables_of args rel_phase))
               (int_antenna_phases (tables_of args rel_phase))
               (Args.log_periodic args) ;;
           forM_ (fun i_ant => write (repr_geometry i_ant))
                 int_antenna_objects ;;;
           ret int_antenna_objects
         else ret [])
        (fun objs g' =>
           at_freq (wires_of_arrays args) f
                   (d ++ flat_map repr_geometry (ints_of args rel_phase f)) g' /\
           objs = ints_of args rel_phase f).
Proof.
  intros Hf. unfold wires_of_arrays, ints_of.
  destruct (Z.gtb_spec (Args.int_antennas args) 0) as [Hpos | Hneg].
  - eapply hoare_bind_pure.
    + apply hoare_freq_create_int_array;
        [apply tables_lengths; lia | apply tables_lengths; lia | left; exact Hf].
    + intros objs ->. apply hoare_freq_bind_forM_write.
      apply hoare_ret. intros g Hg. split; [exact Hg | reflexivity].
  - apply hoare_ret. intros g Hg. cbn [flat_map].
    rewrite app_nil_r, Z.add_0_r. split; [exact Hg | reflexivity].
Qed.

Lemma wires_of_run_split (args : Args.t) :
  wires_of_run args
  = (wires_of_arrays args
     + (if Args.without_fence args then 0
        else 21 + (if (Args.int_antennas args >? 0)%Z then 21 else 0)))%Z.
Proof. reflexivity. Qed.

Lemma hoare_fences_stage (args : Args.t) (f : R) (d : list card) :
  f <> 0 ->
  hoare (at_freq (wires_of_arrays args) f d)
        (if negb (Args.without_fence args) then
           let reflector_length :=
             (IZR (Args.antennas args + 1) * Args.antenna_spacing args)%R in
           let reflector_spacing := 0.707%R in
           fence <- Reflector.__init__ reflector_length reflector_spacing
                                       15 21 13 45 0 0 0 ;;
           write (Reflector.__repr__ fence) ;;;
           if (Args.int_antennas args >? 0)%Z then
             let int_reflector_length :=
               (IZR (Args.int_antennas args + 1) * Args.antenna_spacing args)%R in
             let int_reflector_spacing := 0.707%R in
             fence <- Reflector.__init__ int_reflector_length
                                         int_reflector_spacing
                                         15 21 13 45 (Args.int_x_spacing args)
                                         (Args.int_y_spacing args)
                                         (Args.int_z_spacing args) ;;
             write (Reflector.__repr__ fence)
           else ret tt
         else ret tt)
        (fun _ => at_freq (wires_of_run args) f (d ++ fences_of args f)).
Proof.
  intros Hf. rewrite wires_of_run_split. unfold fences_of.
  destruct (Args.without_fence args); cbn [negb].
  - apply hoare_ret. intros g Hg. rewrite app_nil_r, Z.add_0_r. exact Hg.
  - hoare_zeta. apply hoare_freq_fence; [exact Hf |]. intros fence ->.
    apply hoare_freq_bind_write.
    destruct (Args.int_antennas args >? 0)%Z.
    + hoare_zeta. apply hoare_freq_fence; [exact Hf |]. intros fence2 ->.
      eapply hoare_weaken; [apply hoare_freq_write |].
      intros [] g Hg. rewrite <- app_assoc in Hg.
      replace (wires_of_arrays args + (21 + 21))%Z
        with (wires_of_arrays args + 21 + 21)%Z by lia.
      exact Hg.
    + apply hoare_ret. intros g Hg. rewrite app_nil_r, Z.add_0_r. exact Hg.
Qed.

Lemma hoare_freq_write_geometry (args : Args.t) (rel_phase f : R) :
  (0 <= Args.antennas args)%Z -> f <> 0 ->
  hoare (at_freq 0 f [])
        (write_geometry args (tables_of args rel_phase))
        (fun objs g' =>
           at_freq (wires_of_run args) f (geometry_of args rel_phase f) g' /\
           objs = (mains_of args rel_phase f, ints_of args rel_phase f)).
Proof.
  intros Hn Hf. unfold write_geometry, geometry_of.
  eapply hoare_bind_pure; [apply hoare_mains_stage; assumption |].
  intros mains ->. apply hoare_freq_bind_forM_write.
  eapply hoare_bind_pure; [apply hoare_ints_stage; exact Hf |].
  intros ints ->.
  eapply hoare_bind; [apply hoare_fences_stage; exact Hf |].
  intros []. unfold end_geometry, write_opt. cbn [Z.eqb negb].
  apply hoare_freq_bind_write.
  apply hoare_ret. intros g Hg. split; [| reflexivity].
  cbn [app] in Hg. rewrite <- !app_assoc in Hg. exact Hg.
Qed.

Lemma hoare_freq_write_conductivities (args : Args.t) (f : R) (d : list card) :
  hoare (at_freq (wires_of_run args) f d) (write_conductivities args)
        (fun _ => at_freq (wires_of_run args) f (d ++ conductivities_of args)).
Proof.
  unfold write_conductivities, conductivities_of.
  apply hoare_freq_bind_read_wire_number.
  apply hoare_freq_forM_write
    with (h := fun wire =>
                 [create_wire_conductivity wire 0 0
                    (if Args.log_periodic args then aluminum_conductivity
                     else copper_conductivity)]).
  intros x m e _.
  destruct (Args.log_periodic args); apply hoare_freq_write.
Qed.

Lemma hoare_freq_bind_open {B : Type} (writable : string -> bool)
    (path : string) (n : Z) (f : R) (d : list card) (k : unit -> M B)
    (Q : B -> globals -> Prop) :
  writable path = true ->
  hoare (at_freq n f []) (k tt) Q ->
  hoare (at_freq n f d) (bind (open_for_writing writable path) k) Q.
Proof.
  intros Hw H g (S1 & S2 & S3). unfold bind, open_for_writing. rewrite Hw.
  apply H. repeat split; assumption.
Qed.

(** From the choice of the phase distribution on, a run that can open its
    output file writes exactly [deck_of]. *)
Lemma hoare_deck (writable : string -> bool) (args : Args.t)
    (rel_phase f : R) :
  Args.circular_phase args = false ->
  Args.parabolic_phase args = false ->
  Args.broadened_beam args = false ->
  (0 <= Args.antennas args)%Z -> f <> 0 ->
  writable (Args.output_file args) = true ->
  hoare (at_freq 0 f []) (after_rel_phase writable args rel_phase)
        (fun _ => at_freq (wires_of_run args) f (deck_of args rel_phase f)).
Proof.
  intros Hc Hp Hb Hn Hf Hw. unfold after_rel_phase, deck_of.
  unfold excitation_tables. rewrite Hc, Hp, Hb.
  apply hoare_bind_ret.
  apply hoare_freq_bind_open; [exact Hw |].
  eapply hoare_bind_pure;
    [apply (@hoare_freq_write_geometry args rel_phase f Hn Hf) |].
  intros objs ->. cbn [fst snd].
  eapply hoare_bind; [apply hoare_freq_write_conductivities |].
  intros [].
  eapply hoare_weaken; [apply hoare_freq_write_electrical |].
  intros [] g Hg. rewrite <- app_assoc in Hg. exact Hg.
Qed.

(** What a completed run has written. *)
Lemma main_writes_deck (writable : string -> bool) (args : Args.t)
    (g' : globals) :
  main writable args initial_globals = (Ok tt, g') ->
  exists rel_phase g1,
    rel_phase_of args
      (mkGlobals 0 8e6 [PrintOutput (Args.output_file args)] [])
    = (Ok rel_phase, g1) /\
    ((Args.circular_phase args = false /\
      Args.parabolic_phase args = false /\
      Args.broadened_beam args = false) /\
     (0 <= Args.antennas args)%Z) /\
    wire_number g' = wires_of_run args /\
    outfile g' = deck_of args rel_phase 8e6.
Proof.
  intros Hrun. rewrite main_unfold in Hrun.
  apply bind_inv in Hrun. destruct Hrun as (rp & g1 & Hrp & Hrest).
  destruct (rel_phase_of_state _ _ Hrp) as (S1 & S2 & S3).
  pose proof (after_rel_phase_conditions _ _ _ _ Hrest) as Hcond.
  destruct Hcond as ((Hc & Hp & Hb) & Hn).
  pose proof (after_rel_phase_opened _ _ _ _ Hrest) as Hw.
  assert (Hf : 8e6 <> 0) by lra.
  destruct (@hoare_deck writable args rp 8e6 Hc Hp Hb Hn Hf Hw g1)
    as ([] & g2 & Hrun & HN & _ & HD).
  { repeat split; assumption. }
  rewrite Hrest in Hrun. injection Hrun as <-.
  exists rp, g1. split; [exact Hrp |].
  split; [repeat split; assumption |]. split; assumption.
Qed.

(** ** A run as a whole *)

Lemma array_antenna_cards (f : R) (num_antennas : Z) (spacing : R)
    (place : R -> R) (y z : R) (magnitudes phases : list R) (lp : bool)
    (index n : Z) :
  let a := array_antenna_at f num_antennas spacing place y z
                            magnitudes phases lp index n in
  Forall (fun c => section_of c = 0%nat) (repr_geometry a) /\
  List.length (repr_geometry a) = wires_per_antenna lp /\
  Forall (fun c => section_of c = 3%nat) (repr_loads a) /\
  Forall (fun c => section_of c = 7%nat)
         (repr_excitations a ++ repr_transmissionlines a
          ++ repr_comment_string a) /\
  Forall (fun c => section_of c = 7%nat)
         (repr_excitations a ++ repr_transmissionlines a).
Proof.
  unfold array_antenna_at. cbv zeta. destruct lp.
  - unfold LogPeriodic_at, LogPeriodic_drivens, repr_geometry, repr_loads,
      repr_excitations, repr_transmissionlines, repr_comment_string,
      LogPeriodic.repr_geometry, LogPeriodic.repr_drivens,
      LogPeriodic.repr_loads, LogPeriodic.repr_excitations,
      LogPeriodic.repr_transmissionlines, LogPeriodic.repr_comment_string.
    cbn [LogPeriodic.drivens LogPeriodic.excitation
         LogPeriodic.transmissionlines LogPeriodic.comment_string
         map app List.length wires_per_antenna].
    repeat split; repeat constructor.
  - unfold TTFD_at, repr_geometry, repr_loads,
      repr_excitations, repr_transmissionlines, repr_comment_string,
      TTFD.repr_geometry, TTFD.wires, TTFD.repr_loads, TTFD.repr_excitations,
      TTFD.repr_transmissionlines, TTFD.repr_comment_string.
    cbv zeta.
    cbn [TTFD.topleftwire TTFD.topwire TTFD.toprightwire TTFD.middlewire
         TTFD.bottomleftwire TTFD.bottomwire TTFD.bottomrightwire
         TTFD.topload TTFD.bottomload TTFD.excitation TTFD.comment_string
         map app List.length wires_per_antenna].
    repeat split; repeat constructor.
Qed.

Lemma Forall_flat_map_loop {A B C : Type} (v : A -> Z -> B)
    (h : B -> list C) (P : C -> Prop) (k : Z) (l : list A) (n : Z) :
  (forall x m, Forall P (h (v x m))) ->
  Forall P (flat_map h (loop_values v k l n)).
Proof.
  intros H. revert n.
  induction l as [| x l IH]; intros n; cbn [loop_values flat_map].
  - constructor.
  - apply Forall_app. split; [apply H | apply IH].
Qed.

Lemma length_flat_map_loop {A B C : Type} (v : A -> Z -> B)
    (h : B -> list C) (c : nat) (k : Z) (l : list A) (n : Z) :
  (forall x m, List.length (h (v x m)) = c) ->
  List.length (flat_map h (loop_values v k l n)) = (c * List.length l)%nat.
Proof.
  intros H. revert n.
  induction l as [| x l IH]; intros n; cbn [loop_values flat_map List.length].
  - lia.
  - rewrite length_app, H, IH. lia.
Qed.

Lemma fence_cards_sections (f length_m x y z : R) (n : Z) :
  Forall (fun c => section_of c = 0%nat) (fence_cards f length_m x y z n) /\
  List.length (fence_cards f length_m x y z n) = 21%nat.
Proof.
  unfold fence_cards, Reflector.__repr__. cbn [Reflector.reflector_wires].
  split.
  - apply Forall_map, Forall_forall. intros w _. reflexivity.
  - rewrite length_map, loop_values_length, py_range_length. reflexivity.
Qed.

Lemma mains_of_sections (args : Args.t) (rel_phase f : R) :
  Forall (fun c => section_of c = 0%nat)
         (flat_map repr_geometry (mains_of args rel_phase f)) /\
  List.length (flat_map repr_geometry (mains_of args rel_phase f))
  = (wires_per_antenna (Args.log_periodic args)
     * Z.to_nat (Args.antennas args))%nat /\
  Forall (fun c => section_of c = 3%nat)
         (flat_map repr_loads (mains_of args rel_phase f)) /\
  Forall (fun c => section_of c = 7%nat)
         (flat_map (fun a => repr_excitations a ++ repr_transmissionlines a
                             ++ repr_comment_string a)
                   (mains_of args rel_phase f)).
Proof.
  unfold mains_of.
  split; [apply Forall_flat_map_loop; intros x m; apply array_antenna_cards |].
  split; [rewrite length_flat_map_loop
            with (c := wires_per_antenna (Args.log_periodic args));
          [rewrite py_range_length; reflexivity
          | intros x m; apply array_antenna_cards] |].
  split; apply Forall_flat_map_loop; intros x m; apply array_antenna_cards.
Qed.

Lemma ints_of_sections (args : Args.t) (rel_phase f : R) :
  Forall (fun c => section_of c = 0%nat)
         (flat_map repr_geometry (ints_of args rel_phase f)) /\
  List.length (flat_map repr_geometry (ints_of args rel_phase f))
  = (if (Args.int_antennas args >? 0)%Z
     then wires_per_antenna (Args.log_periodic args)
          * Z.to_nat (Args.int_antennas args)
     else 0)%nat /\
  Forall (fun c => section_of c = 3%nat)
         (flat_map repr_loads (ints_of args rel_phase f)) /\
  Forall (fun c => section_of c = 7%nat)
         (flat_map (fun a => repr_excitations a ++ repr_transmissionlines a)
                   (ints_of args rel_phase f)).
Proof.
  unfold ints_of. destruct (Args.int_antennas args >? 0)%Z.
  - split; [apply Forall_flat_map_loop; intros x m; apply array_antenna_cards |].
    split; [rewrite length_flat_map_loop
              with (c := wires_per_antenna (Args.log_periodic args));
            [rewrite py_range_length; reflexivity
            | intros x m; apply array_antenna_cards] |].
    split; apply Forall_flat_map_loop; intros x m; apply array_antenna_cards.
  - cbn [flat_map List.length]. repeat split; constructor.
Qed.

Lemma fences_of_sections (args : Args.t) (f : R) :
  Forall (fun c => section_of c = 0%nat) (fences_of args f) /\
  List.length (fences_of args f)
  = (if Args.without_fence args then 0
     else 21 + (if (Args.int_antennas args >? 0)%Z then 21 else 0))%nat.
Proof.
  unfold fences_of. destruct (Args.without_fence args).
  - split; [constructor | reflexivity].
  - destruct (Args.int_antennas args >? 0)%Z.
    + split; [apply Forall_app; split; apply fence_cards_sections |].
      rewrite length_app. rewrite !(proj2 (fence_cards_sections _ _ _ _ _ _)).
      reflexivity.
    + rewrite app_nil_r. split; [apply fence_cards_sections |].
      rewrite (proj2 (fence_cards_sections _ _ _ _ _ _)). reflexivity.
Qed.

Lemma wires_of_run_nat (args : Args.t) :
  (0 <= Args.antennas args)%Z ->
  Z.to_nat (wires_of_run args)
  = (wires_per_antenna (Args.log_periodic args) * Z.to_nat (Args.antennas args)
     + (if (Args.int_antennas args >? 0)%Z
        then wires_per_antenna (Args.log_periodic args)
             * Z.to_nat (Args.int_antennas args)
        else 0)
     + (if Args.without_fence args then 0
        else 21 + (if (Args.int_antennas args >? 0)%Z then 21 else 0)))%nat.
Proof.
  intros Hn. unfold wires_of_run. cbv zeta.
  destruct (Z.gtb_spec (Args.int_antennas args) 0);
    destruct (Args.without_fence args); nia.
Qed.

(** X18.  The deck of every run that completes is in NEC order: the wire
    cards, as many as wires were constructed, closed by the one [GE 1]
    card; one conductivity card for each of them; the loads; the ground,
    extended-kernel and coupling cards; the sources with their
    transmission lines and comments; and last the frequency card, which
    carries [args.frequency] as given, the radiation-pattern card and
    [EN]. *)
Theorem deck_sections (writable : string -> bool) (args : Args.t)
    (g' : globals) :
  main writable args initial_globals = (Ok tt, g') ->
  exists geometry conductivities loads sources,
    outfile g'
    = geometry ++ [GE 1] ++ conductivities ++ loads
      ++ [ground_card 2 13 0.005; extended_kernel_card; max_coupling_card]
      ++ sources
      ++ [frequency_card 1 (Args.frequency args) 0.5;
          radiation_pattern_card 0 1 90 0 1 361;
          end_of_run_card] /\
    Forall (fun c => section_of c = 0%nat) geometry /\
    List.length geometry = Z.to_nat (wire_number g') /\
    Forall (fun c => section_of c = 2%nat) conductivities /\
    List.length conductivities = Z.to_nat (wire_number g') /\
    Forall (fun c => section_of c = 3%nat) loads /\
    Forall (fun c => section_of c = 7%nat) sources.
Proof.
  intros Hrun.
  destruct (main_writes_deck _ _ Hrun)
    as (rp & g1 & _ & (_ & Hn) & HN & HD).
  destruct (mains_of_sections args rp 8e6) as (M0 & ML & M3 & M7).
  destruct (ints_of_sections args rp 8e6) as (I0 & IL & I3 & I7).
  destruct (fences_of_sections args 8e6) as (F0 & FL).
  exists (flat_map repr_geometry (mains_of args rp 8e6)
          ++ flat_map repr_geometry (ints_of args rp 8e6)
          ++ fences_of args 8e6),
         (conductivities_of args),
         (flat_map repr_loads (mains_of args rp 8e6)
          ++ flat_map repr_loads (ints_of args rp 8e6)),
         (flat_map (fun a => repr_excitations a ++ repr_transmissionlines a
                             ++ repr_comment_string a)
                   (mains_of args rp 8e6)
          ++ flat_map (fun a => repr_excitations a ++ repr_transmissionlines a)
                      (ints_of args rp 8e6)).
  split.
  { rewrite HD. unfold deck_of, geometry_of, electrical_of.
    rewrite <- !app_assoc. reflexivity. }
  split; [repeat (apply Forall_app; split); assumption |].
  split.
  { rewrite !length_app, ML, IL, FL, HN, (wires_of_run_nat args Hn). lia. }
  split.
  { unfold conductivities_of. apply Forall_flat_map, Forall_forall.
    intros w _. repeat constructor. }
  split.
  { unfold conductivities_of. rewrite HN.
    rewrite flat_map_constant_length with (c := 1%nat) by reflexivity.
    rewrite py_range_length. lia. }
  split; apply Forall_app; split; assumption.
Qed.

Lemma deck_sections_witness :
  exists g' geometry conductivities loads sources,
    main all_writable Args.defaults initial_globals = (Ok tt, g') /\
    outfile g'
    = geometry ++ [GE 1] ++ conductivities ++ loads
      ++ [GN 2 13 0.005; EK; CP]
      ++ sources
      ++ [FR 1 (PyFloat 10.5) 0.5; RP 90 361 0 0 1 1; EN] /\
    List.length geometry = 182%nat /\
    List.length conductivities = 182%nat.
Proof.
  destruct (main_deck all_writable Args.defaults eq_refl eq_refl eq_refl
              eq_refl ltac:(simpl; lia) eq_refl) as (g' & Hrun & HK).
  change (wires_of_run Args.defaults) with 182%Z in HK.
  destruct (deck_sections all_writable Args.defaults Hrun)
    as (G & C & L & S & HD & _ & HG & _ & HC & _).
  rewrite HK in HG, HC.
  exists g', G, C, L, S.
  split; [exact Hrun |]. split; [exact HD |]. split; [exact HG | exact HC].
Defined.

Lemma is_int_zero_true (v : pyval) : is_int_zero v = true -> v = PyInt 0.
Proof.
  destruct v as [[| p | p] | r | s]; try discriminate. reflexivity.
Qed.

Lemma main_started (writable : string -> bool) (args : Args.t) :
  main writable args initial_globals
  = bind (rel_phase_of args) (after_rel_phase writable args) (started args).
Proof. reflexivity. Qed.

(** The relative phase is computed unless a beam is requested and the
    frequency is a string or zero. *)
Lemma rel_phase_of_succeeds (args : Args.t) (g : globals) :
  (exists rp g1, rel_phase_of args g = (Ok rp, g1)) <->
  (Args.beam args = PyInt 0 \/
   exists b fr,
     float_of (Args.beam args) = Ok b /\
     mul_float (Args.frequency args) 1e6 = Ok fr /\ fr <> 0).
Proof.
  split.
  - intros (rp & g1 & H). unfold rel_phase_of in H.
    destruct (is_int_zero (Args.beam args)) eqn:E; cbn [negb] in H.
    + left. apply is_int_zero_true, E.
    + right. unfold bind at 1, lift at 1 in H.
      destruct (mul_float (Args.frequency args) 1e6) as [fr | e];
        [| discriminate].
      unfold bind at 1, lift at 1 in H.
      destruct (float_of (Args.beam args)) as [b | e]; [| discriminate].
      exists b, fr. split; [reflexivity |]. split; [reflexivity |].
      intros ->. unfold calculate_phase_from_beam, bind, lift, fdiv in H.
      destruct (Req_dec_T 0 0) as [_ | N]; [discriminate | apply N; reflexivity].
  - intros [Hb | (b & fr & Hb & Hm & Hfr)].
    + rewrite (rel_phase_default_beam _ _ Hb). eexists. eexists. reflexivity.
    + unfold rel_phase_of.
      destruct (negb (is_int_zero (Args.beam args)));
        [| eexists; eexists; reflexivity].
      unfold bind at 1, lift at 1. rewrite Hm.
      unfold bind at 1, lift at 1. rewrite Hb.
      rewrite (@calculate_phase_from_beam_value b fr
                 (Args.antenna_spacing args) g Hfr).
      eexists. eexists. reflexivity.
Qed.

(** X19.  What a completed run tells about its arguments: none of the
    three special phase distributions was requested, the number of main
    antennas is not negative, the output file could be opened and, if a
    beam was given, the frequency is a number other than zero, hence not
    the string that the frequency option leaves. *)
Theorem completed_run_conditions (writable : string -> bool)
    (args : Args.t) (g' : globals) :
  main writable args initial_globals = (Ok tt, g') ->
  (Args.circular_phase args = false /\
   Args.parabolic_phase args = false /\
   Args.broadened_beam args = false) /\
  (0 <= Args.antennas args)%Z /\
  writable (Args.output_file args) = true /\
  (Args.beam args = PyInt 0 \/
   exists b fr,
     float_of (Args.beam args) = Ok b /\
     mul_float (Args.frequency args) 1e6 = Ok fr /\ fr <> 0).
Proof.
  intros Hrun.
  destruct (main_writes_deck _ _ Hrun) as (rp & g1 & Hrp & (Hflags & Hn) & _).
  split; [exact Hflags |]. split; [exact Hn |]. split.
  - rewrite main_started in Hrun. apply bind_inv in Hrun.
    destruct Hrun as (rp' & g2 & _ & Hrest).
    exact (after_rel_phase_opened _ _ _ _ Hrest).
  - apply (rel_phase_of_succeeds args (started args)).
    exists rp, g1. exact Hrp.
Qed.

Lemma completed_run_conditions_witness :
  exists g',
    main all_writable Args.defaults initial_globals = (Ok tt, g') /\
    (0 <= Args.antennas Args.defaults)%Z /\
    all_writable (Args.output_file Args.defaults) = true.
Proof.
  destruct (main_deck all_writable Args.defaults eq_refl eq_refl eq_refl
              eq_refl ltac:(simpl; lia) eq_refl) as (g' & Hrun & _).
  destruct (completed_run_conditions all_writable Args.defaults Hrun)
    as (_ & Hn & Hw & _).
  exists g'. split; [exact Hrun |]. split; [exact Hn | exact Hw].
Defined.

(** With one of the special phase distributions requested, the choice of
    the tables fails, in any state and for any relative phase. *)
Lemma excitation_tables_raises (args : Args.t) (rel_phase : R) (g : globals) :
  Args.circular_phase args = true \/ Args.parabolic_phase args = true \/
  Args.broadened_beam args = true ->
  excitation_tables args rel_phase g
  = (Raise (match Args.frequency args with
            | PyStr _ => TypeError
            | _ => if Args.circular_phase args || Args.parabolic_phase args
                   then NotImplementedError else TypeError
            end), g).
Proof.
  intros Hflag. unfold excitation_tables.
  destruct (Args.circular_phase args).
  { unfold bind at 1, lift at 1.
    destruct (Args.frequency args); reflexivity. }
  destruct (Args.parabolic_phase args).
  { unfold bind at 1, lift at 1.
    destruct (Args.frequency args); reflexivity. }
  destruct (Args.broadened_beam args).
  { unfold bind at 1, lift at 1.
    destruct (Args.frequency args); cbn [mul_float orb];
      try reflexivity;
      unfold bind at 1; rewrite calculate_broadened_phase_outcome;
      reflexivity. }
  destruct Hflag as [H | [H | H]]; discriminate.
Qed.

(** X20.  None of the three special phase distributions can be used: a
    run that requests one ends in an exception before the output file is
    opened, with no card written and no wire constructed.  Without a beam
    the exception is a [NotImplementedError] for the circular and the
    parabolic distribution and a [TypeError] for the broadened beam, or a
    [TypeError] at [args.frequency * 1e6] when the frequency is a
    string. *)
Theorem special_phase_options_fail (writable : string -> bool)
    (args : Args.t) :
  Args.circular_phase args = true \/ Args.parabolic_phase args = true \/
  Args.broadened_beam args = true ->
  (exists e g',
      main writable args initial_globals = (Raise e, g') /\
      outfile g' = [] /\ wire_number g' = 0%Z) /\
  (Args.beam args = PyInt 0 ->
   main writable args initial_globals
   = (Raise (match Args.frequency args with
             | PyStr _ => TypeError
             | _ => if Args.circular_phase args || Args.parabolic_phase args
                    then NotImplementedError else TypeError
             end), started args)).
Proof.
  intros Hflag. rewrite main_started. split.
  - unfold bind at 1.
    destruct (rel_phase_of args (started args)) as [[rp | e] g1] eqn:Hrp;
      destruct (rel_phase_of_state _ _ Hrp) as (S1 & _ & S3).
    + unfold after_rel_phase, bind at 1.
      rewrite (excitation_tables_raises _ rp g1 Hflag).
      eexists. exists g1. split; [reflexivity |].
      split; [exact S3 | exact S1].
    + exists e, g1. split; [reflexivity |]. split; [exact S3 | exact S1].
  - intros Hbeam. unfold bind at 1.
    rewrite (rel_phase_default_beam _ _ Hbeam).
    unfold after_rel_phase, bind at 1.
    rewrite (excitation_tables_raises _ 0 (started args) Hflag). reflexivity.
Qed.

Lemma special_phase_options_fail_witness :
  let args :=
    Args.mk 16 4 500 0 false true false (PyInt 0) (PyFloat 10.5) false
            15.24 0 (-100) 0 "superdarn_array_output.nec" false in
  main all_writable args initial_globals
  = (Raise NotImplementedError, started args).
Proof.
  intros args.
  exact (proj2 (special_phase_options_fail all_writable args
                  (or_introl eq_refl)) eq_refl).
Defined.

(** X21.  A frequency given on the command line stays a string.  With a
    beam, or with one of the special phase distributions, the run then
    ends in a [TypeError] at [args.frequency * 1e6], before anything is
    written. *)
Theorem frequency_option_breaks_steering (writable : string -> bool)
    (args : Args.t) (s : string) :
  Args.frequency args = PyStr s ->
  Args.beam args <> PyInt 0 \/ Args.circular_phase args = true \/
  Args.parabolic_phase args = true \/ Args.broadened_beam args = true ->
  main writable args initial_globals = (Raise TypeError, started args).
Proof.
  intros Hfreq Hcase. rewrite main_started. unfold bind at 1.
  destruct (is_int_zero (Args.beam args)) eqn:E.
  - rewrite (rel_phase_default_beam _ _ (is_int_zero_true _ E)).
    destruct Hcase as [Hbeam | Hflag].
    { elim Hbeam. apply is_int_zero_true, E. }
    unfold after_rel_phase, bind at 1, excitation_tables.
    destruct (Args.circular_phase args).
    { unfold bind at 1, lift at 1. rewrite Hfreq. reflexivity. }
    destruct (Args.parabolic_phase args).
    { unfold bind at 1, lift at 1. rewrite Hfreq. reflexivity. }
    destruct (Args.broadened_beam args).
    { unfold bind at 1, lift at 1. rewrite Hfreq. reflexivity. }
    destruct Hflag as [H | [H | H]]; discriminate.
  - unfold rel_phase_of. rewrite E. cbn [negb].
    unfold bind at 1, lift at 1. rewrite Hfreq. reflexivity.
Qed.

Lemma frequency_option_breaks_steering_witness :
  let args :=
    Args.mk 16 4 500 0 false false false (PyFloat 3) (PyStr "12") false
            15.24 0 (-100) 0 "superdarn_array_output.nec" false in
  main all_writable args initial_globals = (Raise TypeError, started args).
Proof.
  intros args.
  apply (@frequency_option_breaks_steering all_writable args "12");
    [reflexivity |].
  left. discriminate.
Defined.

(** ** The currents of a run *)

Lemma amplitudes_app (a b : list card) :
  amplitudes (a ++ b) = amplitudes a ++ amplitudes b.
Proof. apply flat_map_app. Qed.

Lemma amplitudes_other (k : nat) (l : list card) :
  k <> 7%nat -> Forall (fun c => section_of c = k) l -> amplitudes l = [].
Proof.
  intros Hk H. induction H as [| c l Hc _ IH]; [reflexivity |].
  unfold amplitudes in IH |- *. cbn [flat_map]. rewrite IH.
  destruct c; try reflexivity. elim Hk. symmetry. exact Hc.
Qed.

Lemma amplitudes_Source (tag segment : Z) (re im : R) :
  amplitudes [Source.__init__ tag segment re im true] = [source_current re im].
Proof.
  unfold Source.__init__, source_current, amplitudes.
  cbn [flat_map app].
  destruct (Req_dec_T re 0) as [-> |], (Req_dec_T im 0) as [-> |];
    rewrite ?Rplus_0_l; reflexivity.
Qed.

Lemma array_antenna_amplitudes (f : R) (num_antennas : Z) (spacing : R)
    (place : R -> R) (y z : R) (magnitudes phases : list R) (lp : bool)
    (index n : Z) :
  let a := array_antenna_at f num_antennas spacing place y z
                            magnitudes phases lp index n in
  let phase := nth (Z.to_nat index) phases 0 in
  let magnitude := nth (Z.to_nat index) magnitudes 0 in
  let current := source_current (magnitude * cos (phase * PI / 180))
                                (magnitude * sin (phase * PI / 180)) in
  amplitudes (repr_excitations a ++ repr_transmissionlines a
              ++ repr_comment_string a) = [current] /\
  amplitudes (repr_excitations a ++ repr_transmissionlines a) = [current].
Proof.
  unfold array_antenna_at. cbv zeta. destruct lp.
  - unfold LogPeriodic_at, repr_excitations, repr_transmissionlines,
      repr_comment_string, LogPeriodic.repr_excitations,
      LogPeriodic.repr_transmissionlines, LogPeriodic.repr_comment_string.
    cbn [LogPeriodic.excitation LogPeriodic.transmissionlines
         LogPeriodic.comment_string map].
    rewrite !amplitudes_app, amplitudes_Source. split; reflexivity.
  - unfold TTFD_at, repr_excitations, repr_transmissionlines,
      repr_comment_string, TTFD.repr_excitations,
      TTFD.repr_transmissionlines, TTFD.repr_comment_string.
    cbv zeta. cbn [TTFD.excitation TTFD.comment_string].
    rewrite !amplitudes_app, amplitudes_Source. split; reflexivity.
Qed.

Lemma amplitudes_flat_map_loop {A B : Type} (v : A -> Z -> B)
    (h : B -> list card) (c : A -> R * R) (k : Z) (l : list A) (n : Z) :
  (forall x m, In x l -> amplitudes (h (v x m)) = [c x]) ->
  amplitudes (flat_map h (loop_values v k l n)) = map c l.
Proof.
  revert n. induction l as [| x l IH]; intros n H; [reflexivity |].
  cbn [loop_values flat_map map].
  rewrite amplitudes_app, H by (left; reflexivity).
  rewrite IH by (intros y m Hy; apply H; right; exact Hy). reflexivity.
Qed.

Lemma nth_map_py_range (f : Z -> R) (stop x : Z) :
  In x (py_range 0 stop) ->
  nth (Z.to_nat x) (map f (py_range 0 stop)) 0 = f x.
Proof.
  intros Hin. apply In_nth_error in Hin. destruct Hin as (i & Hi).
  destruct (py_range_nth _ _ Hi) as (-> & _).
  rewrite Nat2Z.id.
  apply nth_error_nth. apply map_nth_error. exact Hi.
Qed.

Lemma amplitudes_mains (args : Args.t) (rel_phase f : R) :
  amplitudes
    (flat_map (fun a => repr_excitations a ++ repr_transmissionlines a
                        ++ repr_comment_string a)
              (mains_of args rel_phase f))
  = map (fun m => source_current (cos (rel_phase * IZR m * PI / 180))
                                 (sin (rel_phase * IZR m * PI / 180)))
        (py_range 0 (Args.antennas args)).
Proof.
  unfold mains_of. apply amplitudes_flat_map_loop. intros x m Hx.
  rewrite (proj1 (array_antenna_amplitudes _ _ _ _ _ _ _ _ _ _ _)).
  cbn [tables_of antenna_magnitudes antenna_phases].
  rewrite (nth_map_py_range (fun _ => 1) _ _ Hx).
  rewrite (nth_map_py_range (fun m_ant => rel_phase * IZR m_ant) _ _ Hx).
  rewrite !Rmult_1_l. reflexivity.
Qed.

Lemma amplitudes_ints (args : Args.t) (rel_phase f : R) :
  amplitudes
    (flat_map (fun a => repr_excitations a ++ repr_transmissionlines a)
              (ints_of args rel_phase f))
  = map (fun _ => (1e-10, 1e-10)) (py_range 0 (Args.int_antennas args)).
Proof.
  unfold ints_of.
  destruct (Z.gtb_spec (Args.int_antennas args) 0) as [Hpos | Hneg].
  - apply amplitudes_flat_map_loop. intros x m Hx.
    rewrite (proj2 (array_antenna_amplitudes _ _ _ _ _ _ _ _ _ _ _)).
    cbn [tables_of int_antenna_magnitudes int_antenna_phases].
    rewrite (nth_map_py_range (fun _ => 0) _ _ Hx).
    rewrite !Rmult_0_l. unfold source_current.
    destruct (Req_dec_T 0 0) as [_ | N]; [reflexivity | elim N; reflexivity].
  - unfold py_range.
    replace (Z.to_nat (Args.int_antennas args - 0)) with 0%nat by lia.
    reflexivity.
Qed.

Lemma amplitudes_deck (args : Args.t) (rel_phase f : R) :
  amplitudes (deck_of args rel_phase f)
  = map (fun m => source_current (cos (rel_phase * IZR m * PI / 180))
                                 (sin (rel_phase * IZR m * PI / 180)))
        (py_range 0 (Args.antennas args))
    ++ map (fun _ => (1e-10, 1e-10)) (py_range 0 (Args.int_antennas args)).
Proof.
  destruct (mains_of_sections args rel_phase f) as (M0 & _ & M3 & _).
  destruct (ints_of_sections args rel_phase f) as (I0 & _ & I3 & _).
  destruct (fences_of_sections args f) as (F0 & _).
  assert (C2 : Forall (fun c => section_of c = 2%nat) (conductivities_of args)).
  { unfold conductivities_of. apply Forall_flat_map, Forall_forall.
    intros w _. repeat constructor. }
  unfold deck_of, geometry_of, electrical_of.
  rewrite !amplitudes_app.
  rewrite (@amplitudes_other 0 _ ltac:(discriminate) M0).
  rewrite (@amplitudes_other 0 _ ltac:(discriminate) I0).
  rewrite (@amplitudes_other 0 _ ltac:(discriminate) F0).
  rewrite (@amplitudes_other 2 _ ltac:(discriminate) C2).
  rewrite (@amplitudes_other 3 _ ltac:(discriminate) M3).
  rewrite (@amplitudes_other 3 _ ltac:(discriminate) I3).
  rewrite amplitudes_mains, amplitudes_ints.
  cbn [amplitudes flat_map app ground_card extended_kernel_card
       max_coupling_card frequency_card radiation_pattern_card
       end_of_run_card].
  rewrite app_nil_r. reflexivity.
Qed.

(** X22.  In the deck of a run that completes, the source of main antenna
    [m] carries the current [(cos (m * p), sin (m * p))], [p] being the
    relative phase in degrees, with [1e-10] in place of a component that is
    exactly zero; every interferometer antenna carries [(1e-10, 1e-10)],
    its magnitude being zero.  Without a beam every main antenna carries
    [(1, 1e-10)]. *)
Theorem run_excitation_currents (writable : string -> bool)
    (args : Args.t) (g' : globals) :
  main writable args initial_globals = (Ok tt, g') ->
  exists rel_phase g1,
    rel_phase_of args (started args) = (Ok rel_phase, g1) /\
    amplitudes (outfile g')
    = map (fun m => source_current (cos (rel_phase * IZR m * PI / 180))
                                   (sin (rel_phase * IZR m * PI / 180)))
          (py_range 0 (Args.antennas args))
      ++ map (fun _ => (1e-10, 1e-10)) (py_range 0 (Args.int_antennas args)) /\
    (Args.beam args = PyInt 0 ->
     amplitudes (outfile g')
     = map (fun _ => (1, 1e-10)) (py_range 0 (Args.antennas args))
       ++ map (fun _ => (1e-10, 1e-10))
              (py_range 0 (Args.int_antennas args))).
Proof.
  intros Hrun.
  destruct (main_writes_deck _ _ Hrun) as (rp & g1 & Hrp & _ & _ & HD).
  exists rp, g1. split; [exact Hrp |].
  rewrite HD, amplitudes_deck. split; [reflexivity |].
  intros Hbeam.
  change (mkGlobals 0 8e6 [PrintOutput (Args.output_file args)] [])
    with (started args) in Hrp.
  rewrite (rel_phase_default_beam _ _ Hbeam) in Hrp. injection Hrp as <- _.
  f_equal. apply map_ext. intros m.
  replace (0 * IZR m * PI / 180) with 0 by lra.
  rewrite cos_0, sin_0. unfold source_current.
  destruct (Req_dec_T 1 0) as [H | _]; [lra |].
  destruct (Req_dec_T 0 0) as [_ | N]; [reflexivity | elim N; reflexivity].
Qed.

Lemma run_excitation_currents_witness :
  exists g',
    main all_writable Args.defaults initial_globals = (Ok tt, g') /\
    amplitudes (outfile g')
    = map (fun _ => (1, 1e-10)) (py_range 0 16)
      ++ map (fun _ => (1e-10, 1e-10)) (py_range 0 4).
Proof.
  destruct (main_deck all_writable Args.defaults eq_refl eq_refl eq_refl
              eq_refl ltac:(simpl; lia) eq_refl) as (g' & Hrun & _).
  destruct (run_excitation_currents all_writable Args.defaults Hrun)
    as (rp & g1 & _ & _ & H).
  exists g'. split; [exact Hrun | exact (H eq_refl)].
Defined.

(** ** Options without effect *)

(** X23.  The options [--power] and [--phase] are parsed and never read:
    whatever values they are given, the run is the same, in its outcome,
    its deck and its printed lines. *)
Theorem power_and_phase_are_ignored (writable : string -> bool)
    (args : Args.t) (power phase : R) (g : globals) :
  main writable (with_power_and_phase args power phase) g
  = main writable args g.
Proof.
  destruct args. reflexivity.
Qed.

Lemma deck_of_with_frequency (args : Args.t) (value : pyval) (f : R) :
  exists body,
    deck_of args 0 f
    = body ++ [frequency_card 1 (Args.frequency args) 0.5;
               radiation_pattern_card 0 1 90 0 1 361; end_of_run_card] /\
    deck_of (with_frequency args value) 0 f
    = body ++ [frequency_card 1 value 0.5;
               radiation_pattern_card 0 1 90 0 1 361; end_of_run_card].
Proof.
  exists (geometry_of args 0 f ++ conductivities_of args
          ++ flat_map repr_loads (mains_of args 0 f)
          ++ flat_map repr_loads (ints_of args 0 f)
          ++ [ground_card 2 13 0.005; extended_kernel_card; max_coupling_card]
          ++ flat_map (fun a => repr_excitations a ++ repr_transmissionlines a
                                ++ repr_comment_string a)
                      (mains_of args 0 f)
          ++ flat_map (fun a => repr_excitations a ++ repr_transmissionlines a)
                      (ints_of args 0 f)).
  split.
  - unfold deck_of, electrical_of. rewrite <- !app_assoc. reflexivity.
  - destruct args. unfold deck_of, electrical_of. rewrite <- !app_assoc.
    reflexivity.
Qed.

(** X24.  Without a beam, the frequency option changes one card of the
    deck and nothing else: two completed runs that differ only in the
    frequency construct the same wires, with the same segment counts, and
    write the same cards up to the frequency card.  The segmentation
    follows the minimum frequency of the module, not the frequency of the
    run. *)
Theorem frequency_changes_one_card (writable : string -> bool)
    (args : Args.t) (value : pyval) (g1 g2 : globals) :
  Args.beam args = PyInt 0 ->
  main writable args initial_globals = (Ok tt, g1) ->
  main writable (with_frequency args value) initial_globals = (Ok tt, g2) ->
  wire_number g2 = wire_number g1 /\
  exists body,
    outfile g1
    = body ++ [frequency_card 1 (Args.frequency args) 0.5;
               radiation_pattern_card 0 1 90 0 1 361; end_of_run_card] /\
    outfile g2
    = body ++ [frequency_card 1 value 0.5;
               radiation_pattern_card 0 1 90 0 1 361; end_of_run_card].
Proof.
  intros Hbeam H1 H2.
  destruct (main_writes_deck _ _ H1) as (rp1 & s1 & Hrp1 & _ & HN1 & HD1).
  destruct (main_writes_deck _ _ H2) as (rp2 & s2 & Hrp2 & _ & HN2 & HD2).
  rewrite (rel_phase_default_beam _ _ Hbeam) in Hrp1. injection Hrp1 as <- _.
  assert (Hbeam2 : Args.beam (with_frequency args value) = PyInt 0)
    by exact Hbeam.
  rewrite (rel_phase_default_beam _ _ Hbeam2) in Hrp2. injection Hrp2 as <- _.
  split.
  - rewrite HN1, HN2. destruct args. reflexivity.
  - destruct (deck_of_with_frequency args value 8e6) as (body & B1 & B2).
    exists body. rewrite HD1, HD2. split; assumption.
Qed.

Lemma frequency_changes_one_card_witness :
  exists g1 g2 body,
    main all_writable Args.defaults initial_globals = (Ok tt, g1) /\
    main all_writable (with_frequency Args.defaults (PyStr "12"))
         initial_globals
    = (Ok tt, g2) /\
    wire_number g2 = wire_number g1 /\
    outfile g1 = body ++ [FR 1 (PyFloat 10.5) 0.5; RP 90 361 0 0 1 1; EN] /\
    outfile g2 = body ++ [FR 1 (PyStr "12") 0.5; RP 90 361 0 0 1 1; EN].
Proof.
  destruct (main_deck all_writable Args.defaults eq_refl eq_refl eq_refl
              eq_refl ltac:(simpl; lia) eq_refl) as (g1 & H1 & _).
  destruct (main_deck all_writable (with_frequency Args.defaults (PyStr "12"))
              eq_refl eq_refl eq_refl eq_refl ltac:(simpl; lia) eq_refl)
    as (g2 & H2 & _).
  destruct (@frequency_changes_one_card all_writable Args.defaults
              (PyStr "12") g1 g2 eq_refl H1 H2) as (HN & body & B1 & B2).
  exists g1, g2, body.
  split; [exact H1 |]. split; [exact H2 |]. split; [exact HN |].
  split; [exact B1 | exact B2].
Defined.
